(** * ESP32 serial OTA uploader: the protocol engine of [raw.py]

    A shallow embedding of the host-side uploader: the CRC-16/XMODEM
    routine, the outbound frame encoder, the acknowledgment scanner, the
    reset sequence, the sync handshake and the chunked upload loop.

    Conventions.
    - A Python [bytes] value is a [list byte]; a Python [int] is a [Z].
    - Durations are integers in milliseconds ([time.sleep(0.1)] is
      [Sleep 100], a [timeout=1.0] argument is [1000]).
    - A Python [str] is kept symbolic (type [text]): a literal of the
      source, or the result of [bytes.decode] on given bytes. *)

From Stdlib Require Import ZArith List Bool Lia String.
From Stdlib Require Import Strings.Byte.
Import ListNotations.

#[local] Open Scope Z_scope.

(** ** Bytes and [struct] packing *)

Definition byte_val (b : byte) : Z := Z.of_N (Byte.to_N b).

Definition byte_of_Z (z : Z) : option byte :=
  if z <? 0 then None else Byte.of_N (Z.to_N z).

(** [struct.pack('B', v)]: one unsigned byte, [None] for [struct.error]. *)
Definition pack_B (v : Z) : option (list byte) :=
  match byte_of_Z v with
  | Some b => Some [b]
  | None => None
  end.

(** [struct.pack('>H', v)]: two bytes, most significant first. *)
Definition pack_H (v : Z) : option (list byte) :=
  if (0 <=? v) && (v <? 65536) then
    match byte_of_Z (v / 256), byte_of_Z (v mod 256) with
    | Some hi, Some lo => Some [hi; lo]
    | _, _ => None
    end
  else None.

(** [struct.pack('>I', v)]: four bytes, most significant first. *)
Definition pack_I (v : Z) : option (list byte) :=
  if (0 <=? v) && (v <? 4294967296) then
    match byte_of_Z (v / 16777216), byte_of_Z ((v / 65536) mod 256),
          byte_of_Z ((v / 256) mod 256), byte_of_Z (v mod 256) with
    | Some b3, Some b2, Some b1, Some b0 => Some [b3; b2; b1; b0]
    | _, _, _, _ => None
    end
  else None.

(** [struct.unpack('>H', bs)[0]] on a two-byte argument. *)
Definition unpack_H (bs : list byte) : Z :=
  match bs with
  | [hi; lo] => byte_val hi * 256 + byte_val lo
  | _ => 0
  end.

(** Python slices [l[i:j]] and [l[i:]] for non-negative bounds. *)
Definition slice {A} (l : list A) (i j : nat) : list A :=
  firstn (j - i) (skipn i l).

(** ** Constants of the protocol *)

Definition OTA_FRAME_HEADER : Z := 0xABCD.
Definition OTA_ACK_HEADER_SEQ : list byte := [xaa; x55].

Definition OTA_CMD_START : Z := 0x01.
Definition OTA_CMD_DATA : Z := 0x02.
Definition OTA_CMD_END : Z := 0x03.
Definition OTA_CMD_VERIFY : Z := 0x04.

Definition CHUNK_SIZE : nat := 4096.

(** ** CRC engine *)

(** One pass of the inner loop: shift, then fold the polynomial in when
    bit 16 came out.  The accumulator is a Python integer and is not
    masked here, so bits above 16 pile up until the final mask. *)
Definition crc_round (crc : Z) : Z :=
  let crc := Z.shiftl crc 1 in
  if Z.land crc 0x10000 =? 0 then crc else Z.lxor crc 0x1021.

Definition crc_byte (crc : Z) (b : byte) : Z :=
  Nat.iter 8 crc_round (Z.lxor crc (Z.shiftl (byte_val b) 8)).

Definition crc16_xmodem (data : list byte) : Z :=
  Z.land (fold_left crc_byte data 0) 0xFFFF.

(** The low 16 bits of an accumulator. *)
Definition low16 (r : Z) : Z := Z.land r 0xFFFF.

(** The textbook CRC-16/XMODEM register: 16 bits wide at every step,
    polynomial 0x1021, initial value 0, most significant bit first. *)
Definition xmodem_round (r : Z) : Z :=
  if Z.testbit r 15
  then Z.land (Z.lxor (Z.shiftl r 1) 0x1021) 0xFFFF
  else Z.land (Z.shiftl r 1) 0xFFFF.

Definition xmodem_byte (r : Z) (b : byte) : Z :=
  Nat.iter 8 xmodem_round (Z.lxor r (Z.shiftl (byte_val b) 8)).

Definition xmodem_reference (data : list byte) : Z :=
  fold_left xmodem_byte data 0.

(** ** The world the uploader runs in *)

(** Python [str] values, kept symbolic. *)
Inductive text : Type :=
| Lit (s : string)                 (* a string literal of the source *)
| Utf8Replace (bs : list byte)     (* bs.decode('utf-8', errors='replace') *)
| Utf8Ignore (bs : list byte).     (* bs.decode('utf-8', errors='ignore') *)

(** The lines the program prints. *)
Inductive console : Type :=
| ResetStart | ResetWaitBoot | ResetReady
| GarbageDiscarded (garbage : list byte)
| CrcError (crc_recv crc_calc : Z)
| DeviceOutput (shown : text)
| SyncStart
| SyncOk (msg : text)
| SyncDeviceError (msg : text)
| SyncAttemptTimeout (attempt : nat)
| FileMissing
| FirmwareSize (file_size : nat)
| SendingStart
| StartFailed (msg : text)
| StartOk (msg : text)
| SendingData
| ChunkFailed (current_chunk : nat) (msg : text)
| Progress (percent offset file_size : nat)
| DataDone
| SendingEnd
| EndFailed (msg : text)
| UpgradeOk (msg : text).

(** What the program does to its surroundings, in order. *)
Inductive event : Type :=
| SetDTR (level : bool)
| SetRTS (level : bool)
| Sleep (ms : Z)
| ResetInputBuffer
| Write (data : list byte)
| Flush
| Print (line : console).

(** The open serial port: the two control lines and the bytes received
    by the driver and not yet read by the program. *)
Record Serial : Type := mkSerial {
  dtr : bool;
  rts : bool;
  rx : list byte
}.

(** One reading of the surroundings by the acknowledgment wait loop: each
    evaluation of its guard consumes one tick, which tells whether the
    clock is still short of the deadline and which bytes reached the
    driver since the previous reading.  An exhausted list means the
    deadline has passed and the line stays silent. *)
Record tick : Type := mkTick {
  in_time : bool;
  arrived : list byte
}.

Record World : Type := mkWorld {
  ser : option Serial;       (* self.ser *)
  env : list tick;
  trace : list event
}.

(** Results: a value, a [struct.error] exception, or a loop out of fuel. *)
Inductive res (A : Type) : Type :=
| Ok (a : A)
| StructError
| OutOfFuel.
Arguments Ok {A} a.
Arguments StructError {A}.
Arguments OutOfFuel {A}.

Definition M (A : Type) : Type := World -> res A * World.

Definition ret {A} (a : A) : M A := fun w => (Ok a, w).

Definition bind {A B} (m : M A) (k : A -> M B) : M B :=
  fun w =>
    match m w with
    | (Ok a, w') => k a w'
    | (StructError, w') => (StructError, w')
    | (OutOfFuel, w') => (OutOfFuel, w')
    end.

Declare Scope ota_scope.
Delimit Scope ota_scope with ota.
Notation "x <- m ;; k" := (bind m (fun x => k))
  (at level 61, m at next level, right associativity) : ota_scope.
Notation "' pat <- m ;; k" := (bind m (fun x => match x with pat => k end))
  (at level 61, pat pattern, m at next level, right associativity) : ota_scope.
Notation "m ;; k" := (bind m (fun _ => k))
  (at level 61, right associativity) : ota_scope.
#[local] Open Scope ota_scope.

Definition struct_pack {A} (packed : option A) : M A :=
  fun w =>
    match packed with
    | Some a => (Ok a, w)
    | None => (StructError, w)
    end.

Definition emit (e : event) : M unit :=
  fun w => (Ok tt, mkWorld (ser w) (env w) (trace w ++ [e])).

Definition print (line : console) : M unit := emit (Print line).

Definition sleep (ms : Z) : M unit := emit (Sleep ms).

Definition update_serial (f : Serial -> Serial) : M unit :=
  fun w => (Ok tt, mkWorld (option_map f (ser w)) (env w) (trace w)).

Definition set_dtr (level : bool) : M unit :=
  update_serial (fun s => mkSerial level (rts s) (rx s));; emit (SetDTR level).

Definition set_rts (level : bool) : M unit :=
  update_serial (fun s => mkSerial (dtr s) level (rx s));; emit (SetRTS level).

Definition reset_input_buffer : M unit :=
  update_serial (fun s => mkSerial (dtr s) (rts s) []);; emit ResetInputBuffer.

(** ** Link controller *)

Definition _reset_device : M unit :=
  fun w =>
    match ser w with
    | None => (Ok tt, w)
    | Some _ =>
      (print ResetStart;;
       set_dtr false;;
       set_rts false;;
       sleep 100;;
       set_rts true;;
       sleep 100;;
       set_rts false;;
       sleep 100;;
       print ResetWaitBoot;;
       sleep 2000;;
       reset_input_buffer;;
       print ResetReady) w
    end.

(** ** Frame codec: outbound frames *)

Definition send_frame (cmd : Z) (payload : list byte) : M unit :=
  fun w =>
    match ser w with
    | None => (Ok tt, w)
    | Some _ =>
      (header <- struct_pack (pack_H OTA_FRAME_HEADER);;
       cmd_byte <- struct_pack (pack_B cmd);;
       length <- struct_pack (pack_H (Z.of_nat (List.length payload)));;
       let reserved := repeat x00 9 in
       let frame_head := header ++ cmd_byte ++ length ++ reserved in
       let data_to_sign := frame_head ++ payload in
       let crc := crc16_xmodem data_to_sign in
       crc_bytes <- struct_pack (pack_H crc);;
       let final_frame := data_to_sign ++ crc_bytes in
       emit (Write final_frame);;
       emit Flush) w
    end.

(** ** Ack resynchronizer *)

Fixpoint starts_with (sub buf : list byte) : bool :=
  match sub, buf with
  | [], _ => true
  | _ :: _, [] => false
  | a :: sub', b :: buf' => Byte.eqb a b && starts_with sub' buf'
  end.

(** [buf.find(sub)]: the lowest index at which [sub] occurs, or [-1]. *)
Fixpoint bytes_find (buf sub : list byte) : Z :=
  if starts_with sub buf then 0
  else
    match buf with
    | [] => -1
    | _ :: rest =>
      let i := bytes_find rest sub in
      if i =? -1 then -1 else i + 1
    end.

Definition byte_nat (b : byte) : nat := N.to_nat (Byte.to_N b).

(** How the [while] loop of [receive_ack] ends: by returning a frame, or
    by its guard failing with [buffer] as it then stands. *)
Inductive wait_end : Type :=
| Found (status : Z) (msg : text)
| Expired (buffer : list byte).

(** The [while] loop of [receive_ack], one guard evaluation per tick.
    [s] is the open port, [tr] the trace so far, [buffer] the local
    accumulation buffer. *)
Fixpoint ack_loop (verbose : bool) (ticks : list tick) (s : Serial)
    (tr : list event) (buffer : list byte) : wait_end * World :=
  match ticks with
  | [] => (Expired buffer, mkWorld (Some s) [] tr)
  | t :: ticks' =>
    let waiting := rx s ++ arrived t in
    if negb (in_time t) then
      (Expired buffer, mkWorld (Some (mkSerial (dtr s) (rts s) waiting)) ticks' tr)
    else
      (* if self.ser.in_waiting: buffer += self.ser.read(self.ser.in_waiting) *)
      let buffer := buffer ++ waiting in
      let s := mkSerial (dtr s) (rts s) [] in
      let header_idx := bytes_find buffer OTA_ACK_HEADER_SEQ in
      if header_idx =? -1 then
        ack_loop verbose ticks' s (tr ++ [Sleep 1]) buffer
      else
        let tr :=
          if (0 <? header_idx) && verbose
          then tr ++ [Print (GarbageDiscarded (firstn (Z.to_nat header_idx) buffer))]
          else tr in
        let buffer :=
          if 0 <? header_idx then skipn (Z.to_nat header_idx) buffer else buffer in
        if (4 <=? List.length buffer)%nat then
          let status := byte_val (nth 2 buffer x00) in
          let msg_len := byte_nat (nth 3 buffer x00) in
          let total_len := (2 + 1 + 1 + msg_len + 2)%nat in
          if (total_len <=? List.length buffer)%nat then
            let frame := firstn total_len buffer in
            let data_to_check := firstn (List.length frame - 2) frame in
            let crc_recv := unpack_H (skipn (List.length frame - 2) frame) in
            let crc_calc := crc16_xmodem data_to_check in
            if crc_recv =? crc_calc then
              let msg_data := slice frame 4 (4 + msg_len) in
              (Found status (Utf8Replace msg_data), mkWorld (Some s) ticks' tr)
            else
              ack_loop verbose ticks' s (tr ++ [Print (CrcError crc_recv crc_calc)])
                (skipn 2 buffer)
          else ack_loop verbose ticks' s (tr ++ [Sleep 1]) buffer
        else ack_loop verbose ticks' s (tr ++ [Sleep 1]) buffer
  end.

Definition is_empty {A} (l : list A) : bool :=
  match l with
  | [] => true
  | _ :: _ => false
  end.

(** What [receive_ack] does once its loop has ended.  The [try]/[except]
    around the final print shows the same buffer on either branch; it is
    one [DeviceOutput] line here. *)
Definition ack_outcome (timeout : Z) (verbose : bool)
    (ended : wait_end * World) : res (Z * text) * World :=
  match ended with
  | (Found status msg, w') => (Ok (status, msg), w')
  | (Expired buffer, w') =>
    if negb (is_empty buffer) && verbose && (500 <? timeout)
    then (print (DeviceOutput (Utf8Ignore buffer));;
          ret (-1, Lit "Timeout")) w'
    else (Ok (-1, Lit "Timeout"), w')
  end.

(** [receive_ack(timeout, verbose)], [timeout] in milliseconds. *)
Definition receive_ack (timeout : Z) (verbose : bool) : M (Z * text) :=
  fun w =>
    match ser w with
    | None => (Ok (-1, Lit "Serial not connected"), w)
    | Some s =>
      ack_outcome timeout verbose (ack_loop verbose (env w) s (trace w) [])
    end.

(** ** Upload session *)

Fixpoint sync_attempts (attempts : list nat) : M bool :=
  match attempts with
  | [] => ret false
  | i :: rest =>
    send_frame OTA_CMD_VERIFY [];;
    '(status, msg) <- receive_ack 1000 true;;
    if status =? 0 then
      print (SyncOk msg);; ret true
    else if 0 <? status then
      print (SyncDeviceError msg);; ret true
    else
      print (SyncAttemptTimeout (i + 1));;
      sleep 500;;
      sync_attempts rest
  end.

Definition sync : M bool :=
  print SyncStart;;
  sync_attempts (seq 0 3).

(** The [while offset < file_size] loop of [upload_file].  [fuel] bounds
    the number of iterations; [OutOfFuel] stands for a run that has not
    finished within it. *)
Fixpoint transfer_loop (fuel : nat) (data : list byte)
    (file_size offset current_chunk : nat) : M bool :=
  if (offset <? file_size)%nat then
    match fuel with
    | O => fun w => (OutOfFuel, w)
    | S fuel' =>
      let chunk := slice data offset (offset + CHUNK_SIZE) in
      send_frame OTA_CMD_DATA chunk;;
      '(status, msg) <- receive_ack 1000 false;;
      if negb (status =? 0) then
        print (ChunkFailed current_chunk msg);; ret false
      else
        let offset := (offset + List.length chunk)%nat in
        let current_chunk := (current_chunk + 1)%nat in
        let percent := ((offset * 100) / file_size)%nat in
        print (Progress percent offset file_size);;
        transfer_loop fuel' data file_size offset current_chunk
    end
  else ret true.

(** [upload_file(file_path)].  [file] is what the path holds: [None] when
    [os.path.exists] fails, else the bytes [f.read()] returns, whose count
    is what [os.path.getsize] reports.  The data loop advances by at least
    one byte per iteration, so [file_size] iterations are always enough. *)
Definition upload_file (file : option (list byte)) : M bool :=
  match file with
  | None => print FileMissing;; ret false
  | Some data =>
    let file_size := List.length data in
    print (FirmwareSize file_size);;
    print SendingStart;;
    start_payload <- struct_pack (pack_I (Z.of_nat file_size));;
    send_frame OTA_CMD_START start_payload;;
    '(status, msg) <- receive_ack 10000 true;;
    if negb (status =? 0) then
      print (StartFailed msg);; ret false
    else
      print (StartOk msg);;
      print SendingData;;
      sent <- transfer_loop file_size data file_size 0 0;;
      if negb sent then ret false
      else
        print DataDone;;
        print SendingEnd;;
        send_frame OTA_CMD_END [];;
        '(status, msg) <- receive_ack 5000 true;;
        if negb (status =? 0) then
          print (EndFailed msg);; ret false
        else
          print (UpgradeOk msg);; ret true
  end.

(** ** Vocabulary of the specification *)

(** The lines printed, and the byte strings written, along a trace. *)
Definition printed (tr : list event) : list console :=
  flat_map (fun e => match e with Print line => [line] | _ => [] end) tr.

Definition written (tr : list event) : list (list byte) :=
  flat_map (fun e => match e with Write data => [data] | _ => [] end) tr.

(** The state of the two control lines at each pause of a trace, from
    given initial levels: (DTR, RTS, length of the pause). *)
Fixpoint line_history (d r : bool) (tr : list event) : list (bool * bool * Z) :=
  match tr with
  | [] => []
  | SetDTR v :: tr' => line_history v r tr'
  | SetRTS v :: tr' => line_history d v tr'
  | Sleep ms :: tr' => (d, r, ms) :: line_history d r tr'
  | _ :: tr' => line_history d r tr'
  end.

(** The frame that [send_frame] puts on the wire, as a pure value. *)
Definition encode_frame (cmd : Z) (payload : list byte) : option (list byte) :=
  match pack_B cmd, pack_H (Z.of_nat (List.length payload)) with
  | Some cmd_byte, Some len =>
    let data_to_sign := [xab; xcd] ++ cmd_byte ++ len ++ repeat x00 9 ++ payload in
    match pack_H (crc16_xmodem data_to_sign) with
    | Some crc => Some (data_to_sign ++ crc)
    | None => None
    end
  | _, _ => None
  end.

(** Modelled from the spec: the device-side encoder of acknowledgment
    frames is not part of the host program; this is the layout of the
    inbound frame table: marker, status byte, message length byte,
    message, big-endian CRC-16 over everything before it. *)
Definition ack_frame (status : byte) (msg : list byte) : option (list byte) :=
  match pack_B (Z.of_nat (List.length msg)) with
  | Some msg_len =>
    let body := OTA_ACK_HEADER_SEQ ++ [status] ++ msg_len ++ msg in
    match pack_H (crc16_xmodem body) with
    | Some crc => Some (body ++ crc)
    | None => None
    end
  | None => None
  end.

(** A frame with bit [k] of its trailing big-endian 16-bit field flipped. *)
Definition flip_crc_bit (k : nat) (frame : list byte) : list byte :=
  let n := (List.length frame - 2)%nat in
  match pack_H (Z.lxor (unpack_H (skipn n frame)) (Z.shiftl 1 (Z.of_nat k))) with
  | Some crc => firstn n frame ++ crc
  | None => frame
  end.

(** [buf] begins with a complete acknowledgment frame whose CRC holds. *)
Definition frame_at (buf : list byte) : bool :=
  starts_with OTA_ACK_HEADER_SEQ buf &&
  (4 <=? List.length buf)%nat &&
  (let total_len := (6 + byte_nat (nth 3 buf x00))%nat in
   (total_len <=? List.length buf)%nat &&
   (unpack_H (slice buf (total_len - 2) total_len) =?
    crc16_xmodem (firstn (total_len - 2) buf))).

(** Some position of [stream] begins such a frame. *)
Fixpoint any_frame (stream : list byte) : bool :=
  frame_at stream ||
  match stream with
  | [] => false
  | _ :: rest => any_frame rest
  end.

(** The line a verbose wait prints when it drops [garbage] from the front
    of its buffer: none for an empty drop or a quiet wait. *)
Definition garbage_note (verbose : bool) (garbage : list byte) : list event :=
  if negb (is_empty garbage) && verbose
  then [Print (GarbageDiscarded garbage)]
  else [].

(** The bytes the wait loop reads if it runs until its guard fails: what
    was [waiting] in the driver and what the ticks deliver, up to the first
    late tick.  Bytes that come with the late tick stay in the driver. *)
Fixpoint collected (waiting : list byte) (ticks : list tick) : list byte :=
  match ticks with
  | [] => []
  | t :: ticks' =>
    if in_time t then waiting ++ arrived t ++ collected [] ticks' else []
  end.

(** A wait that ends with the local status -1 hands on every byte it
    collected: as the message it returns, or as the text of a
    [DeviceOutput] line it prints. *)
Definition timeout_shows_collected (timeout : Z) (verbose : bool) (w : World) : Prop :=
  forall s status msg,
    ser w = Some s ->
    fst (receive_ack timeout verbose w) = Ok (status, msg) ->
    status = -1 ->
    let bytes := collected (rx s) (env w) in
    msg = Utf8Replace bytes \/ msg = Utf8Ignore bytes \/
    In (Print (DeviceOutput (Utf8Ignore bytes)))
       (trace (snd (receive_ack timeout verbose w))).

(** Ticks that are all in time and deliver the given reads in turn. *)
Definition polls (reads : list (list byte)) : list tick := map (mkTick true) reads.

(** A wait fed garbage and then a valid acknowledgment frame returns the
    frame's status and message and reports, in a line it prints, as many
    discarded bytes as stand in front of the frame. *)
Definition garbage_length_reported (timeout : Z) (verbose : bool) (w : World) : Prop :=
  forall s reads rest status msg F G R,
    ser w = Some s ->
    env w = polls reads ++ rest ->
    reads <> [] ->
    ack_frame status msg = Some F ->
    bytes_find G OTA_ACK_HEADER_SEQ = -1 ->
    rx s ++ List.concat reads = G ++ F ++ R ->
    (0 < List.length G)%nat ->
    fst (receive_ack timeout verbose w) = Ok (byte_val status, Utf8Replace msg) /\
    exists garbage,
      In (Print (GarbageDiscarded garbage))
         (trace (snd (receive_ack timeout verbose w))) /\
      List.length garbage = List.length G.

(** The [i]-th chunk of a file: [data[i*CHUNK_SIZE : (i+1)*CHUNK_SIZE]]. *)
Definition chunk_at (data : list byte) (i : nat) : list byte :=
  slice data (i * CHUNK_SIZE) (i * CHUNK_SIZE + CHUNK_SIZE).

(** [ceil(n / CHUNK_SIZE)]. *)
Definition chunk_count (n : nat) : nat := ((n + CHUNK_SIZE - 1) / CHUNK_SIZE)%nat.

(** [tr'] continues [tr] without writing anything to the port. *)
Definition quiet_extension (tr tr' : list event) : Prop :=
  exists added, tr' = tr ++ added /\ written added = [].

(** One attempt of [sync]: the VERIFY frame, then the wait for its
    acknowledgment. *)
Definition verify_attempt : M (Z * text) :=
  send_frame OTA_CMD_VERIFY [];; receive_ack 1000 true.

(** The world after the report and pause that follow a timed-out attempt. *)
Definition sync_pause (attempt : nat) (w : World) : World :=
  snd ((print (SyncAttemptTimeout attempt);; sleep 500) w).

(** An acknowledgment wait that ended in the local timeout. *)
Definition timed_out (ack : res (Z * text) * World) : Prop :=
  fst ack = Ok (-1, Lit "Timeout").

(** An acknowledgment wait that ended with a status of zero or more. *)
Definition answered (ack : res (Z * text) * World) : Prop :=
  exists status msg, fst ack = Ok (status, msg) /\ 0 <= status.

(** The bytes of an outbound frame, for a frame that encodes. *)
Definition frame_of (cmd : Z) (payload : list byte) : list byte :=
  match encode_frame cmd payload with
  | Some f => f
  | None => []
  end.

(** The START step of [upload_file], up to its acknowledgment. *)
Definition start_round (data : list byte) : M (Z * text) :=
  print (FirmwareSize (List.length data));;
  print SendingStart;;
  start_payload <- struct_pack (pack_I (Z.of_nat (List.length data)));;
  send_frame OTA_CMD_START start_payload;;
  receive_ack 10000 true.

(** The world in which the data loop starts, after a START answered by
    [msg] with status 0 in [w]. *)
Definition transfer_start (msg : text) (w : World) : World :=
  snd ((print (StartOk msg);; print SendingData) w).

(** The [i]-th turn of the data loop: the DATA frame of chunk [i], then
    the wait for its acknowledgment. *)
Definition chunk_round (data : list byte) (i : nat) : M (Z * text) :=
  send_frame OTA_CMD_DATA (chunk_at data i);; receive_ack 1000 false.

(** The progress line that follows the acknowledgment of chunk [i]. *)
Definition chunk_progress (data : list byte) (i : nat) : M unit :=
  let offset := (i * CHUNK_SIZE + List.length (chunk_at data i))%nat in
  print (Progress ((offset * 100) / List.length data) offset (List.length data)).

(** The world after the turns for chunks [0 .. i-1], each followed by its
    progress line, from the world [w] in which the data loop starts. *)
Fixpoint after_chunks (data : list byte) (i : nat) (w : World) : World :=
  match i with
  | O => w
  | S j =>
    snd (chunk_progress data j (snd (chunk_round data j (after_chunks data j w))))
  end.

(** An acknowledgment wait that ended with status 0, and one that ended
    with any other status, the local -1 included. *)
Definition acked (ack : res (Z * text) * World) : Prop :=
  exists msg, fst ack = Ok (0, msg).

Definition refused (ack : res (Z * text) * World) : Prop :=
  exists status msg, fst ack = Ok (status, msg) /\ status <> 0.

(** The END step of [upload_file], up to its acknowledgment. *)
Definition end_round : M (Z * text) :=
  print DataDone;;
  print SendingEnd;;
  send_frame OTA_CMD_END [];;
  receive_ack 5000 true.

(** The events an acknowledgment wait may add to the trace: the 1 ms
    poll pause and its diagnostic lines, of which a quiet wait prints the
    CRC errors only. *)
Definition wait_event (verbose : bool) (e : event) : Prop :=
  match e with
  | Sleep ms => ms = 1
  | Print (CrcError _ _) => True
  | Print (GarbageDiscarded _) => verbose = true
  | Print (DeviceOutput _) => verbose = true
  | _ => False
  end.

(** The progress lines of a trace: (percent, offset, file size). *)
Definition progress_lines (tr : list event) : list (nat * nat * nat) :=
  flat_map (fun e => match e with
                     | Print (Progress percent offset file_size) =>
                       [(percent, offset, file_size)]
                     | _ => []
                     end) tr.

(** The next evaluation of the wait loop's guard fails: no tick is left,
    or the next one is late. *)
Definition deadline_next (ticks : list tick) : bool :=
  match ticks with
  | [] => true
  | t :: _ => negb (in_time t)
  end.

(** The offset the data loop has reached after chunk [j]. *)
Definition offset_after (data : list byte) (j : nat) : nat :=
  Nat.min ((j + 1) * CHUNK_SIZE) (List.length data).

(** * Properties *)

(** ** CRC engine *)

Lemma byte_val_range b : 0 <= byte_val b < 256.
Proof.
  unfold byte_val. pose proof (Byte.to_N_bounded b). lia.
Qed.

Lemma low16_bits r n :
  0 <= n -> Z.testbit (low16 r) n = Z.testbit r n && (n <? 16).
Proof.
  intros Hn. unfold low16. change 0xFFFF with (Z.ones 16).
  rewrite Z.land_spec, Z.testbit_ones_nonneg by lia. reflexivity.
Qed.

Lemma low16_range r : 0 <= low16 r < 65536.
Proof.
  unfold low16. change 0xFFFF with (Z.ones 16).
  rewrite Z.land_ones by lia. apply Z.mod_pos_bound. reflexivity.
Qed.

Lemma low16_small r : 0 <= r < 65536 -> low16 r = r.
Proof.
  intros H. unfold low16. change 0xFFFF with (Z.ones 16).
  rewrite Z.land_ones by lia. apply Z.mod_small. exact H.
Qed.

Lemma bit16_test s : (Z.land s 0x10000 =? 0) = negb (Z.testbit s 16).
Proof.
  change 0x10000 with (2 ^ 16).
  destruct (Z.testbit s 16) eqn:E; cbn [negb].
  - apply Z.eqb_neq. intros H.
    assert (Z.testbit (Z.land s (2 ^ 16)) 16 = false) by (rewrite H; apply Z.bits_0).
    rewrite Z.land_spec, E, Z.pow2_bits_true in H0 by lia. discriminate.
  - apply Z.eqb_eq. apply Z.bits_inj'. intros n Hn.
    rewrite Z.land_spec, Z.bits_0, Z.pow2_bits_eqb by lia.
    destruct (Z.eqb_spec 16 n); subst; rewrite ?E, ?andb_false_r; reflexivity.
Qed.

Lemma low16_shift_bits c n :
  0 <= n -> n < 16 ->
  Z.testbit (Z.shiftl (low16 c) 1) n = Z.testbit (Z.shiftl c 1) n.
Proof.
  intros H0 H16. rewrite !Z.shiftl_spec by lia.
  destruct (Z.eq_dec n 0) as [->|Hn].
  - rewrite !Z.testbit_neg_r by lia. reflexivity.
  - rewrite low16_bits by lia.
    replace (n - 1 <? 16) with true by (symmetry; apply Z.ltb_lt; lia).
    apply andb_true_r.
Qed.

Lemma low16_crc_round c : low16 (crc_round c) = xmodem_round (low16 c).
Proof.
  unfold crc_round, xmodem_round. cbv zeta.
  rewrite bit16_test, Z.shiftl_spec by lia.
  change (16 - 1) with 15. rewrite low16_bits by lia. change (15 <? 16) with true.
  rewrite andb_true_r. fold (low16 (Z.lxor (Z.shiftl (low16 c) 1) 0x1021)).
  fold (low16 (Z.shiftl (low16 c) 1)).
  destruct (Z.testbit c 15); cbn [negb];
    apply Z.bits_inj'; intros n Hn; rewrite !low16_bits by lia;
    rewrite ?Z.lxor_spec;
    destruct (Z.ltb_spec n 16); rewrite ?andb_false_r, ?andb_true_r;
    try reflexivity; rewrite low16_shift_bits by lia; reflexivity.
Qed.

Lemma low16_iter_round n c :
  low16 (Nat.iter n crc_round c) = Nat.iter n xmodem_round (low16 c).
Proof.
  induction n as [|n IH]; [reflexivity|].
  cbn [Nat.iter nat_rect]. rewrite low16_crc_round.
  unfold Nat.iter in IH. rewrite IH. reflexivity.
Qed.

Lemma low16_lxor a b : low16 (Z.lxor a b) = Z.lxor (low16 a) (low16 b).
Proof.
  apply Z.bits_inj'. intros n Hn.
  rewrite Z.lxor_spec, !low16_bits, Z.lxor_spec by lia.
  destruct (n <? 16); rewrite ?andb_true_r, ?andb_false_r; reflexivity.
Qed.

Lemma low16_crc_byte c b : low16 (crc_byte c b) = xmodem_byte (low16 c) b.
Proof.
  unfold crc_byte, xmodem_byte. rewrite low16_iter_round, low16_lxor.
  rewrite (low16_small (Z.shiftl (byte_val b) 8)); [reflexivity|].
  rewrite Z.shiftl_mul_pow2 by lia. pose proof (byte_val_range b). lia.
Qed.

Lemma low16_fold data : forall c,
  low16 (fold_left crc_byte data c) = fold_left xmodem_byte data (low16 c).
Proof.
  induction data as [|b data IH]; intros c; [reflexivity|].
  cbn [fold_left]. rewrite IH, low16_crc_byte. reflexivity.
Qed.

Lemma crc16_xmodem_range data : 0 <= crc16_xmodem data < 65536.
Proof. apply low16_range. Qed.

Lemma crc16_xmodem_reference data : crc16_xmodem data = xmodem_reference data.
Proof. unfold crc16_xmodem. apply (low16_fold data 0). Qed.

(** C1.  [crc16_xmodem] is a total function of its input alone, into the
    16-bit unsigned range; it agrees with the textbook CRC-16/XMODEM
    register (polynomial 0x1021, initial value 0, no reflection) on every
    input, gives 0 on the empty input and 0x31C3 on the bytes
    "123456789". *)
Theorem crc16_xmodem_conformance :
  (forall b : list byte,
      0 <= crc16_xmodem b < 65536 /\ crc16_xmodem b = xmodem_reference b) /\
  crc16_xmodem [] = 0 /\
  crc16_xmodem (list_byte_of_string "123456789") = 0x31C3.
Proof.
  split; [|split].
  - intros b. split; [apply crc16_xmodem_range | apply crc16_xmodem_reference].
  - reflexivity.
  - vm_compute. reflexivity.
Qed.

(** ** Bytes and packing *)


Lemma byte_of_Z_some z :
  0 <= z < 256 -> exists b, byte_of_Z z = Some b /\ byte_val b = z.
Proof.
  intros Hz. unfold byte_of_Z.
  destruct (Z.ltb_spec z 0); [lia|].
  pose proof (Byte.to_of_N_option_map (Z.to_N z)) as E.
  destruct (N.leb_spec (Z.to_N z) 255); [|lia].
  destruct (Byte.of_N (Z.to_N z)) as [b|]; [|discriminate].
  exists b. split; [reflexivity|].
  cbn in E. injection E as E. unfold byte_val. rewrite E. lia.
Qed.

Lemma byte_of_Z_none z : ~ (0 <= z < 256) -> byte_of_Z z = None.
Proof.
  intros Hz. unfold byte_of_Z.
  destruct (Z.ltb_spec z 0); [reflexivity|].
  pose proof (Byte.to_of_N_option_map (Z.to_N z)) as E.
  destruct (N.leb_spec (Z.to_N z) 255); [lia|].
  destruct (Byte.of_N (Z.to_N z)); [discriminate|reflexivity].
Qed.

Lemma byte_of_Z_val b : byte_of_Z (byte_val b) = Some b.
Proof.
  unfold byte_of_Z, byte_val.
  destruct (Z.ltb_spec (Z.of_N (Byte.to_N b)) 0); [lia|].
  rewrite N2Z.id. apply Byte.of_to_N.
Qed.

Lemma pack_B_some v :
  0 <= v < 256 -> exists b, pack_B v = Some [b] /\ byte_val b = v.
Proof.
  intros Hv. destruct (byte_of_Z_some v Hv) as (b & E & Hb).
  exists b. unfold pack_B. rewrite E. auto.
Qed.

Lemma pack_H_some v :
  0 <= v < 65536 ->
  exists hi lo, pack_H v = Some [hi; lo] /\ byte_val hi * 256 + byte_val lo = v.
Proof.
  intros Hv. unfold pack_H.
  destruct (Z.leb_spec 0 v); [|lia]. destruct (Z.ltb_spec v 65536); [|lia].
  cbn [andb].
  destruct (byte_of_Z_some (v / 256)) as (hi & E1 & H1).
  { split; [apply Z.div_pos; lia | apply Z.div_lt_upper_bound; lia]. }
  destruct (byte_of_Z_some (v mod 256)) as (lo & E2 & H2).
  { apply Z.mod_pos_bound. lia. }
  exists hi, lo. rewrite E1, E2. split; [reflexivity|].
  rewrite H1, H2. pose proof (Z.div_mod v 256). lia.
Qed.

Lemma pack_H_none v : ~ (0 <= v < 65536) -> pack_H v = None.
Proof.
  intros Hv. unfold pack_H.
  destruct (Z.leb_spec 0 v); destruct (Z.ltb_spec v 65536); cbn [andb];
    try reflexivity. lia.
Qed.

Lemma pack_H_bytes hi lo :
  pack_H (byte_val hi * 256 + byte_val lo) = Some [hi; lo].
Proof.
  pose proof (byte_val_range hi). pose proof (byte_val_range lo).
  unfold pack_H.
  destruct (Z.leb_spec 0 (byte_val hi * 256 + byte_val lo)); [|lia].
  destruct (Z.ltb_spec (byte_val hi * 256 + byte_val lo) 65536); [|lia].
  cbn [andb].
  replace ((byte_val hi * 256 + byte_val lo) / 256) with (byte_val hi)
    by (apply Z.div_unique with (r := byte_val lo); lia).
  replace ((byte_val hi * 256 + byte_val lo) mod 256) with (byte_val lo)
    by (apply Z.mod_unique with (q := byte_val hi); lia).
  rewrite !byte_of_Z_val. reflexivity.
Qed.

Lemma unpack_pack_H v bs : pack_H v = Some bs -> unpack_H bs = v.
Proof.
  intros E. destruct (Z_lt_dec v 0).
  - rewrite pack_H_none in E by lia. discriminate.
  - destruct (Z_lt_dec v 65536).
    + destruct (pack_H_some v) as (hi & lo & E' & Hv); [lia|].
      rewrite E' in E. injection E as <-. exact Hv.
    + rewrite pack_H_none in E by lia. discriminate.
Qed.

Lemma pack_H_magic : pack_H OTA_FRAME_HEADER = Some [xab; xcd].
Proof. reflexivity. Qed.

Lemma send_frame_encode cmd payload w s :
  ser w = Some s ->
  send_frame cmd payload w =
  match encode_frame cmd payload with
  | Some f => (Ok tt, mkWorld (ser w) (env w) (trace w ++ [Write f; Flush]))
  | None => (StructError, w)
  end.
Proof.
  intros Hs. unfold send_frame, encode_frame. rewrite Hs.
  unfold bind at 1. rewrite pack_H_magic. cbn [struct_pack].
  unfold bind at 1. destruct (pack_B cmd) as [c|]; cbn [struct_pack]; [|reflexivity].
  unfold bind at 1.
  destruct (pack_H (Z.of_nat (List.length payload))) as [l|]; cbn [struct_pack];
    [|reflexivity].
  cbv zeta. unfold bind at 1. rewrite <- !app_assoc.
  destruct (pack_H (crc16_xmodem _)) as [c'|]; cbn [struct_pack]; [|reflexivity].
  unfold bind, emit. cbn [ser env trace]. rewrite Hs, <- !app_assoc. reflexivity.
Qed.

(** ** Frame codec *)

(** C3.  On an open port, for a command that fits one byte: a payload of
    at most 65535 bytes is written as the magic header AB CD, the command
    byte, the payload length as two big-endian bytes, nine zero bytes, the
    payload, and the CRC-16 of all of these as two big-endian bytes, in one
    write followed by a flush; a longer payload raises [struct.error] and
    nothing is written. *)
Theorem send_frame_layout :
  forall (w : World) (s : Serial) (cmd : Z) (payload : list byte),
    ser w = Some s ->
    0 <= cmd < 256 ->
    (Z.of_nat (List.length payload) <= 65535 ->
     exists c l1 l0 c1 c0 : byte,
       byte_val c = cmd /\
       byte_val l1 * 256 + byte_val l0 = Z.of_nat (List.length payload) /\
       byte_val c1 * 256 + byte_val c0 =
         crc16_xmodem ([xab; xcd] ++ [c] ++ [l1; l0] ++ repeat x00 9 ++ payload) /\
       send_frame cmd payload w =
         (Ok tt,
          mkWorld (ser w) (env w)
            (trace w ++
             [Write ([xab; xcd] ++ [c] ++ [l1; l0] ++ repeat x00 9 ++ payload
                     ++ [c1; c0]);
              Flush]))) /\
    (65535 < Z.of_nat (List.length payload) ->
     send_frame cmd payload w = (StructError, w)).
Proof.
  intros w s cmd payload Hs Hcmd.
  rewrite (send_frame_encode cmd payload w s Hs). unfold encode_frame.
  destruct (pack_B_some cmd Hcmd) as (c & Ec & Hc). rewrite Ec.
  split; intros Hlen.
  - destruct (pack_H_some (Z.of_nat (List.length payload))) as (l1 & l0 & El & Hl);
      [lia|].
    rewrite El. cbv zeta.
    destruct (pack_H_some (crc16_xmodem
                ([xab; xcd] ++ [c] ++ [l1; l0] ++ repeat x00 9 ++ payload)))
      as (c1 & c0 & Ecrc & Hcrc); [apply crc16_xmodem_range|].
    rewrite Ecrc. exists c, l1, l0, c1, c0.
    repeat split; assumption.
  - rewrite pack_H_none by lia. reflexivity.
Qed.

(** A concrete run that meets the hypotheses of [send_frame_layout]. *)
Lemma send_frame_layout_witness :
  let w := mkWorld (Some (mkSerial false false [])) [] [] in
  (ser w = Some (mkSerial false false []) /\ 0 <= OTA_CMD_VERIFY < 256 /\
   Z.of_nat (List.length (@nil byte)) <= 65535) /\
  exists c l1 l0 c1 c0 : byte,
    byte_val c = OTA_CMD_VERIFY /\
    byte_val l1 * 256 + byte_val l0 = 0 /\
    byte_val c1 * 256 + byte_val c0 =
      crc16_xmodem ([xab; xcd] ++ [c] ++ [l1; l0] ++ repeat x00 9 ++ []) /\
    send_frame OTA_CMD_VERIFY [] w =
      (Ok tt,
       mkWorld (ser w) (env w)
         (trace w ++
          [Write ([xab; xcd] ++ [c] ++ [l1; l0] ++ repeat x00 9 ++ [] ++ [c1; c0]);
           Flush])).
Proof.
  cbv zeta.
  assert (H1 : 0 <= OTA_CMD_VERIFY < 256) by (unfold OTA_CMD_VERIFY; lia).
  assert (H2 : Z.of_nat (List.length (@nil byte)) <= 65535) by (cbn; lia).
  split; [split; [reflexivity | split; assumption]|].
  exact (proj1 (send_frame_layout
                  (mkWorld (Some (mkSerial false false [])) [] [])
                  (mkSerial false false []) OTA_CMD_VERIFY [] eq_refl H1) H2).
Defined.

(** ** Link controller *)

(** C9.  On an open port, [_reset_device] takes no argument and performs,
    in this order and nothing else: both control lines deasserted, 100 ms;
    RTS asserted with DTR still deasserted, 100 ms; RTS deasserted, 100 ms;
    a 2000 ms wait for the boot; the driver's input buffer discarded.  It
    leaves both lines deasserted and the input buffer empty, whatever the
    port held before. *)
Theorem reset_device_sequence :
  forall (w : World) (s : Serial),
    ser w = Some s ->
    let steps :=
      [Print ResetStart; SetDTR false; SetRTS false; Sleep 100;
       SetRTS true; Sleep 100; SetRTS false; Sleep 100;
       Print ResetWaitBoot; Sleep 2000; ResetInputBuffer; Print ResetReady] in
    _reset_device w =
      (Ok tt, mkWorld (Some (mkSerial false false [])) (env w) (trace w ++ steps)) /\
    line_history (dtr s) (rts s) steps =
      [(false, false, 100); (false, true, 100); (false, false, 100);
       (false, false, 2000)].
Proof.
  intros w s Hs steps. split; [|reflexivity].
  unfold _reset_device. rewrite Hs.
  destruct w as [sr e tr]. cbn [ser] in Hs. subst sr.
  cbn [bind print sleep set_dtr set_rts reset_input_buffer update_serial emit
       ser env trace option_map dtr rts rx].
  unfold print, emit. cbn [ser env trace].
  rewrite <- !app_assoc. reflexivity.
Qed.

(** A concrete run that meets the hypotheses of [reset_device_sequence]. *)
Lemma reset_device_sequence_witness :
  let w := mkWorld (Some (mkSerial true true [x45; x53; x50])) [] [] in
  ser w = Some (mkSerial true true [x45; x53; x50]) /\
  _reset_device w =
    (Ok tt,
     mkWorld (Some (mkSerial false false [])) []
       [Print ResetStart; SetDTR false; SetRTS false; Sleep 100;
        SetRTS true; Sleep 100; SetRTS false; Sleep 100;
        Print ResetWaitBoot; Sleep 2000; ResetInputBuffer; Print ResetReady]).
Proof.
  cbv zeta. split; [reflexivity|].
  exact (proj1 (reset_device_sequence
                  (mkWorld (Some (mkSerial true true [x45; x53; x50])) [] [])
                  (mkSerial true true [x45; x53; x50]) eq_refl)).
Defined.

(** ** Ack resynchronizer *)

Lemma bytes_find_ge buf sub : -1 <= bytes_find buf sub.
Proof.
  induction buf as [|b buf IH]; cbn [bytes_find].
  - destruct (starts_with sub []); lia.
  - destruct (starts_with sub (b :: buf)); [lia|].
    destruct (Z.eqb_spec (bytes_find buf sub) (-1)); lia.
Qed.

Lemma bytes_find_starts buf sub :
  bytes_find buf sub <> -1 ->
  starts_with sub (skipn (Z.to_nat (bytes_find buf sub)) buf) = true.
Proof.
  induction buf as [|b buf IH]; cbn [bytes_find].
  - destruct (starts_with sub []) eqn:E; [intros _; exact E | congruence].
  - destruct (starts_with sub (b :: buf)) eqn:E; [intros _; exact E|].
    destruct (Z.eqb_spec (bytes_find buf sub) (-1)) as [|Hne]; [congruence|].
    intros _. pose proof (bytes_find_ge buf sub).
    replace (Z.to_nat (bytes_find buf sub + 1))
      with (S (Z.to_nat (bytes_find buf sub))) by lia.
    cbn [skipn]. apply IH. exact Hne.
Qed.

(** One guard evaluation of the wait loop, written out. *)
Lemma ack_loop_cons verbose t ticks' s tr buffer :
  ack_loop verbose (t :: ticks') s tr buffer =
  let waiting := rx s ++ arrived t in
  if negb (in_time t) then
    (Expired buffer, mkWorld (Some (mkSerial (dtr s) (rts s) waiting)) ticks' tr)
  else
    let buffer := buffer ++ waiting in
    let s := mkSerial (dtr s) (rts s) [] in
    let header_idx := bytes_find buffer OTA_ACK_HEADER_SEQ in
    if header_idx =? -1 then
      ack_loop verbose ticks' s (tr ++ [Sleep 1]) buffer
    else
      let tr :=
        if (0 <? header_idx) && verbose
        then tr ++ [Print (GarbageDiscarded (firstn (Z.to_nat header_idx) buffer))]
        else tr in
      let buffer :=
        if 0 <? header_idx then skipn (Z.to_nat header_idx) buffer else buffer in
      if (4 <=? List.length buffer)%nat then
        let status := byte_val (nth 2 buffer x00) in
        let msg_len := byte_nat (nth 3 buffer x00) in
        let total_len := (2 + 1 + 1 + msg_len + 2)%nat in
        if (total_len <=? List.length buffer)%nat then
          let frame := firstn total_len buffer in
          let data_to_check := firstn (List.length frame - 2) frame in
          let crc_recv := unpack_H (skipn (List.length frame - 2) frame) in
          let crc_calc := crc16_xmodem data_to_check in
          if crc_recv =? crc_calc then
            let msg_data := slice frame 4 (4 + msg_len) in
            (Found status (Utf8Replace msg_data), mkWorld (Some s) ticks' tr)
          else
            ack_loop verbose ticks' s (tr ++ [Print (CrcError crc_recv crc_calc)])
              (skipn 2 buffer)
        else ack_loop verbose ticks' s (tr ++ [Sleep 1]) buffer
      else ack_loop verbose ticks' s (tr ++ [Sleep 1]) buffer.
Proof. reflexivity. Qed.


Lemma ack_loop_status verbose ticks :
  forall s tr buffer status msg w',
    ack_loop verbose ticks s tr buffer = (Found status msg, w') ->
    0 <= status <= 255 /\ exists bs, msg = Utf8Replace bs.
Proof.
  induction ticks as [|t ticks' IH]; intros s tr buffer status msg w' E.
  - discriminate.
  - rewrite ack_loop_cons in E. cbv zeta in E.
    destruct (negb (in_time t)); [discriminate|].
    destruct (_ =? -1); [exact (IH _ _ _ _ _ _ E)|].
    destruct (4 <=? _)%nat; [|exact (IH _ _ _ _ _ _ E)].
    destruct (_ <=? _)%nat; [|exact (IH _ _ _ _ _ _ E)].
    destruct (_ =? _); [|exact (IH _ _ _ _ _ _ E)].
    injection E as <- <- _. split; [|eauto].
    match goal with |- context [byte_val ?b] => pose proof (byte_val_range b) end.
    lia.
Qed.

(** C10.  The status [receive_ack] returns is a byte value, 0 to 255,
    when it comes from a frame off the wire, whose message is then the
    decoded message bytes; otherwise it is exactly -1, with the message
    "Timeout" or "Serial not connected".  No other outcome exists. *)
Theorem receive_ack_status_range :
  forall (timeout : Z) (verbose : bool) (w : World),
  exists status msg,
    fst (receive_ack timeout verbose w) = Ok (status, msg) /\
    ((0 <= status <= 255 /\ exists bs, msg = Utf8Replace bs) \/
     (status = -1 /\ (msg = Lit "Timeout" \/ msg = Lit "Serial not connected"))).
Proof.
  intros timeout verbose w. unfold receive_ack.
  destruct (ser w) as [s|]; [|cbn [fst]; eauto 8].
  destruct (ack_loop verbose (env w) s (trace w) []) as [[status msg|buffer] w'] eqn:E;
    cbn [ack_outcome].
  - exists status, msg. split; [reflexivity|]. left.
    exact (ack_loop_status _ _ _ _ _ _ _ _ E).
  - exists (-1), (Lit "Timeout"). split; [|right; auto].
    destruct (negb (is_empty buffer) && verbose && (500 <? timeout)); reflexivity.
Qed.

Lemma trimmed_suffix (idx : Z) (buffer : list byte) :
  exists pre,
    buffer = pre ++ (if 0 <? idx then skipn (Z.to_nat idx) buffer else buffer).
Proof.
  destruct (0 <? idx).
  - exists (firstn (Z.to_nat idx) buffer). symmetry. apply firstn_skipn.
  - exists []. reflexivity.
Qed.

Lemma trimmed_starts (buffer : list byte) :
  bytes_find buffer OTA_ACK_HEADER_SEQ <> -1 ->
  starts_with OTA_ACK_HEADER_SEQ
    (if 0 <? bytes_find buffer OTA_ACK_HEADER_SEQ
     then skipn (Z.to_nat (bytes_find buffer OTA_ACK_HEADER_SEQ)) buffer
     else buffer) = true.
Proof.
  intros Hne. pose proof (bytes_find_starts buffer _ Hne) as Hs.
  pose proof (bytes_find_ge buffer OTA_ACK_HEADER_SEQ).
  destruct (Z.ltb_spec 0 (bytes_find buffer OTA_ACK_HEADER_SEQ)); [exact Hs|].
  replace (bytes_find buffer OTA_ACK_HEADER_SEQ) with 0 in Hs by lia.
  exact Hs.
Qed.

(** The checks the loop makes on a trimmed buffer are those of [frame_at]. *)
Lemma frame_checks (b : list byte) :
  let total_len := (2 + 1 + 1 + byte_nat (nth 3 b x00) + 2)%nat in
  let frame := firstn total_len b in
  (total_len <=? List.length b)%nat = true ->
  firstn (List.length frame - 2) frame = firstn (total_len - 2) b /\
  skipn (List.length frame - 2) frame = slice b (total_len - 2) total_len /\
  total_len = (6 + byte_nat (nth 3 b x00))%nat.
Proof.
  intros total_len frame Hle. apply Nat.leb_le in Hle.
  assert (Hlen : List.length frame = total_len)
    by (unfold frame; rewrite length_firstn; lia).
  rewrite Hlen. unfold frame, slice. repeat split.
  - rewrite firstn_firstn. f_equal. lia.
  - rewrite firstn_skipn_comm. do 2 f_equal. unfold total_len. lia.
  - unfold total_len. lia.
Qed.

(** What one in-time guard evaluation does to the buffer: it appends what
    is waiting, then either goes round again on a suffix of the result, or
    returns the frame that a suffix of the result begins with. *)
Lemma ack_loop_step verbose t ticks' s tr buffer :
  in_time t = true ->
  let s0 := mkSerial (dtr s) (rts s) [] in
  (exists pre b tr',
      buffer ++ rx s ++ arrived t = pre ++ b /\
      ack_loop verbose (t :: ticks') s tr buffer = ack_loop verbose ticks' s0 tr' b) \/
  (exists pre b tr' status msg,
      buffer ++ rx s ++ arrived t = pre ++ b /\
      frame_at b = true /\
      ack_loop verbose (t :: ticks') s tr buffer =
        (Found status msg, mkWorld (Some s0) ticks' tr')).
Proof.
  intros Ht s0. rewrite ack_loop_cons. cbv zeta. rewrite Ht. cbn [negb].
  fold s0. set (buffer' := buffer ++ rx s ++ arrived t).
  destruct (Z.eqb_spec (bytes_find buffer' OTA_ACK_HEADER_SEQ) (-1)) as [|Hne].
  { left. exists [], buffer', (tr ++ [Sleep 1]). split; reflexivity. }
  destruct (trimmed_suffix (bytes_find buffer' OTA_ACK_HEADER_SEQ) buffer')
    as [pre Hpre].
  pose proof (trimmed_starts buffer' Hne) as Hst.
  set (b := if 0 <? bytes_find buffer' OTA_ACK_HEADER_SEQ
            then skipn (Z.to_nat (bytes_find buffer' OTA_ACK_HEADER_SEQ)) buffer'
            else buffer') in *.
  set (tr1 := if (0 <? bytes_find buffer' OTA_ACK_HEADER_SEQ) && verbose
              then _ else tr).
  destruct (4 <=? List.length b)%nat eqn:H4.
  2:{ left. exists pre, b, (tr1 ++ [Sleep 1]). split; [exact Hpre | reflexivity]. }
  destruct (2 + 1 + 1 + byte_nat (nth 3 b x00) + 2 <=? List.length b)%nat eqn:Htot.
  2:{ left. exists pre, b, (tr1 ++ [Sleep 1]). split; [exact Hpre | reflexivity]. }
  destruct (frame_checks b Htot) as (E1 & E2 & E3).
  rewrite E1, E2.
  destruct (_ =? _) eqn:Hcrc.
  - right. do 5 eexists. split; [exact Hpre|]. split; [|reflexivity].
    unfold frame_at. rewrite Hst, H4. cbv zeta. rewrite <- E3, Htot, Hcrc.
    reflexivity.
  - left. eexists (pre ++ firstn 2 b), (skipn 2 b), _.
    split; [|reflexivity].
    rewrite <- app_assoc, firstn_skipn. exact Hpre.
Qed.

Lemma collected_in_time waiting t ticks' :
  in_time t = true ->
  collected waiting (t :: ticks') = waiting ++ arrived t ++ collected [] ticks'.
Proof. intros Ht. cbn [collected]. rewrite Ht. reflexivity. Qed.

(** When the guard fails, the buffer is what is left of the bytes read. *)
Lemma ack_loop_expired_suffix verbose ticks :
  forall s tr buffer left_over w',
    ack_loop verbose ticks s tr buffer = (Expired left_over, w') ->
    exists discarded, buffer ++ collected (rx s) ticks = discarded ++ left_over.
Proof.
  induction ticks as [|t ticks' IH]; intros s tr buffer left_over w' E.
  - injection E as <- _. exists []. cbn [collected]. apply app_nil_r.
  - destruct (in_time t) eqn:Ht.
    + rewrite (collected_in_time _ _ _ Ht).
      destruct (ack_loop_step verbose t ticks' s tr buffer Ht)
        as [(pre & b & tr' & Hb & Hstep) | (pre & b & tr' & st & msg & _ & _ & Hstep)];
        rewrite Hstep in E; [|discriminate].
      destruct (IH _ _ _ _ _ E) as [d Hd]. cbn [rx app] in Hd.
      exists (pre ++ d).
      rewrite !app_assoc, <- (app_assoc buffer), Hb, <- !app_assoc, Hd.
      reflexivity.
    + rewrite ack_loop_cons in E. cbv zeta in E. rewrite Ht in E. cbn [negb] in E.
      injection E as <- _. exists []. cbn [collected]. rewrite Ht. apply app_nil_r.
Qed.

(** C8 (as amended).  When the wait loop ends by its guard failing,
    [receive_ack] returns exactly the pair (-1, "Timeout"); the bytes then
    left in its buffer, which are a suffix of the bytes it read, are
    printed as device output when [verbose] is set, the timeout exceeds
    500 ms and the buffer is not empty, and not otherwise. *)
Theorem receive_ack_timeout_report :
  forall (timeout : Z) (verbose : bool) (w : World) (s : Serial)
         (left_over : list byte) (w' : World),
    ser w = Some s ->
    ack_loop verbose (env w) s (trace w) [] = (Expired left_over, w') ->
    receive_ack timeout verbose w =
      (Ok (-1, Lit "Timeout"),
       mkWorld (ser w') (env w')
         (trace w' ++
          if negb (is_empty left_over) && verbose && (500 <? timeout)
          then [Print (DeviceOutput (Utf8Ignore left_over))]
          else [])) /\
    exists discarded, collected (rx s) (env w) = discarded ++ left_over.
Proof.
  intros timeout verbose w s left_over w' Hs Hloop. split.
  - unfold receive_ack. rewrite Hs, Hloop. cbn [ack_outcome].
    destruct (negb (is_empty left_over) && verbose && (500 <? timeout)).
    + reflexivity.
    + rewrite app_nil_r. destruct w'; reflexivity.
  - exact (ack_loop_expired_suffix _ _ _ _ _ _ _ Hloop).
Qed.

(** A concrete run that meets the hypotheses of [receive_ack_timeout_report]. *)
Lemma receive_ack_timeout_report_witness :
  let s := mkSerial false false [] in
  let w := mkWorld (Some s) [mkTick true [x01; xaa; x55; x00]] [] in
  let w' := mkWorld (Some s) [] [Print (GarbageDiscarded [x01]); Sleep 1] in
  (ser w = Some s /\
   ack_loop true (env w) s (trace w) [] = (Expired [xaa; x55; x00], w')) /\
  receive_ack 2000 true w =
    (Ok (-1, Lit "Timeout"),
     mkWorld (Some s) []
       [Print (GarbageDiscarded [x01]); Sleep 1;
        Print (DeviceOutput (Utf8Ignore [xaa; x55; x00]))]).
Proof.
  cbv zeta.
  assert (H : ack_loop true [mkTick true [x01; xaa; x55; x00]]
                (mkSerial false false []) [] [] =
              (Expired [xaa; x55; x00],
               mkWorld (Some (mkSerial false false [])) []
                 [Print (GarbageDiscarded [x01]); Sleep 1]))
    by (vm_compute; reflexivity).
  split; [split; [reflexivity | exact H]|].
  exact (proj1 (receive_ack_timeout_report 2000 true
                  (mkWorld (Some (mkSerial false false []))
                     [mkTick true [x01; xaa; x55; x00]] [])
                  (mkSerial false false []) [xaa; x55; x00] _ eq_refl H)).
Defined.

(** C8 (as stated) fails: a quiet call that read one byte before the
    deadline returns the pair (-1, "Timeout") and prints nothing, so the
    byte is neither returned nor shown. *)
Lemma receive_ack_timeout_hides_bytes :
  ~ timeout_shows_collected 2000 false
      (mkWorld (Some (mkSerial false false [])) [mkTick true [x41]] []).
Proof.
  intros H.
  specialize (H (mkSerial false false []) (-1) (Lit "Timeout")
                eq_refl eq_refl eq_refl).
  vm_compute in H. destruct H as [H|[H|[H|[]]]]; discriminate H.
Qed.

Lemma starts_with_app sub : forall b Y,
  starts_with sub b = true -> starts_with sub (b ++ Y) = true.
Proof.
  induction sub as [|a sub IH]; intros b Y H; [reflexivity|].
  destruct b as [|x b]; [discriminate|].
  cbn [starts_with app] in *. apply andb_true_iff in H as [H1 H2].
  rewrite H1, (IH _ _ H2). reflexivity.
Qed.

Lemma frame_at_app b Y : frame_at b = true -> frame_at (b ++ Y) = true.
Proof.
  unfold frame_at. cbv zeta. intros H.
  apply andb_true_iff in H as [H H3]. apply andb_true_iff in H as [H1 H2].
  apply andb_true_iff in H3 as [H3 H4].
  apply Nat.leb_le in H2, H3.
  rewrite (starts_with_app _ _ _ H1), app_nth1 by lia.
  set (n := byte_nat (nth 3 b x00)) in *.
  rewrite length_app.
  replace (4 <=? List.length b + List.length Y)%nat with true
    by (symmetry; apply Nat.leb_le; lia).
  replace (6 + n <=? List.length b + List.length Y)%nat with true
    by (symmetry; apply Nat.leb_le; lia).
  cbn [andb]. unfold slice in *.
  rewrite firstn_app, skipn_app.
  replace (6 + n - 2 - List.length b)%nat with 0%nat by lia.
  cbn [firstn skipn]. rewrite app_nil_r, firstn_app, length_skipn.
  replace (6 + n - (6 + n - 2) - (List.length b - (6 + n - 2)))%nat with 0%nat by lia.
  cbn [firstn]. rewrite app_nil_r. exact H4.
Qed.

Lemma any_frame_app_r l Y : any_frame l = true -> any_frame (l ++ Y) = true.
Proof.
  induction l as [|x l IH]; cbn [any_frame app]; intros H.
  - rewrite orb_false_r in H. apply (frame_at_app [] Y) in H.
    cbn [app] in H. destruct Y; cbn [any_frame]; rewrite H; reflexivity.
  - apply orb_true_iff in H as [H|H].
    + apply (frame_at_app (x :: l) Y) in H. cbn [app] in H. rewrite H. reflexivity.
    + rewrite (IH H). apply orb_true_r.
Qed.

Lemma any_frame_app_l A l : any_frame l = true -> any_frame (A ++ l) = true.
Proof.
  intros H. induction A as [|x A IH]; [exact H|].
  cbn [app any_frame]. rewrite IH. apply orb_true_r.
Qed.

Lemma frame_at_any l : frame_at l = true -> any_frame l = true.
Proof. intros H. destruct l; cbn [any_frame]; rewrite H; reflexivity. Qed.

(** The loop returns a status only for a frame that is among the bytes it
    read and whose CRC holds. *)
Lemma ack_loop_found_frame verbose ticks :
  forall s tr buffer status msg w',
    ack_loop verbose ticks s tr buffer = (Found status msg, w') ->
    any_frame (buffer ++ collected (rx s) ticks) = true.
Proof.
  induction ticks as [|t ticks' IH]; intros s tr buffer status msg w' E.
  - discriminate.
  - destruct (in_time t) eqn:Ht.
    + rewrite (collected_in_time _ _ _ Ht).
      rewrite !app_assoc, <- (app_assoc buffer).
      destruct (ack_loop_step verbose t ticks' s tr buffer Ht)
        as [(pre & b & tr' & Hb & Hstep) | (pre & b & tr' & st & m & Hb & Hf & _)];
        rewrite Hb, <- app_assoc; apply any_frame_app_l.
      * rewrite Hstep in E. exact (IH _ _ _ _ _ _ E).
      * apply any_frame_app_r, frame_at_any, Hf.
    + rewrite ack_loop_cons in E. cbv zeta in E. rewrite Ht in E. discriminate.
Qed.

(** *** Where the marker is found *)

Lemma find_none_nil : bytes_find [] OTA_ACK_HEADER_SEQ = -1.
Proof. reflexivity. Qed.

Lemma find_none_cons b buf :
  bytes_find (b :: buf) OTA_ACK_HEADER_SEQ = -1 <->
  starts_with OTA_ACK_HEADER_SEQ (b :: buf) = false /\
  bytes_find buf OTA_ACK_HEADER_SEQ = -1.
Proof.
  cbn [bytes_find]. pose proof (bytes_find_ge buf OTA_ACK_HEADER_SEQ).
  destruct (starts_with OTA_ACK_HEADER_SEQ (b :: buf)).
  - split; [discriminate | intros [? _]; discriminate].
  - destruct (Z.eqb_spec (bytes_find buf OTA_ACK_HEADER_SEQ) (-1)).
    + tauto.
    + split; [lia | tauto].
Qed.

Lemma find_prefix_none A B :
  bytes_find (A ++ B) OTA_ACK_HEADER_SEQ = -1 ->
  bytes_find A OTA_ACK_HEADER_SEQ = -1.
Proof.
  induction A as [|a A IH]; intros H; [reflexivity|].
  cbn [app] in H. apply find_none_cons in H as [H1 H2].
  apply find_none_cons. split; [|exact (IH H2)].
  destruct (starts_with OTA_ACK_HEADER_SEQ (a :: A)) eqn:E; [|reflexivity].
  apply (starts_with_app _ _ B) in E. cbn [app] in E. congruence.
Qed.

Lemma find_none_snoc G :
  bytes_find G OTA_ACK_HEADER_SEQ = -1 ->
  bytes_find (G ++ [xaa]) OTA_ACK_HEADER_SEQ = -1.
Proof.
  induction G as [|g G IH]; intros H; [reflexivity|].
  apply find_none_cons in H as [H1 H2].
  cbn [app]. apply find_none_cons. split; [|exact (IH H2)].
  destruct G as [|g' G]; [|exact H1].
  cbn [app starts_with OTA_ACK_HEADER_SEQ].
  change (Byte.eqb x55 xaa) with false. apply andb_false_r.
Qed.

Lemma find_marker_at G T :
  bytes_find G OTA_ACK_HEADER_SEQ = -1 ->
  bytes_find (G ++ xaa :: x55 :: T) OTA_ACK_HEADER_SEQ = Z.of_nat (List.length G).
Proof.
  induction G as [|g G IH]; intros H; [reflexivity|].
  apply find_none_cons in H as [H1 H2]. specialize (IH H2).
  cbn [app bytes_find].
  replace (starts_with OTA_ACK_HEADER_SEQ (g :: G ++ xaa :: x55 :: T)) with false.
  - rewrite IH. destruct (Z.eqb_spec (Z.of_nat (List.length G)) (-1)); [lia|].
    cbn [List.length]. lia.
  - symmetry. destruct G as [|g' G]; [|exact H1].
    cbn [app starts_with OTA_ACK_HEADER_SEQ].
    change (Byte.eqb x55 xaa) with false. apply andb_false_r.
Qed.

Lemma app_prefix {A} (l1 l2 l3 l4 : list A) :
  l1 ++ l2 = l3 ++ l4 ->
  (List.length l1 <= List.length l3)%nat ->
  exists z, l3 = l1 ++ z /\ l2 = z ++ l4.
Proof.
  intros E Hlen. destruct (app_eq_app _ _ _ _ E) as [l [[H1 H2]|[H1 H2]]].
  - assert (l = []).
    { apply (f_equal (@List.length A)) in H1. rewrite length_app in H1.
      destruct l; [reflexivity | cbn [List.length] in H1; lia]. }
    subst l. rewrite app_nil_r in H1. cbn [app] in H2. subst.
    exists []. rewrite app_nil_r. auto.
  - exists l. auto.
Qed.

Lemma garbage_trim (verbose : bool) (G b : list byte) (tr : list event) :
  let idx := Z.of_nat (List.length G) in
  (if 0 <? idx then skipn (Z.to_nat idx) (G ++ b) else G ++ b) = b /\
  (if (0 <? idx) && verbose
   then tr ++ [Print (GarbageDiscarded (firstn (Z.to_nat idx) (G ++ b)))]
   else tr) = tr ++ garbage_note verbose G.
Proof.
  cbv zeta. rewrite Nat2Z.id. unfold garbage_note. destruct G as [|g G].
  - cbn [List.length Z.of_nat Z.ltb Z.compare andb is_empty negb app].
    rewrite app_nil_r. auto.
  - replace (0 <? Z.of_nat (List.length (g :: G))) with true
      by (symmetry; apply Z.ltb_lt; cbn [List.length]; lia).
    cbn [is_empty negb andb]. split.
    + rewrite skipn_app, skipn_all, Nat.sub_diag. reflexivity.
    + rewrite firstn_app, firstn_all, Nat.sub_diag, app_nil_r.
      destruct verbose; [reflexivity | symmetry; apply app_nil_r].
Qed.

(** *** One guard evaluation against a frame-shaped stretch of the stream

    The stream holds garbage [G] free of the marker, then the marker, a
    status byte, a length byte, a message of that length and two more
    bytes; [buffer ++ rx s ++ arrived t] is the part of it read so far. *)
Section FrameStep.
Variables (verbose : bool) (t : tick) (ticks' : list tick) (s : Serial)
          (tr : list event) (buffer : list byte).
Variables (G : list byte) (st lb : byte) (msg : list byte) (c1 c0 : byte)
          (Y R : list byte).
Hypothesis Ht : in_time t = true.
Hypothesis HG : bytes_find G OTA_ACK_HEADER_SEQ = -1.
Hypothesis Hlb : byte_nat lb = List.length msg.

Let X := xaa :: x55 :: st :: lb :: msg ++ [c1; c0].
Let buffer' := buffer ++ rx s ++ arrived t.
Let s0 := mkSerial (dtr s) (rts s) [].

Hypothesis Hstream : buffer' ++ Y = G ++ X ++ R.

Lemma step_no_marker :
  (List.length buffer' < List.length G + 2)%nat ->
  ack_loop verbose (t :: ticks') s tr buffer =
  ack_loop verbose ticks' s0 (tr ++ [Sleep 1]) buffer'.
Proof.
  intros Hlen.
  assert (Hfind : bytes_find buffer' OTA_ACK_HEADER_SEQ = -1).
  { assert (E : buffer' ++ Y = (G ++ [xaa]) ++ x55 :: st :: lb :: (msg ++ [c1; c0]) ++ R)
      by (rewrite Hstream; unfold X; rewrite <- (app_assoc G); reflexivity).
    destruct (app_prefix _ _ _ _ E) as (z & Hz & _);
      [rewrite length_app; cbn [List.length]; lia|].
    apply (find_prefix_none buffer' z). rewrite <- Hz.
    apply find_none_snoc, HG. }
  rewrite ack_loop_cons. cbv zeta. rewrite Ht. cbn [negb].
  fold buffer'. rewrite Hfind. reflexivity.
Qed.

Lemma buffer_has_marker :
  (List.length G + 2 <= List.length buffer')%nat ->
  exists T, buffer' = G ++ xaa :: x55 :: T /\
            xaa :: x55 :: T ++ Y = X ++ R.
Proof.
  intros Hlen.
  assert (E : (G ++ [xaa; x55]) ++ (st :: lb :: (msg ++ [c1; c0]) ++ R) = buffer' ++ Y)
    by (rewrite Hstream; unfold X; rewrite <- (app_assoc G); reflexivity).
  destruct (app_prefix _ _ _ _ E) as (T & HT & HY);
    [rewrite length_app; cbn [List.length]; lia|].
  exists T. rewrite <- app_assoc in HT. split; [exact HT|].
  unfold X. cbn [app]. rewrite HY. reflexivity.
Qed.

Lemma step_marker T :
  buffer' = G ++ xaa :: x55 :: T ->
  ack_loop verbose (t :: ticks') s tr buffer =
  let tr := tr ++ garbage_note verbose G in
  let buffer := xaa :: x55 :: T in
  if (4 <=? List.length buffer)%nat then
    let status := byte_val (nth 2 buffer x00) in
    let msg_len := byte_nat (nth 3 buffer x00) in
    let total_len := (2 + 1 + 1 + msg_len + 2)%nat in
    if (total_len <=? List.length buffer)%nat then
      let frame := firstn total_len buffer in
      let data_to_check := firstn (List.length frame - 2) frame in
      let crc_recv := unpack_H (skipn (List.length frame - 2) frame) in
      let crc_calc := crc16_xmodem data_to_check in
      if crc_recv =? crc_calc then
        let msg_data := slice frame 4 (4 + msg_len) in
        (Found status (Utf8Replace msg_data), mkWorld (Some s0) ticks' tr)
      else
        ack_loop verbose ticks' s0 (tr ++ [Print (CrcError crc_recv crc_calc)])
          (skipn 2 buffer)
    else ack_loop verbose ticks' s0 (tr ++ [Sleep 1]) buffer
  else ack_loop verbose ticks' s0 (tr ++ [Sleep 1]) buffer.
Proof.
  intros HT. rewrite ack_loop_cons. cbv zeta. rewrite Ht. cbn [negb].
  fold buffer'. fold s0. rewrite HT, (find_marker_at G T HG).
  destruct (Z.eqb_spec (Z.of_nat (List.length G)) (-1)); [lia|].
  destruct (garbage_trim verbose G (xaa :: x55 :: T) tr) as [-> ->].
  reflexivity.
Qed.

Lemma step_frame_partial :
  (List.length G + 2 <= List.length buffer')%nat ->
  (List.length buffer' < List.length G + List.length X)%nat ->
  ack_loop verbose (t :: ticks') s tr buffer =
  ack_loop verbose ticks' s0 (tr ++ garbage_note verbose G ++ [Sleep 1])
    (skipn (List.length G) buffer') /\
  skipn (List.length G) buffer' ++ Y = X ++ R.
Proof.
  intros Hlo Hhi. destruct (buffer_has_marker Hlo) as (T & HT & HX).
  rewrite (step_marker T HT). cbv zeta.
  assert (Hskip : skipn (List.length G) buffer' = xaa :: x55 :: T)
    by (rewrite HT, skipn_app, skipn_all, Nat.sub_diag; reflexivity).
  rewrite Hskip, (app_assoc tr (garbage_note verbose G) [Sleep 1]).
  split; [|exact HX].
  assert (HlenT : (List.length T < List.length X - 2)%nat).
  { rewrite HT, length_app in Hhi. cbn [List.length] in Hhi.
    unfold X in *. cbn [List.length] in *. lia. }
  destruct T as [|t2 [|t3 T]]; [reflexivity..|].
  unfold X in HX, HlenT. cbn [app] in HX. injection HX as -> -> HX.
  cbn [List.length] in HlenT. rewrite length_app in HlenT. cbn [List.length] in HlenT.
  cbn [nth]. rewrite Hlb.
  replace (4 <=? List.length (xaa :: x55 :: st :: lb :: T))%nat with true
    by (symmetry; apply Nat.leb_le; cbn [List.length]; lia).
  replace (2 + 1 + 1 + List.length msg + 2 <=?
           List.length (xaa :: x55 :: st :: lb :: T))%nat with false
    by (symmetry; apply Nat.leb_gt; cbn [List.length]; lia).
  reflexivity.
Qed.

Lemma step_frame_complete :
  (List.length G + List.length X <= List.length buffer')%nat ->
  let body := xaa :: x55 :: st :: lb :: msg in
  let crc_recv := unpack_H [c1; c0] in
  let crc_calc := crc16_xmodem body in
  ack_loop verbose (t :: ticks') s tr buffer =
  if crc_recv =? crc_calc then
    (Found (byte_val st) (Utf8Replace msg),
     mkWorld (Some s0) ticks' (tr ++ garbage_note verbose G))
  else
    ack_loop verbose ticks' s0
      (tr ++ garbage_note verbose G ++ [Print (CrcError crc_recv crc_calc)])
      (skipn 2 (skipn (List.length G) buffer')).
Proof.
  intros Hlen body crc_recv crc_calc.
  assert (Hlo : (List.length G + 2 <= List.length buffer')%nat)
    by (unfold X in Hlen; cbn [List.length] in Hlen; lia).
  destruct (buffer_has_marker Hlo) as (T & HT & HX).
  rewrite (step_marker T HT). cbv zeta.
  assert (Hskip : skipn (List.length G) buffer' = xaa :: x55 :: T)
    by (rewrite HT, skipn_app, skipn_all, Nat.sub_diag; reflexivity).
  rewrite Hskip.
  assert (HlenT : (List.length X - 2 <= List.length T)%nat).
  { rewrite HT, length_app in Hlen. cbn [List.length] in Hlen.
    unfold X in *. cbn [List.length] in *. lia. }
  unfold X in HX, HlenT. cbn [app] in HX. injection HX as HX.
  cbn [List.length] in HlenT. rewrite length_app in HlenT. cbn [List.length] in HlenT.
  assert (E : (st :: lb :: msg ++ [c1; c0]) ++ R = T ++ Y)
    by (rewrite HX; reflexivity).
  destruct (app_prefix _ _ _ _ E) as (l & Hl & _);
    [cbn [List.length]; rewrite length_app; cbn [List.length]; lia|].
  subst T. cbn [app nth]. rewrite Hlb.
  replace (4 <=? List.length (xaa :: x55 :: st :: lb :: (msg ++ [c1; c0]) ++ l))%nat
    with true by (symmetry; apply Nat.leb_le; cbn [List.length]; lia).
  replace (2 + 1 + 1 + List.length msg + 2 <=?
           List.length (xaa :: x55 :: st :: lb :: (msg ++ [c1; c0]) ++ l))%nat
    with true
    by (symmetry; apply Nat.leb_le; cbn [List.length]; rewrite !length_app;
        cbn [List.length]; lia).
  assert (Hframe : firstn (2 + 1 + 1 + List.length msg + 2)
                     (xaa :: x55 :: st :: lb :: (msg ++ [c1; c0]) ++ l) =
                   body ++ [c1; c0]).
  { unfold body. cbn [Nat.add firstn app]. do 4 f_equal.
    rewrite firstn_app.
    replace (List.length msg + 2 - List.length (msg ++ [c1; c0]))%nat with 0%nat
      by (rewrite length_app; cbn [List.length]; lia).
    rewrite firstn_all2 by (rewrite length_app; cbn [List.length]; lia).
    cbn [firstn]. apply app_nil_r. }
  rewrite Hframe.
  assert (Hbl : (List.length (body ++ [c1; c0]) - 2 = List.length body)%nat)
    by (rewrite length_app; cbn [List.length]; lia).
  rewrite Hbl, firstn_app, firstn_all, Nat.sub_diag, app_nil_r.
  rewrite skipn_app, skipn_all, Nat.sub_diag. cbn [app skipn firstn].
  fold body. fold crc_recv. fold crc_calc.
  rewrite (app_assoc tr (garbage_note verbose G) [Print (CrcError crc_recv crc_calc)]).
  replace (slice (body ++ [c1; c0]) 4 (4 + List.length msg)) with msg; [reflexivity|].
  unfold slice, body. cbn [app skipn].
  replace (4 + List.length msg - 4)%nat with (List.length msg) by lia.
  rewrite firstn_app, firstn_all, Nat.sub_diag. cbn [firstn]. symmetry. apply app_nil_r.
Qed.
End FrameStep.

(** *** Frames on the wire *)

Lemma pack_B_inv v l :
  pack_B v = Some l -> exists b, l = [b] /\ byte_val b = v.
Proof.
  unfold pack_B. intros H.
  destruct (Z_le_dec 0 v); [destruct (Z_lt_dec v 256)|].
  - destruct (byte_of_Z_some v) as (b & E & Hb); [lia|].
    rewrite E in H. injection H as <-. eauto.
  - rewrite byte_of_Z_none in H by lia. discriminate.
  - rewrite byte_of_Z_none in H by lia. discriminate.
Qed.

Lemma pack_H_inv v l :
  pack_H v = Some l ->
  exists hi lo, l = [hi; lo] /\ byte_val hi * 256 + byte_val lo = v /\
                0 <= v < 65536.
Proof.
  intros H.
  destruct (Z_le_dec 0 v); [destruct (Z_lt_dec v 65536)|].
  - destruct (pack_H_some v) as (hi & lo & E & Hv); [lia|].
    rewrite E in H. injection H as <-. exists hi, lo. repeat split; lia.
  - rewrite pack_H_none in H by lia. discriminate.
  - rewrite pack_H_none in H by lia. discriminate.
Qed.

Lemma ack_frame_shape status msg F :
  ack_frame status msg = Some F ->
  exists lb c1 c0,
    F = xaa :: x55 :: status :: lb :: msg ++ [c1; c0] /\
    byte_nat lb = List.length msg /\
    unpack_H [c1; c0] = crc16_xmodem (xaa :: x55 :: status :: lb :: msg).
Proof.
  unfold ack_frame. intros H.
  destruct (pack_B (Z.of_nat (List.length msg))) as [l|] eqn:El; [|discriminate].
  destruct (pack_B_inv _ _ El) as (lb & -> & Hlb).
  cbv zeta in H. cbn [OTA_ACK_HEADER_SEQ app] in H.
  destruct (pack_H (crc16_xmodem (xaa :: x55 :: status :: lb :: msg)))
    as [c|] eqn:Ec; [|discriminate].
  destruct (pack_H_inv _ _ Ec) as (c1 & c0 & -> & Hc & _).
  injection H as <-. exists lb, c1, c0. repeat split.
  - unfold byte_nat. unfold byte_val in Hlb. lia.
  - exact Hc.
Qed.

Lemma flipped_bit_range c k :
  0 <= c < 65536 -> (k < 16)%nat ->
  0 <= Z.lxor c (Z.shiftl 1 (Z.of_nat k)) < 65536 /\
  Z.lxor c (Z.shiftl 1 (Z.of_nat k)) <> c.
Proof.
  intros Hc Hk. rewrite Z.shiftl_1_l. split.
  - assert (Hp : 0 <= 2 ^ Z.of_nat k < 65536).
    { split; [apply Z.pow_nonneg; lia|].
      change 65536 with (2 ^ 16). apply Z.pow_lt_mono_r; lia. }
    assert (E : low16 (Z.lxor c (2 ^ Z.of_nat k)) = Z.lxor c (2 ^ Z.of_nat k))
      by (rewrite low16_lxor, (low16_small c Hc), (low16_small _ Hp); reflexivity).
    rewrite <- E. apply low16_range.
  - intros E. apply (f_equal (fun z => Z.testbit z (Z.of_nat k))) in E.
    rewrite Z.lxor_spec, Z.pow2_bits_true in E by lia.
    destruct (Z.testbit c (Z.of_nat k)); discriminate.
Qed.

Lemma flip_crc_bit_shape status msg F k :
  ack_frame status msg = Some F ->
  (k < 16)%nat ->
  exists lb d1 d0,
    flip_crc_bit k F = xaa :: x55 :: status :: lb :: msg ++ [d1; d0] /\
    byte_nat lb = List.length msg /\
    unpack_H [d1; d0] <> crc16_xmodem (xaa :: x55 :: status :: lb :: msg) /\
    List.length (flip_crc_bit k F) = List.length F.
Proof.
  intros HF Hk. destruct (ack_frame_shape _ _ _ HF) as (lb & c1 & c0 & -> & Hlb & Hc).
  set (body := xaa :: x55 :: status :: lb :: msg) in *.
  change (xaa :: x55 :: status :: lb :: msg ++ [c1; c0]) with (body ++ [c1; c0]).
  unfold flip_crc_bit.
  assert (Hn : (List.length (body ++ [c1; c0]) - 2 = List.length body)%nat)
    by (rewrite length_app; cbn [List.length]; lia).
  rewrite Hn, skipn_app, skipn_all, Nat.sub_diag, firstn_app, firstn_all,
    Nat.sub_diag.
  cbn [app skipn firstn]. rewrite app_nil_r, Hc.
  destruct (flipped_bit_range (crc16_xmodem body) k (crc16_xmodem_range body) Hk)
    as [Hr Hne].
  destruct (pack_H_some _ Hr) as (d1 & d0 & E & Hd). rewrite E.
  exists lb, d1, d0. repeat split.
  - exact Hlb.
  - cbn [unpack_H]. rewrite Hd. exact Hne.
  - rewrite !length_app. reflexivity.
Qed.

Lemma flip_crc_bit_values status msg F k :
  ack_frame status msg = Some F ->
  (k < 16)%nat ->
  exists lb d1 d0,
    flip_crc_bit k F = xaa :: x55 :: status :: lb :: msg ++ [d1; d0] /\
    byte_nat lb = List.length msg /\
    firstn (List.length F - 2) F = xaa :: x55 :: status :: lb :: msg /\
    unpack_H [d1; d0] =
      Z.lxor (crc16_xmodem (xaa :: x55 :: status :: lb :: msg))
             (Z.shiftl 1 (Z.of_nat k)) /\
    unpack_H [d1; d0] <> crc16_xmodem (xaa :: x55 :: status :: lb :: msg) /\
    List.length (flip_crc_bit k F) = List.length F.
Proof.
  intros HF Hk. destruct (ack_frame_shape _ _ _ HF) as (lb & c1 & c0 & -> & Hlb & Hc).
  set (body := xaa :: x55 :: status :: lb :: msg) in *.
  change (xaa :: x55 :: status :: lb :: msg ++ [c1; c0]) with (body ++ [c1; c0]).
  unfold flip_crc_bit.
  assert (Hn : (List.length (body ++ [c1; c0]) - 2 = List.length body)%nat)
    by (rewrite length_app; cbn [List.length]; lia).
  rewrite Hn, skipn_app, skipn_all, Nat.sub_diag, firstn_app, firstn_all,
    Nat.sub_diag.
  cbn [app skipn firstn]. rewrite app_nil_r, Hc.
  destruct (flipped_bit_range (crc16_xmodem body) k (crc16_xmodem_range body) Hk)
    as [Hr Hne].
  destruct (pack_H_some _ Hr) as (d1 & d0 & E & Hd). rewrite E.
  exists lb, d1, d0. repeat split.
  - exact Hlb.
  - cbn [unpack_H]. exact Hd.
  - cbn [unpack_H]. rewrite Hd. exact Hne.
  - rewrite !length_app. reflexivity.
Qed.

(** *** The wait as a whole *)

Lemma printed_app tr1 tr2 : printed (tr1 ++ tr2) = printed tr1 ++ printed tr2.
Proof. apply flat_map_app. Qed.

Lemma printed_sleep ms : printed [Sleep ms] = [].
Proof. reflexivity. Qed.

Lemma garbage_note_nil verbose : garbage_note verbose [] = [].
Proof. reflexivity. Qed.

Lemma printed_nil : printed [] = [].
Proof. reflexivity. Qed.

Lemma polls_cons r reads rest :
  polls (r :: reads) ++ rest = mkTick true r :: (polls reads ++ rest).
Proof. reflexivity. Qed.

Lemma written_app tr1 tr2 : written (tr1 ++ tr2) = written tr1 ++ written tr2.
Proof. apply flat_map_app. Qed.

Lemma quiet_refl tr : quiet_extension tr tr.
Proof. exists []. split; [symmetry; apply app_nil_r | reflexivity]. Qed.

Lemma quiet_trans tr1 tr2 tr3 :
  quiet_extension tr1 tr2 -> quiet_extension tr2 tr3 -> quiet_extension tr1 tr3.
Proof.
  intros (a & -> & Ha) (b & -> & Hb). exists (a ++ b). split.
  - symmetry. apply app_assoc.
  - rewrite written_app, Ha, Hb. reflexivity.
Qed.

Lemma quiet_snoc tr e : written [e] = [] -> quiet_extension tr (tr ++ [e]).
Proof. intros H. exists [e]. auto. Qed.

Lemma quiet_written tr tr' : quiet_extension tr tr' -> written tr' = written tr.
Proof. intros (a & -> & Ha). rewrite written_app, Ha. apply app_nil_r. Qed.

Lemma ack_loop_quiet verbose ticks :
  forall s tr buffer ended w',
    ack_loop verbose ticks s tr buffer = (ended, w') ->
    quiet_extension tr (trace w') /\ exists s', ser w' = Some s'.
Proof.
  induction ticks as [|t ticks' IH]; intros s tr buffer ended w' E.
  - injection E as _ <-. cbn [trace ser]. split; [apply quiet_refl | eauto].
  - rewrite ack_loop_cons in E. cbv zeta in E.
    destruct (negb (in_time t)).
    { injection E as _ <-. cbn [trace ser]. split; [apply quiet_refl | eauto]. }
    destruct (_ =? -1).
    { destruct (IH _ _ _ _ _ E) as [Hq Hs]. split; [|exact Hs].
      eapply quiet_trans; [|exact Hq]; apply quiet_snoc; reflexivity. }
    match type of E with
    | context [if ?c then tr ++ [?e] else tr] =>
      assert (Hg : quiet_extension tr (if c then tr ++ [e] else tr))
        by (destruct c; [apply quiet_snoc; reflexivity | apply quiet_refl]);
      set (tr1 := if c then tr ++ [e] else tr) in *
    end.
    destruct (4 <=? _)%nat.
    2:{ destruct (IH _ _ _ _ _ E) as [Hq Hs]. split; [|exact Hs].
        eapply quiet_trans; [exact Hg|].
        eapply quiet_trans; [|exact Hq]; apply quiet_snoc; reflexivity. }
    destruct (_ <=? _)%nat.
    2:{ destruct (IH _ _ _ _ _ E) as [Hq Hs]. split; [|exact Hs].
        eapply quiet_trans; [exact Hg|].
        eapply quiet_trans; [|exact Hq]; apply quiet_snoc; reflexivity. }
    destruct (_ =? _).
    + injection E as _ <-. cbn [trace ser]. split; [exact Hg | eauto].
    + destruct (IH _ _ _ _ _ E) as [Hq Hs]. split; [|exact Hs].
      eapply quiet_trans; [exact Hg|].
      eapply quiet_trans; [|exact Hq]; apply quiet_snoc; reflexivity.
Qed.

(** While no marker shows in what it reads, the loop only collects. *)
Lemma ack_loop_marker_free verbose ticks :
  forall s tr buffer,
    bytes_find (buffer ++ collected (rx s) ticks) OTA_ACK_HEADER_SEQ = -1 ->
    exists w',
      ack_loop verbose ticks s tr buffer =
        (Expired (buffer ++ collected (rx s) ticks), w') /\
      printed (trace w') = printed tr.
Proof.
  induction ticks as [|t ticks' IH]; intros s tr buffer Hfree.
  - cbn [collected ack_loop]. rewrite app_nil_r. eexists. split; reflexivity.
  - rewrite ack_loop_cons. cbv zeta. cbn [collected] in *.
    destruct (in_time t); cbn [negb].
    + assert (Hb : bytes_find (buffer ++ rx s ++ arrived t) OTA_ACK_HEADER_SEQ = -1).
      { apply (find_prefix_none _ (collected [] ticks')).
        rewrite <- !app_assoc. exact Hfree. }
      rewrite Hb. change (-1 =? -1) with true. cbv iota.
      destruct (IH (mkSerial (dtr s) (rts s) []) (tr ++ [Sleep 1])
                  (buffer ++ rx s ++ arrived t)) as (w' & Hw & Hp).
      { cbn [rx app]. rewrite <- !app_assoc. exact Hfree. }
      exists w'. cbn [rx app] in Hw. rewrite <- !app_assoc in Hw.
      split.
      * exact Hw.
      * rewrite Hp, printed_app, printed_sleep. apply app_nil_r.
    + rewrite app_nil_r. eexists. split; reflexivity.
Qed.

Section FrameWait.
Variables (verbose : bool) (rest : list tick).
Variables (st lb : byte) (msg : list byte) (c1 c0 : byte) (R : list byte).
Hypothesis Hlb : byte_nat lb = List.length msg.

Let X := xaa :: x55 :: st :: lb :: msg ++ [c1; c0].
Let body := xaa :: x55 :: st :: lb :: msg.

(** A frame whose CRC holds is returned as soon as it is complete. *)
Lemma ack_loop_finds_frame :
  unpack_H [c1; c0] = crc16_xmodem body ->
  forall reads G s tr buffer,
    bytes_find G OTA_ACK_HEADER_SEQ = -1 ->
    reads <> [] ->
    buffer ++ rx s ++ List.concat reads = G ++ X ++ R ->
    exists w',
      ack_loop verbose (polls reads ++ rest) s tr buffer =
        (Found (byte_val st) (Utf8Replace msg), w') /\
      printed (trace w') = printed tr ++ printed (garbage_note verbose G).
Proof.
  intros Hcrc. induction reads as [|r reads IH]; intros G s tr buffer HG Hne Hs;
    [congruence|].
  rewrite polls_cons.
  assert (Hstream : (buffer ++ rx s ++ arrived (mkTick true r)) ++ List.concat reads =
                    G ++ X ++ R)
    by (cbn [arrived]; rewrite <- Hs; cbn [List.concat]; rewrite <- !app_assoc;
        reflexivity).
  set (buffer' := buffer ++ rx s ++ arrived (mkTick true r)) in *.
  destruct (le_lt_dec (List.length G + List.length X) (List.length buffer'))
    as [Hfull|Hpart].
  - rewrite (step_frame_complete verbose (mkTick true r) (polls reads ++ rest) s tr buffer
               G st lb msg c1 c0 (List.concat reads) R eq_refl HG Hlb Hstream Hfull).
    cbv zeta. fold body. rewrite Hcrc, Z.eqb_refl.
    eexists. split; [reflexivity|]. cbn [trace]. apply printed_app.
  - assert (Hreads : reads <> []).
    { intros ->. cbn [List.concat] in Hstream. rewrite app_nil_r in Hstream.
      rewrite Hstream, !length_app in Hpart. lia. }
    destruct (le_lt_dec (List.length G + 2) (List.length buffer')) as [Hmark|Hnone].
    + destruct (step_frame_partial verbose (mkTick true r) (polls reads ++ rest) s tr buffer
                  G st lb msg c1 c0 (List.concat reads) R eq_refl HG Hlb Hstream
                  Hmark Hpart) as [-> Hrest].
      destruct (IH [] (mkSerial (dtr s) (rts s) [])
                  (tr ++ garbage_note verbose G ++ [Sleep 1])
                  (skipn (List.length G) buffer') find_none_nil Hreads Hrest)
        as (w' & Hw & Hp).
      exists w'. split; [exact Hw|]. rewrite Hp, !printed_app.
      rewrite garbage_note_nil, printed_sleep, printed_nil, !app_nil_r.
      rewrite <- ?app_assoc. reflexivity.
    + rewrite (step_no_marker verbose (mkTick true r) (polls reads ++ rest) s tr buffer
                 G st lb msg c1 c0 (List.concat reads) R eq_refl HG Hlb Hstream Hnone).
      destruct (IH G (mkSerial (dtr s) (rts s) []) (tr ++ [Sleep 1]) buffer'
                  HG Hreads Hstream) as (w' & Hw & Hp).
      exists w'. split; [exact Hw|]. rewrite Hp, printed_app, printed_sleep, app_nil_r.
      reflexivity.
Qed.

(** A frame whose CRC fails, and that the last of the given reads
    completes, is logged and stepped over by two bytes; the loop goes on
    with the ticks that remain. *)
Lemma ack_loop_skips_frame :
  unpack_H [c1; c0] <> crc16_xmodem body ->
  forall reads last G s tr buffer,
    bytes_find G OTA_ACK_HEADER_SEQ = -1 ->
    buffer ++ rx s ++ List.concat (reads ++ [last]) = G ++ X ++ R ->
    (List.length (buffer ++ rx s ++ List.concat reads) <
     List.length G + List.length X)%nat ->
    exists tr',
      ack_loop verbose (polls (reads ++ [last]) ++ rest) s tr buffer =
        ack_loop verbose rest (mkSerial (dtr s) (rts s) []) tr'
          (skipn 2 (X ++ R)) /\
      printed tr' =
        printed tr ++ printed (garbage_note verbose G) ++
        [CrcError (unpack_H [c1; c0]) (crc16_xmodem body)].
Proof.
  intros Hcrc. induction reads as [|r reads IH];
    intros last G s tr buffer HG Hs Hpart.
  - cbn [app] in *. rewrite polls_cons. cbn [polls map app].
    assert (Hstream : (buffer ++ rx s ++ arrived (mkTick true last)) ++ [] =
                      G ++ X ++ R)
      by (cbn [arrived]; rewrite <- Hs; cbn [List.concat];
          rewrite !app_nil_r; reflexivity).
    assert (Hfull : (List.length G + List.length X <=
                     List.length (buffer ++ rx s ++ arrived (mkTick true last)))%nat).
    { rewrite app_nil_r in Hstream. rewrite Hstream, !length_app. lia. }
    rewrite (step_frame_complete verbose (mkTick true last) rest s tr buffer
               G st lb msg c1 c0 [] R eq_refl HG Hlb Hstream Hfull).
    cbv zeta. fold body.
    destruct (Z.eqb_spec (unpack_H [c1; c0]) (crc16_xmodem body)); [contradiction|].
    eexists. split.
    + rewrite app_nil_r in Hstream. rewrite Hstream.
      rewrite skipn_app, skipn_all, Nat.sub_diag. reflexivity.
    + rewrite !printed_app. reflexivity.
  - cbn [app]. rewrite polls_cons.
    assert (Hstream : (buffer ++ rx s ++ arrived (mkTick true r)) ++
                      List.concat (reads ++ [last]) = G ++ X ++ R)
      by (cbn [arrived]; rewrite <- Hs; cbn [List.concat app];
          rewrite <- !app_assoc; reflexivity).
    set (buffer' := buffer ++ rx s ++ arrived (mkTick true r)) in *.
    assert (Hpart' : (List.length (buffer' ++ List.concat reads) <
                      List.length G + List.length X)%nat).
    { unfold buffer'. cbn [arrived]. cbn [List.concat] in Hpart.
      rewrite !length_app in *. lia. }
    assert (Hb : (List.length buffer' < List.length G + List.length X)%nat)
      by (rewrite length_app in Hpart'; lia).
    destruct (le_lt_dec (List.length G + 2) (List.length buffer')) as [Hmark|Hnone].
    + destruct (step_frame_partial verbose (mkTick true r) (polls (reads ++ [last]) ++ rest)
                  s tr buffer G st lb msg c1 c0 (List.concat (reads ++ [last])) R
                  eq_refl HG Hlb Hstream Hmark Hb) as [-> Hrest].
      destruct (IH last [] (mkSerial (dtr s) (rts s) [])
                  (tr ++ garbage_note verbose G ++ [Sleep 1])
                  (skipn (List.length G) buffer') find_none_nil Hrest)
        as (tr' & Hw & Hp).
      { cbn [rx app List.length]. rewrite length_app, length_skipn.
        rewrite length_app in Hpart'. lia. }
      exists tr'. split; [exact Hw|]. rewrite Hp, !printed_app.
      rewrite garbage_note_nil, printed_sleep, printed_nil, !app_nil_r.
      rewrite <- ?app_assoc. reflexivity.
    + rewrite (step_no_marker verbose (mkTick true r) (polls (reads ++ [last]) ++ rest)
                 s tr buffer G st lb msg c1 c0 (List.concat (reads ++ [last])) R
                 eq_refl HG Hlb Hstream Hnone).
      destruct (IH last G (mkSerial (dtr s) (rts s) []) (tr ++ [Sleep 1]) buffer'
                  HG Hstream Hpart') as (tr' & Hw & Hp).
      exists tr'. split; [exact Hw|]. rewrite Hp, printed_app, printed_sleep, app_nil_r.
      reflexivity.
Qed.
End FrameWait.

(** C4 (as amended).  Let the port be open and let the reads made before
    the deadline deliver, in any split, [N] bytes [G] that hold no marker,
    then a valid acknowledgment frame [F] for [status] and [msg], then
    anything.  Then [receive_ack] returns that status with that message,
    decoded.  What it prints on the way is one garbage line, carrying
    exactly the [N] bytes of [G], when [verbose] is set and [N > 0]; a
    quiet wait, and a wait with nothing in front of the frame, prints
    nothing at all. *)
Theorem receive_ack_skips_garbage :
  forall (timeout : Z) (verbose : bool) (w : World) (s : Serial)
         (reads : list (list byte)) (rest : list tick)
         (status : byte) (msg F G R : list byte) (N : nat),
    ser w = Some s ->
    env w = polls reads ++ rest ->
    reads <> [] ->
    ack_frame status msg = Some F ->
    List.length G = N ->
    bytes_find G OTA_ACK_HEADER_SEQ = -1 ->
    rx s ++ List.concat reads = G ++ F ++ R ->
    exists w',
      receive_ack timeout verbose w =
        (Ok (byte_val status, Utf8Replace msg), w') /\
      printed (trace w') =
        printed (trace w) ++
        (if verbose && (0 <? N)%nat then [GarbageDiscarded G] else []).
Proof.
  intros timeout verbose w s reads rest status msg F G R N Hs He Hne HF HN HG Hst.
  destruct (ack_frame_shape _ _ _ HF) as (lb & c1 & c0 & -> & Hlb & Hcrc).
  destruct (ack_loop_finds_frame verbose rest status lb msg c1 c0 R Hlb Hcrc
              reads G s (trace w) [] HG Hne Hst) as (w' & Hw & Hp).
  exists w'. split.
  - unfold receive_ack. rewrite Hs, He, Hw. reflexivity.
  - rewrite Hp. f_equal. subst N. unfold garbage_note.
    destruct G as [|g G]; destruct verbose; reflexivity.
Qed.

(** A concrete run that meets the hypotheses of [receive_ack_skips_garbage]. *)
Lemma receive_ack_skips_garbage_witness :
  let s := mkSerial false false [x0a] in
  let reads := [[x01; xaa]; [x55; x00; x02; x4f; x4b; xdb]; [x72; xff]] in
  let w := mkWorld (Some s) (polls reads) [] in
  (ser w = Some s /\ env w = polls reads ++ [] /\ reads <> [] /\
   ack_frame x00 [x4f; x4b] = Some [xaa; x55; x00; x02; x4f; x4b; xdb; x72] /\
   List.length [x0a; x01] = 2%nat /\
   bytes_find [x0a; x01] OTA_ACK_HEADER_SEQ = -1 /\
   rx s ++ List.concat reads =
     [x0a; x01] ++ [xaa; x55; x00; x02; x4f; x4b; xdb; x72] ++ [xff]) /\
  exists w',
    receive_ack 1000 true w = (Ok (byte_val x00, Utf8Replace [x4f; x4b]), w') /\
    printed (trace w') =
      printed (trace w) ++
      (if true && (0 <? 2)%nat then [GarbageDiscarded [x0a; x01]] else []).
Proof.
  cbv zeta.
  assert (Hne : [[x01; xaa]; [x55; x00; x02; x4f; x4b; xdb]; [x72; xff]] <> [])
    by discriminate.
  assert (HF : ack_frame x00 [x4f; x4b] =
               Some [xaa; x55; x00; x02; x4f; x4b; xdb; x72])
    by (vm_compute; reflexivity).
  split.
  - repeat split; try reflexivity; assumption.
  - exact (receive_ack_skips_garbage 1000 true
              (mkWorld (Some (mkSerial false false [x0a]))
                 (polls [[x01; xaa]; [x55; x00; x02; x4f; x4b; xdb]; [x72; xff]]) [])
              (mkSerial false false [x0a])
              [[x01; xaa]; [x55; x00; x02; x4f; x4b; xdb]; [x72; xff]] []
              x00 [x4f; x4b] [xaa; x55; x00; x02; x4f; x4b; xdb; x72]
              [x0a; x01] [xff] 2 eq_refl eq_refl Hne HF eq_refl eq_refl eq_refl).
Defined.

(** C4 (as stated) fails: a quiet wait, which is the default and the mode
    of every DATA wait, that reads two garbage bytes and then a valid
    frame returns the frame and prints nothing, so the two discarded
    bytes are reported nowhere. *)
Lemma receive_ack_quiet_garbage_unreported :
  ~ garbage_length_reported 1000 false
      (mkWorld (Some (mkSerial false false []))
         (polls [[x0a; x01; xaa; x55; x00; x02; x4f; x4b; xdb; x72]]) []).
Proof.
  intros H.
  assert (HF : ack_frame x00 [x4f; x4b] =
               Some [xaa; x55; x00; x02; x4f; x4b; xdb; x72])
    by (vm_compute; reflexivity).
  assert (Hne : [[x0a; x01; xaa; x55; x00; x02; x4f; x4b; xdb; x72]] <> [])
    by discriminate.
  assert (HN : (0 < List.length [x0a; x01])%nat) by (cbn [List.length]; lia).
  destruct (H (mkSerial false false [])
              [[x0a; x01; xaa; x55; x00; x02; x4f; x4b; xdb; x72]] []
              x00 [x4f; x4b] [xaa; x55; x00; x02; x4f; x4b; xdb; x72]
              [x0a; x01] [] eq_refl eq_refl Hne HF eq_refl eq_refl HN)
    as [_ (garbage & Hin & _)].
  vm_compute in Hin. exact Hin.
Qed.

(** C5.  Let [F] be a valid acknowledgment frame with bit [k] of its CRC
    field flipped, which the last of the given reads completes behind
    marker-free bytes [G].  Then [receive_ack] returns, and in the trace
    it leaves the garbage line, if any, is followed by a CRC error line
    showing the received value, which is the computed one with bit [k]
    flipped, and the computed value.  What it returns is decided by the
    bytes behind the two marker bytes, with those the rest of the same
    wait still reads: (-1, "Timeout") when no position of them begins a
    frame whose CRC holds; the next valid frame, when they are marker-free
    bytes and then such a frame; and when they hold no marker at all,
    a verbose wait of more than 500 ms shows exactly these bytes as device
    output. *)
Theorem receive_ack_skips_bad_crc :
  forall (timeout : Z) (verbose : bool) (w : World) (s : Serial)
         (reads : list (list byte)) (last : list byte) (rest : list tick)
         (status : byte) (msg F G R : list byte) (k : nat),
    ser w = Some s ->
    env w = polls (reads ++ [last]) ++ rest ->
    ack_frame status msg = Some F ->
    (k < 16)%nat ->
    bytes_find G OTA_ACK_HEADER_SEQ = -1 ->
    rx s ++ List.concat (reads ++ [last]) = G ++ flip_crc_bit k F ++ R ->
    (List.length (rx s ++ List.concat reads) < List.length G + List.length F)%nat ->
    exists result w' later,
      receive_ack timeout verbose w = (Ok result, w') /\
      Z.lxor (crc16_xmodem (firstn (List.length F - 2) F)) (Z.shiftl 1 (Z.of_nat k)) <>
        crc16_xmodem (firstn (List.length F - 2) F) /\
      printed (trace w') =
        printed (trace w) ++ printed (garbage_note verbose G) ++
        [CrcError
           (Z.lxor (crc16_xmodem (firstn (List.length F - 2) F))
                   (Z.shiftl 1 (Z.of_nat k)))
           (crc16_xmodem (firstn (List.length F - 2) F))] ++ later /\
      (any_frame (skipn 2 (flip_crc_bit k F ++ R) ++ collected [] rest) = false ->
       result = (-1, Lit "Timeout")) /\
      (bytes_find (skipn 2 (flip_crc_bit k F ++ R) ++ collected [] rest)
         OTA_ACK_HEADER_SEQ = -1 ->
       later =
         if verbose && (500 <? timeout)
         then [DeviceOutput
                 (Utf8Ignore (skipn 2 (flip_crc_bit k F ++ R) ++ collected [] rest))]
         else []) /\
      (forall (more : list (list byte)) (rest' : list tick)
              (status2 : byte) (msg2 F2 G2 R2 : list byte),
          rest = polls more ++ rest' ->
          more <> [] ->
          ack_frame status2 msg2 = Some F2 ->
          bytes_find G2 OTA_ACK_HEADER_SEQ = -1 ->
          skipn 2 (flip_crc_bit k F ++ R) ++ List.concat more = G2 ++ F2 ++ R2 ->
          result = (byte_val status2, Utf8Replace msg2)).
Proof.
  intros timeout verbose w s reads last rest status msg F G R k
         Hs He HF Hk HG Hst Hpart.
  destruct (flip_crc_bit_values _ _ _ _ HF Hk)
    as (lb & d1 & d0 & Hshape & Hlb & Hbody & Hrecv & Hcrc & Hlen).
  rewrite Hbody, <- Hrecv. rewrite Hshape in *.
  set (X := xaa :: x55 :: status :: lb :: msg ++ [d1; d0]) in *.
  set (calc := crc16_xmodem (xaa :: x55 :: status :: lb :: msg)) in *.
  destruct (ack_loop_skips_frame verbose rest status lb msg d1 d0 R Hlb Hcrc
              reads last G s (trace w) [] HG Hst) as (tr' & Hw & Hp).
  { cbn [app]. fold X. rewrite Hlen. exact Hpart. }
  fold X in Hw. fold calc in Hp.
  set (s0 := mkSerial (dtr s) (rts s) []) in *.
  assert (Hrun : receive_ack timeout verbose w =
                 ack_outcome timeout verbose
                   (ack_loop verbose rest s0 tr' (skipn 2 (X ++ R))))
    by (unfold receive_ack; rewrite Hs, He, Hw; reflexivity).
  destruct (ack_loop verbose rest s0 tr' (skipn 2 (X ++ R)))
    as [[st m|left_over] w1] eqn:E.
  - (* a later frame is returned *)
    destruct (ack_loop_quiet _ _ _ _ _ _ _ E) as [(added & Ht & _) _].
    exists (st, m), w1, (printed added). split; [exact Hrun|].
    split; [exact Hcrc|]. split.
    { rewrite Ht, printed_app, Hp, <- !app_assoc. reflexivity. }
    split.
    { intros Hnone. apply ack_loop_found_frame in E. cbn [rx s0] in E. congruence. }
    split.
    { intros Hfree.
      destruct (ack_loop_marker_free verbose rest s0 tr' (skipn 2 (X ++ R)) Hfree)
        as (w2 & Hw2 & _). congruence. }
    intros more rest' status2 msg2 F2 G2 R2 -> Hmore HF2 HG2 Hst2.
    destruct (ack_frame_shape _ _ _ HF2) as (lb2 & c1 & c0 & -> & Hlb2 & Hcrc2).
    destruct (ack_loop_finds_frame verbose rest' status2 lb2 msg2 c1 c0 R2 Hlb2 Hcrc2
                more G2 s0 tr' (skipn 2 (X ++ R)) HG2 Hmore Hst2) as (w2 & Hw2 & _).
    congruence.
  - (* the guard fails *)
    destruct (ack_loop_quiet _ _ _ _ _ _ _ E) as [(added & Ht & _) _].
    cbn [ack_outcome] in Hrun.
    exists (-1, Lit "Timeout"),
      (mkWorld (ser w1) (env w1)
         (trace w1 ++
          if negb (is_empty left_over) && verbose && (500 <? timeout)
          then [Print (DeviceOutput (Utf8Ignore left_over))] else [])),
      (printed added ++
       if negb (is_empty left_over) && verbose && (500 <? timeout)
       then [DeviceOutput (Utf8Ignore left_over)] else []).
    split.
    { rewrite Hrun.
      destruct (negb (is_empty left_over) && verbose && (500 <? timeout)).
      - reflexivity.
      - rewrite app_nil_r. destruct w1; reflexivity. }
    split; [exact Hcrc|]. split.
    { cbn [trace]. rewrite printed_app, Ht, printed_app, Hp, <- !app_assoc.
      do 4 f_equal.
      destruct (negb (is_empty left_over) && verbose && (500 <? timeout));
        reflexivity. }
    split; [reflexivity|]. split.
    { intros Hfree.
      destruct (ack_loop_marker_free verbose rest s0 tr' (skipn 2 (X ++ R)) Hfree)
        as (w2 & Hw2 & Hp2).
      cbn [rx s0] in Hw2. rewrite E in Hw2. injection Hw2 as -> ->.
      rewrite Ht, printed_app in Hp2.
      rewrite <- (app_nil_r (printed tr')) in Hp2 at 2.
      apply app_inv_head in Hp2. rewrite Hp2. cbn [app].
      reflexivity. }
    intros more rest' status2 msg2 F2 G2 R2 -> Hmore HF2 HG2 Hst2.
    destruct (ack_frame_shape _ _ _ HF2) as (lb2 & c1 & c0 & -> & Hlb2 & Hcrc2).
    destruct (ack_loop_finds_frame verbose rest' status2 lb2 msg2 c1 c0 R2 Hlb2 Hcrc2
                more G2 s0 tr' (skipn 2 (X ++ R)) HG2 Hmore Hst2) as (w2 & Hw2 & _).
    congruence.
Qed.

(** A concrete run that meets the hypotheses of [receive_ack_skips_bad_crc]:
    the last CRC bit of a frame is flipped, one more byte is read before
    the deadline, and the wait times out showing what is behind the
    marker. *)
Lemma receive_ack_skips_bad_crc_witness :
  let s := mkSerial false false [] in
  let F := [xaa; x55; x00; x02; x4f; x4b; xdb; x72] in
  let reads := [[x01; xaa; x55]] in
  let last := [x00; x02; x4f; x4b; xdb; x73; x0a] in
  let rest := [mkTick true [x21]; mkTick false []] in
  let w := mkWorld (Some s) (polls (reads ++ [last]) ++ rest) [] in
  (ser w = Some s /\
   ack_frame x00 [x4f; x4b] = Some F /\
   (0 < 16)%nat /\
   bytes_find [x01] OTA_ACK_HEADER_SEQ = -1 /\
   rx s ++ List.concat (reads ++ [last]) = [x01] ++ flip_crc_bit 0 F ++ [x0a] /\
   (List.length (rx s ++ List.concat reads) <
    List.length [x01] + List.length F)%nat) /\
  exists w',
    receive_ack 1000 true w = (Ok (-1, Lit "Timeout"), w') /\
    printed (trace w') =
      [GarbageDiscarded [x01]; CrcError 56179 56178;
       DeviceOutput (Utf8Ignore [x00; x02; x4f; x4b; xdb; x73; x0a; x21])].
Proof.
  cbv zeta.
  assert (HF : ack_frame x00 [x4f; x4b] =
               Some [xaa; x55; x00; x02; x4f; x4b; xdb; x72])
    by (vm_compute; reflexivity).
  assert (Hk : (0 < 16)%nat) by lia.
  assert (Hst : rx (mkSerial false false []) ++
                List.concat ([[x01; xaa; x55]] ++ [[x00; x02; x4f; x4b; xdb; x73; x0a]]) =
                [x01] ++ flip_crc_bit 0 [xaa; x55; x00; x02; x4f; x4b; xdb; x72] ++ [x0a])
    by (vm_compute; reflexivity).
  assert (Hpart : (List.length (rx (mkSerial false false []) ++
                                List.concat [[x01; xaa; x55]]) <
                   List.length [x01] +
                   List.length [xaa; x55; x00; x02; x4f; x4b; xdb; x72])%nat)
    by (cbn; lia).
  split; [repeat split; try reflexivity; assumption|].
  destruct (receive_ack_skips_bad_crc 1000 true
              (mkWorld (Some (mkSerial false false []))
                 (polls ([[x01; xaa; x55]] ++ [[x00; x02; x4f; x4b; xdb; x73; x0a]]) ++
                  [mkTick true [x21]; mkTick false []]) [])
              (mkSerial false false []) [[x01; xaa; x55]]
              [x00; x02; x4f; x4b; xdb; x73; x0a]
              [mkTick true [x21]; mkTick false []]
              x00 [x4f; x4b] [xaa; x55; x00; x02; x4f; x4b; xdb; x72] [x01] [x0a] 0
              eq_refl eq_refl HF Hk eq_refl Hst Hpart)
    as (result & w' & later & Hrun & _ & Hprinted & Hnone & Hfree & _).
  assert (Hr : result = (-1, Lit "Timeout")) by (apply Hnone; vm_compute; reflexivity).
  assert (Hl : later =
               [DeviceOutput (Utf8Ignore [x00; x02; x4f; x4b; xdb; x73; x0a; x21])])
    by (apply Hfree; vm_compute; reflexivity).
  exists w'. split.
  - rewrite Hrun, Hr. reflexivity.
  - rewrite Hprinted, Hl. vm_compute. reflexivity.
Defined.

(** ** Upload session *)

(** A wait always returns a pair, leaves the port open and writes nothing. *)
Lemma receive_ack_quiet timeout verbose w s :
  ser w = Some s ->
  exists status msg w' s',
    receive_ack timeout verbose w = (Ok (status, msg), w') /\
    ser w' = Some s' /\
    quiet_extension (trace w) (trace w').
Proof.
  intros Hs. unfold receive_ack. rewrite Hs.
  destruct (ack_loop verbose (env w) s (trace w) []) as [[status msg|buffer] w1] eqn:E;
    destruct (ack_loop_quiet _ _ _ _ _ _ _ E) as [Hq [s' Hs']]; cbn [ack_outcome].
  - exists status, msg, w1, s'. auto.
  - destruct (negb (is_empty buffer) && verbose && (500 <? timeout)).
    + do 2 eexists. exists (mkWorld (ser w1) (env w1)
                              (trace w1 ++ [Print (DeviceOutput (Utf8Ignore buffer))])), s'.
      split; [reflexivity|]. split; [exact Hs'|]. cbn [trace].
      eapply quiet_trans; [exact Hq | apply quiet_snoc; reflexivity].
    + do 2 eexists. exists w1, s'. auto.
Qed.

(** Sending a frame that encodes writes it, once, and leaves the port open. *)
Lemma send_frame_written cmd payload f w s :
  ser w = Some s ->
  encode_frame cmd payload = Some f ->
  exists w',
    send_frame cmd payload w = (Ok tt, w') /\
    ser w' = Some s /\ env w' = env w /\
    written (trace w') = written (trace w) ++ [f].
Proof.
  intros Hs Hf. rewrite (send_frame_encode _ _ _ _ Hs), Hf.
  eexists. split; [reflexivity|]. cbn [ser env trace].
  rewrite written_app. auto.
Qed.

Lemma verify_attempt_written w s f :
  ser w = Some s ->
  encode_frame OTA_CMD_VERIFY [] = Some f ->
  exists status msg w' s',
    verify_attempt w = (Ok (status, msg), w') /\
    ser w' = Some s' /\
    written (trace w') = written (trace w) ++ [f].
Proof.
  intros Hs Hf.
  destruct (send_frame_written _ _ _ _ _ Hs Hf) as (w1 & E1 & Hs1 & _ & Hw1).
  destruct (receive_ack_quiet 1000 true w1 s Hs1) as (st & msg & w2 & s2 & E2 & Hs2 & Hq).
  exists st, msg, w2, s2. unfold verify_attempt, bind. rewrite E1, E2.
  split; [reflexivity|]. split; [exact Hs2|].
  rewrite (quiet_written _ _ Hq). exact Hw1.
Qed.

Lemma sync_pause_world i w :
  ser (sync_pause i w) = ser w /\
  env (sync_pause i w) = env w /\
  trace (sync_pause i w) = trace w ++ [Print (SyncAttemptTimeout i); Sleep 500].
Proof.
  unfold sync_pause, bind, print, sleep, emit. cbn [snd ser env trace].
  rewrite <- app_assoc. auto.
Qed.

Lemma sync_pause_written i w : written (trace (sync_pause i w)) = written (trace w).
Proof.
  destruct (sync_pause_world i w) as (_ & _ & ->).
  rewrite written_app. apply app_nil_r.
Qed.

Lemma bind_split {A B} (m : M A) (k : A -> M B) w :
  bind m k w =
  match m w with
  | (Ok a, w') => k a w'
  | (StructError, w') => (StructError, w')
  | (OutOfFuel, w') => (OutOfFuel, w')
  end.
Proof. reflexivity. Qed.

(** One turn of the retry loop, in terms of the attempt it makes. *)
Lemma sync_attempts_cons i rest w :
  sync_attempts (i :: rest) w =
  match verify_attempt w with
  | (Ok (status, msg), w1) =>
    if status =? 0 then (print (SyncOk msg);; ret true) w1
    else if 0 <? status then (print (SyncDeviceError msg);; ret true) w1
    else sync_attempts rest (sync_pause (i + 1) w1)
  | (StructError, w1) => (StructError, w1)
  | (OutOfFuel, w1) => (OutOfFuel, w1)
  end.
Proof.
  cbn [sync_attempts]. unfold verify_attempt.
  rewrite (bind_split (send_frame OTA_CMD_VERIFY []) _ w).
  rewrite (bind_split (send_frame OTA_CMD_VERIFY []) (fun _ => receive_ack 1000 true) w).
  destruct (send_frame OTA_CMD_VERIFY [] w) as [[[]| |] w0]; try reflexivity.
  rewrite bind_split.
  destruct (receive_ack 1000 true w0) as [[[status msg]| |] w1]; try reflexivity.
  destruct (status =? 0); [reflexivity|].
  destruct (0 <? status); reflexivity.
Qed.

Lemma sync_start w : sync w = sync_attempts [0; 1; 2]%nat (snd (print SyncStart w)).
Proof. reflexivity. Qed.

Lemma sync_attempts_timed_out i rest w :
  timed_out (verify_attempt w) ->
  sync_attempts (i :: rest) w =
  sync_attempts rest (sync_pause (i + 1) (snd (verify_attempt w))).
Proof.
  unfold timed_out. intros H. rewrite sync_attempts_cons.
  destruct (verify_attempt w) as [r w1]. cbn [fst snd] in *. subst r.
  reflexivity.
Qed.

Lemma sync_attempts_answered i rest w :
  answered (verify_attempt w) ->
  fst (sync_attempts (i :: rest) w) = Ok true /\
  written (trace (snd (sync_attempts (i :: rest) w))) =
  written (trace (snd (verify_attempt w))).
Proof.
  intros (status & msg & H & Hpos). rewrite sync_attempts_cons.
  destruct (verify_attempt w) as [r w1]. cbn [fst snd] in *. subst r.
  destruct (Z.eqb_spec status 0).
  - unfold bind, print, emit, ret. cbn [fst snd trace].
    rewrite written_app. split; [reflexivity | apply app_nil_r].
  - destruct (Z.ltb_spec 0 status); [|lia].
    unfold bind, print, emit, ret. cbn [fst snd trace].
    rewrite written_app. split; [reflexivity | apply app_nil_r].
Qed.

Lemma verify_attempt_after w s f :
  ser w = Some s ->
  encode_frame OTA_CMD_VERIFY [] = Some f ->
  (exists s', ser (snd (verify_attempt w)) = Some s') /\
  written (trace (snd (verify_attempt w))) = written (trace w) ++ [f].
Proof.
  intros Hs Hf.
  destruct (verify_attempt_written w s f Hs Hf) as (st & msg & w' & s' & -> & Hs' & Hw).
  cbn [snd]. eauto.
Qed.

(** C6.  On an open port, sync makes its attempts one after another, each
    a VERIFY frame followed by a wait, with a timeout report and a 500 ms
    pause after each attempt that timed out.  If all three waits time out,
    sync returns false having written exactly three VERIFY frames, the
    last world being that after the third pause.  If the first wait, or the
    second after a timeout, or the third after two timeouts, is answered
    with a status of zero or more, sync returns true and has written one,
    two or three VERIFY frames and no more. *)
Theorem sync_retry_bound :
  forall (w : World) (s : Serial) (f : list byte),
    ser w = Some s ->
    encode_frame OTA_CMD_VERIFY [] = Some f ->
    let a1 := verify_attempt (snd (print SyncStart w)) in
    let a2 := verify_attempt (sync_pause 1 (snd a1)) in
    let a3 := verify_attempt (sync_pause 2 (snd a2)) in
    (timed_out a1 -> timed_out a2 -> timed_out a3 ->
     sync w = (Ok false, sync_pause 3 (snd a3)) /\
     written (trace (snd (sync w))) = written (trace w) ++ [f; f; f]) /\
    (answered a1 ->
     fst (sync w) = Ok true /\
     written (trace (snd (sync w))) = written (trace w) ++ [f]) /\
    (timed_out a1 -> answered a2 ->
     fst (sync w) = Ok true /\
     written (trace (snd (sync w))) = written (trace w) ++ [f; f]) /\
    (timed_out a1 -> timed_out a2 -> answered a3 ->
     fst (sync w) = Ok true /\
     written (trace (snd (sync w))) = written (trace w) ++ [f; f; f]).
Proof.
  intros w s f Hs Hf a1 a2 a3. rewrite sync_start.
  set (w0 := snd (print SyncStart w)) in *.
  assert (Hs0 : ser w0 = Some s) by exact Hs.
  assert (Hw0 : written (trace w0) = written (trace w))
    by (unfold w0, print, emit; cbn [snd trace]; rewrite written_app;
        apply app_nil_r).
  destruct (verify_attempt_after w0 s f Hs0 Hf) as [[s1 Hs1] Hw1]. fold a1 in Hs1, Hw1.
  destruct (sync_pause_world 1 (snd a1)) as (Hp1 & _ & _).
  rewrite Hs1 in Hp1.
  destruct (verify_attempt_after _ s1 f Hp1 Hf) as [[s2 Hs2] Hw2]. fold a2 in Hs2, Hw2.
  rewrite sync_pause_written, Hw1, Hw0 in Hw2.
  destruct (sync_pause_world 2 (snd a2)) as (Hp2 & _ & _).
  rewrite Hs2 in Hp2.
  destruct (verify_attempt_after _ s2 f Hp2 Hf) as [[s3 Hs3] Hw3]. fold a3 in Hs3, Hw3.
  rewrite sync_pause_written, Hw2 in Hw3.
  rewrite Hw0 in Hw1. rewrite <- !app_assoc in Hw3. cbn [app] in Hw3.
  rewrite <- !app_assoc in Hw2. cbn [app] in Hw2.
  split; [|split; [|split]].
  - intros T1 T2 T3.
    rewrite (sync_attempts_timed_out _ _ _ T1). change (0 + 1)%nat with 1%nat. fold a1.
    rewrite (sync_attempts_timed_out _ _ _ T2). change (1 + 1)%nat with 2%nat. fold a2.
    rewrite (sync_attempts_timed_out _ _ _ T3). change (2 + 1)%nat with 3%nat. fold a3.
    cbn [sync_attempts]. unfold ret. cbn [snd].
    split; [reflexivity|]. rewrite sync_pause_written. exact Hw3.
  - intros A1.
    destruct (sync_attempts_answered 0 [1; 2]%nat w0 A1) as [R W].
    split; [exact R|]. rewrite W. exact Hw1.
  - intros T1 A2.
    rewrite (sync_attempts_timed_out _ _ _ T1). change (0 + 1)%nat with 1%nat. fold a1.
    destruct (sync_attempts_answered 1 [2]%nat _ A2) as [R W].
    split; [exact R|]. rewrite W. exact Hw2.
  - intros T1 T2 A3.
    rewrite (sync_attempts_timed_out _ _ _ T1). change (0 + 1)%nat with 1%nat. fold a1.
    rewrite (sync_attempts_timed_out _ _ _ T2). change (1 + 1)%nat with 2%nat. fold a2.
    destruct (sync_attempts_answered 2 []%nat _ A3) as [R W].
    split; [exact R|]. rewrite W. exact Hw3.
Qed.

(** A concrete run that meets the hypotheses of [sync_retry_bound]. *)
Lemma sync_retry_bound_witness :
  let s := mkSerial false false [] in
  let w := mkWorld (Some s) [] [] in
  let f := [xab; xcd; x04; x00; x00; x00; x00; x00; x00; x00; x00; x00; x00; x00;
            x05; x49] in
  let a1 := verify_attempt (snd (print SyncStart w)) in
  let a2 := verify_attempt (sync_pause 1 (snd a1)) in
  let a3 := verify_attempt (sync_pause 2 (snd a2)) in
  (ser w = Some s /\ encode_frame OTA_CMD_VERIFY [] = Some f /\
   timed_out a1 /\ timed_out a2 /\ timed_out a3) /\
  sync w = (Ok false, sync_pause 3 (snd a3)) /\
  written (trace (snd (sync w))) = written (trace w) ++ [f; f; f].
Proof.
  cbv zeta.
  assert (Hf : encode_frame OTA_CMD_VERIFY [] =
               Some [xab; xcd; x04; x00; x00; x00; x00; x00; x00; x00; x00; x00;
                     x00; x00; x05; x49]) by (vm_compute; reflexivity).
  pose proof (sync_retry_bound (mkWorld (Some (mkSerial false false [])) [] [])
                (mkSerial false false []) _ eq_refl Hf) as H.
  cbv zeta in H. destruct H as [H _].
  assert (T1 : timed_out (verify_attempt
                 (snd (print SyncStart (mkWorld (Some (mkSerial false false [])) [] [])))))
    by (vm_compute; reflexivity).
  assert (T2 : timed_out (verify_attempt (sync_pause 1 (snd (verify_attempt
                 (snd (print SyncStart (mkWorld (Some (mkSerial false false [])) [] []))))))))
    by (vm_compute; reflexivity).
  assert (T3 : timed_out (verify_attempt (sync_pause 2 (snd (verify_attempt
                 (sync_pause 1 (snd (verify_attempt
                 (snd (print SyncStart (mkWorld (Some (mkSerial false false [])) [] [])))))))))))
    by (vm_compute; reflexivity).
  split; [repeat split; assumption|].
  exact (H T1 T2 T3).
Defined.

(** *** Chunks of a file *)

Lemma CHUNK_SIZE_pos : (0 < CHUNK_SIZE)%nat.
Proof. unfold CHUNK_SIZE. lia. Qed.

Lemma CHUNK_SIZE_val : Z.of_nat CHUNK_SIZE = 4096.
Proof. reflexivity. Qed.

#[local] Opaque CHUNK_SIZE.

Lemma chunk_count_spec n :
  (chunk_count n * CHUNK_SIZE < n + CHUNK_SIZE /\ n <= chunk_count n * CHUNK_SIZE)%nat.
Proof.
  unfold chunk_count. pose proof CHUNK_SIZE_pos as Hc.
  pose proof (Nat.div_mod_eq (n + CHUNK_SIZE - 1) CHUNK_SIZE) as E.
  pose proof (Nat.mod_upper_bound (n + CHUNK_SIZE - 1) CHUNK_SIZE ltac:(lia)) as B.
  set (q := ((n + CHUNK_SIZE - 1) / CHUNK_SIZE)%nat) in *.
  set (r := ((n + CHUNK_SIZE - 1) mod CHUNK_SIZE)%nat) in *.
  nia.
Qed.

Lemma chunk_index_lt n j : (j < chunk_count n <-> j * CHUNK_SIZE < n)%nat.
Proof.
  destruct (chunk_count_spec n) as [H1 H2]. pose proof CHUNK_SIZE_pos. split; nia.
Qed.

Lemma chunk_count_le n : (chunk_count n <= n)%nat.
Proof.
  destruct (chunk_count_spec n) as [H1 H2]. pose proof CHUNK_SIZE_pos. nia.
Qed.

Lemma chunk_at_eq data j :
  chunk_at data j = firstn CHUNK_SIZE (skipn (j * CHUNK_SIZE) data).
Proof. unfold chunk_at, slice. f_equal. lia. Qed.

Lemma chunk_at_length data j :
  List.length (chunk_at data j) =
  Nat.min CHUNK_SIZE (List.length data - j * CHUNK_SIZE).
Proof. rewrite chunk_at_eq, length_firstn, length_skipn. reflexivity. Qed.

Lemma chunk_at_full data j :
  (j + 1 < chunk_count (List.length data))%nat ->
  List.length (chunk_at data j) = CHUNK_SIZE.
Proof.
  intros H. apply chunk_index_lt in H. rewrite chunk_at_length. lia.
Qed.

Lemma chunk_at_last data :
  (0 < List.length data)%nat ->
  List.length (chunk_at data (chunk_count (List.length data) - 1)) =
  if (List.length data mod CHUNK_SIZE =? 0)%nat
  then CHUNK_SIZE
  else (List.length data mod CHUNK_SIZE)%nat.
Proof.
  intros Hn. rewrite chunk_at_length.
  destruct (chunk_count_spec (List.length data)) as [H1 H2].
  pose proof CHUNK_SIZE_pos as Hc.
  pose proof (Nat.div_mod_eq (List.length data) CHUNK_SIZE) as E.
  pose proof (Nat.mod_upper_bound (List.length data) CHUNK_SIZE ltac:(lia)) as B.
  set (n := List.length data) in *. set (q := chunk_count n) in *.
  set (k := (n / CHUNK_SIZE)%nat) in *. set (r := (n mod CHUNK_SIZE)%nat) in *.
  assert (Hq : (1 <= q)%nat) by nia.
  destruct (Nat.eqb_spec r 0) as [Hr|Hr].
  - assert (q = k) by nia. nia.
  - assert (q = S k) by nia. nia.
Qed.

Lemma firstn_add {A} (a b : nat) : forall l : list A,
  firstn a l ++ firstn b (skipn a l) = firstn (a + b) l.
Proof.
  induction a as [|a IH]; intros l; [reflexivity|].
  destruct l as [|x l]; cbn [firstn skipn plus app].
  - rewrite firstn_nil. reflexivity.
  - f_equal. apply IH.
Qed.

Lemma chunks_concat data : forall k,
  List.concat (map (chunk_at data) (seq 0 k)) = firstn (k * CHUNK_SIZE) data.
Proof.
  induction k as [|k IH]; [reflexivity|].
  rewrite seq_S, map_app, concat_app, IH. cbn [map List.concat plus].
  rewrite app_nil_r, chunk_at_eq, firstn_add. f_equal. lia.
Qed.

(** The chunks are [ceil(S / CHUNK_SIZE)] consecutive slices that make up
    the file: all of [CHUNK_SIZE] bytes but the last, which holds the
    remainder, or [CHUNK_SIZE] bytes when there is none. *)
Lemma chunks_partition data :
  let n := List.length data in
  let chunks := map (chunk_at data) (seq 0 (chunk_count n)) in
  List.length chunks = chunk_count n /\
  List.concat chunks = data /\
  list_sum (map (@List.length byte) chunks) = n /\
  (forall j, (j + 1 < chunk_count n)%nat ->
             List.length (chunk_at data j) = CHUNK_SIZE) /\
  ((0 < n)%nat ->
   List.length (chunk_at data (chunk_count n - 1)) =
   if (n mod CHUNK_SIZE =? 0)%nat then CHUNK_SIZE else (n mod CHUNK_SIZE)%nat).
Proof.
  cbv zeta.
  assert (Hcat : List.concat (map (chunk_at data) (seq 0 (chunk_count (List.length data))))
                 = data).
  { rewrite chunks_concat. apply firstn_all2.
    apply (chunk_count_spec (List.length data)). }
  split; [rewrite length_map, length_seq; reflexivity|].
  split; [exact Hcat|]. split.
  - rewrite <- length_concat, Hcat. reflexivity.
  - split; [apply chunk_at_full | apply chunk_at_last].
Qed.

(** *** The data loop *)

Lemma encode_chunk data j :
  encode_frame OTA_CMD_DATA (chunk_at data j) =
  Some (frame_of OTA_CMD_DATA (chunk_at data j)).
Proof.
  unfold frame_of, encode_frame.
  destruct (pack_B_some OTA_CMD_DATA) as (c & -> & _); [unfold OTA_CMD_DATA; lia|].
  destruct (pack_H_some (Z.of_nat (List.length (chunk_at data j))))
    as (l1 & l0 & -> & _).
  { rewrite chunk_at_length. pose proof CHUNK_SIZE_val. lia. }
  cbv zeta.
  destruct (pack_H_some (crc16_xmodem
              ([xab; xcd] ++ [c] ++ [l1; l0] ++ repeat x00 9 ++ chunk_at data j)))
    as (c1 & c0 & -> & _); [apply crc16_xmodem_range|].
  reflexivity.
Qed.

(** A turn of the data loop always returns a pair, leaves the port open
    and writes the frame of its chunk and nothing else. *)
Lemma chunk_round_written data j w s :
  ser w = Some s ->
  exists status msg w' s',
    chunk_round data j w = (Ok (status, msg), w') /\
    ser w' = Some s' /\
    written (trace w') = written (trace w) ++ [frame_of OTA_CMD_DATA (chunk_at data j)].
Proof.
  intros Hs.
  destruct (send_frame_written _ _ _ _ _ Hs (encode_chunk data j))
    as (w1 & E1 & Hs1 & _ & Hw1).
  destruct (receive_ack_quiet 1000 false w1 s Hs1)
    as (st & msg & w2 & s2 & E2 & Hs2 & Hq).
  exists st, msg, w2, s2. unfold chunk_round. rewrite bind_split, E1, E2.
  split; [reflexivity|]. split; [exact Hs2|].
  rewrite (quiet_written _ _ Hq). exact Hw1.
Qed.

Lemma chunk_progress_world data j w :
  ser (snd (chunk_progress data j w)) = ser w /\
  written (trace (snd (chunk_progress data j w))) = written (trace w).
Proof.
  unfold chunk_progress, print, emit. cbn [snd ser trace].
  rewrite written_app. split; [reflexivity | apply app_nil_r].
Qed.

Lemma after_chunks_written data w s : forall i,
  ser w = Some s ->
  (exists s', ser (after_chunks data i w) = Some s') /\
  written (trace (after_chunks data i w)) =
  written (trace w) ++
  map (fun j => frame_of OTA_CMD_DATA (chunk_at data j)) (seq 0 i).
Proof.
  intros i Hs. induction i as [|i [[si Hsi] Hwi]].
  - split; [eauto | symmetry; apply app_nil_r].
  - cbn [after_chunks].
    destruct (chunk_round_written data i _ si Hsi)
      as (st & msg & w' & s' & E & Hs' & Hw').
    destruct (chunk_progress_world data i (snd (chunk_round data i (after_chunks data i w))))
      as [Hps Hpw].
    rewrite E in *. cbn [snd] in *. split.
    + exists s'. rewrite Hps. exact Hs'.
    + rewrite Hpw, Hw', Hwi, seq_S, map_app, <- app_assoc. reflexivity.
Qed.

(** The loop stops once the offset has reached the file size. *)
Lemma transfer_loop_done fuel data file_size offset current_chunk w :
  (file_size <= offset)%nat ->
  transfer_loop fuel data file_size offset current_chunk w = (Ok true, w).
Proof.
  intros H. destruct fuel; cbn [transfer_loop];
    (destruct (Nat.ltb_spec offset file_size); [lia | reflexivity]).
Qed.

(** One turn of the loop at the start of chunk [j]. *)
Lemma transfer_loop_turn fuel data j w :
  (j * CHUNK_SIZE < List.length data)%nat ->
  transfer_loop (S fuel) data (List.length data) (j * CHUNK_SIZE) j w =
  match chunk_round data j w with
  | (Ok (status, msg), w1) =>
    if negb (status =? 0) then (print (ChunkFailed j msg);; ret false) w1
    else transfer_loop fuel data (List.length data)
           (j * CHUNK_SIZE + List.length (chunk_at data j)) (j + 1)
           (snd (chunk_progress data j w1))
  | (StructError, w1) => (StructError, w1)
  | (OutOfFuel, w1) => (OutOfFuel, w1)
  end.
Proof.
  intros Hlt. cbn [transfer_loop].
  destruct (Nat.ltb_spec (j * CHUNK_SIZE) (List.length data)); [|lia].
  cbv zeta. fold (chunk_at data j). unfold chunk_round.
  rewrite (bind_split (send_frame OTA_CMD_DATA (chunk_at data j)) _ w).
  rewrite (bind_split (send_frame OTA_CMD_DATA (chunk_at data j))
             (fun _ => receive_ack 1000 false) w).
  destruct (send_frame OTA_CMD_DATA (chunk_at data j) w) as [[[]| |] w0];
    try reflexivity.
  rewrite bind_split.
  destruct (receive_ack 1000 false w0) as [[[status msg]| |] w1]; try reflexivity.
  destruct (negb (status =? 0)); reflexivity.
Qed.

Lemma next_offset data j :
  (j < chunk_count (List.length data))%nat ->
  (j * CHUNK_SIZE + List.length (chunk_at data j))%nat =
  Nat.min ((j + 1) * CHUNK_SIZE) (List.length data).
Proof.
  intros H. apply chunk_index_lt in H. rewrite chunk_at_length. lia.
Qed.

(** While every chunk so far was acknowledged with status 0, the loop is
    at the start of the next chunk, in the world [after_chunks] gives. *)
Lemma transfer_loop_prefix data w : forall i fuel,
  (i <= chunk_count (List.length data))%nat ->
  (i <= fuel)%nat ->
  (forall j, (j < i)%nat -> acked (chunk_round data j (after_chunks data j w))) ->
  transfer_loop fuel data (List.length data) 0 0 w =
  transfer_loop (fuel - i) data (List.length data)
    (Nat.min (i * CHUNK_SIZE) (List.length data)) i (after_chunks data i w).
Proof.
  induction i as [|i IH]; intros fuel Hq Hf Hack.
  - rewrite Nat.sub_0_r. reflexivity.
  - rewrite (IH fuel) by (auto; lia).
    assert (Hi : (i < chunk_count (List.length data))%nat) by lia.
    pose proof (proj1 (chunk_index_lt _ _) Hi) as Hlt.
    rewrite Nat.min_l by lia.
    replace (fuel - i)%nat with (S (fuel - S i)) by lia.
    rewrite (transfer_loop_turn _ _ _ _ Hlt).
    destruct (Hack i ltac:(lia)) as [msg Hok]. cbn [after_chunks].
    destruct (chunk_round data i (after_chunks data i w)) as [r w1].
    cbn [fst snd] in *. subst r. cbn [Z.eqb negb].
    rewrite (next_offset _ _ Hi). replace (i + 1)%nat with (S i) by lia.
    reflexivity.
Qed.

(** With every chunk acknowledged, the loop ends after the last one. *)
Lemma transfer_loop_completes data w fuel :
  (chunk_count (List.length data) <= fuel)%nat ->
  (forall j, (j < chunk_count (List.length data))%nat ->
             acked (chunk_round data j (after_chunks data j w))) ->
  transfer_loop fuel data (List.length data) 0 0 w =
  (Ok true, after_chunks data (chunk_count (List.length data)) w).
Proof.
  intros Hf Hack.
  rewrite (transfer_loop_prefix data w (chunk_count (List.length data)) fuel)
    by auto.
  apply transfer_loop_done.
  destruct (chunk_count_spec (List.length data)). lia.
Qed.

(** A chunk that is refused ends the loop at once. *)
Lemma transfer_loop_aborts data w fuel i :
  (chunk_count (List.length data) <= fuel)%nat ->
  (i < chunk_count (List.length data))%nat ->
  (forall j, (j < i)%nat -> acked (chunk_round data j (after_chunks data j w))) ->
  refused (chunk_round data i (after_chunks data i w)) ->
  exists msg,
    transfer_loop fuel data (List.length data) 0 0 w =
    (Ok false,
     snd (print (ChunkFailed i msg)
            (snd (chunk_round data i (after_chunks data i w))))).
Proof.
  intros Hf Hi Hack (status & msg & Hr & Hne).
  rewrite (transfer_loop_prefix data w i fuel) by (auto; lia).
  pose proof (proj1 (chunk_index_lt _ _) Hi) as Hlt.
  rewrite Nat.min_l by lia.
  replace (fuel - i)%nat with (S (fuel - S i)) by lia.
  rewrite (transfer_loop_turn _ _ _ _ Hlt).
  destruct (chunk_round data i (after_chunks data i w)) as [r w1].
  cbn [fst snd] in *. subst r.
  destruct (Z.eqb_spec status 0); [contradiction|]. cbn [negb].
  exists msg. reflexivity.
Qed.

(** *** The upload as a whole *)

Lemma encode_frame_some cmd payload :
  0 <= cmd < 256 ->
  Z.of_nat (List.length payload) <= 65535 ->
  exists c rest,
    byte_val c = cmd /\
    encode_frame cmd payload = Some (frame_of cmd payload) /\
    frame_of cmd payload = xab :: xcd :: c :: rest.
Proof.
  intros Hc Hl. unfold frame_of, encode_frame.
  destruct (pack_B_some cmd Hc) as (c & -> & Hcv).
  destruct (pack_H_some (Z.of_nat (List.length payload))) as (l1 & l0 & -> & _);
    [lia|].
  cbv zeta.
  destruct (pack_H_some (crc16_xmodem
              ([xab; xcd] ++ [c] ++ [l1; l0] ++ repeat x00 9 ++ payload)))
    as (c1 & c0 & -> & _); [apply crc16_xmodem_range|].
  exists c. eexists. split; [exact Hcv|]. split; reflexivity.
Qed.

Lemma pack_I_length v p : pack_I v = Some p -> List.length p = 4%nat.
Proof.
  unfold pack_I. destruct ((0 <=? v) && (v <? 4294967296)); [|discriminate].
  destruct (byte_of_Z (v / 16777216)); [|discriminate].
  destruct (byte_of_Z (v / 65536 mod 256)); [|discriminate].
  destruct (byte_of_Z (v / 256 mod 256)); [|discriminate].
  destruct (byte_of_Z (v mod 256)); [|discriminate].
  intros H. injection H as <-. reflexivity.
Qed.

Lemma print_world line w :
  print line w = (Ok tt, mkWorld (ser w) (env w) (trace w ++ [Print line])).
Proof. reflexivity. Qed.

(** A START step that returns has written the START frame for the file
    size and nothing else, and has left the port open. *)
Lemma start_round_written data w s r w1 :
  ser w = Some s ->
  start_round data w = (Ok r, w1) ->
  exists p s1,
    pack_I (Z.of_nat (List.length data)) = Some p /\
    ser w1 = Some s1 /\
    written (trace w1) = written (trace w) ++ [frame_of OTA_CMD_START p].
Proof.
  intros Hs. unfold start_round.
  rewrite bind_split, print_world, bind_split, print_world, bind_split.
  destruct (pack_I (Z.of_nat (List.length data))) as [p|] eqn:Hp;
    cbn [struct_pack]; [|discriminate].
  set (w0 := mkWorld _ _ _).
  assert (Hs0 : ser w0 = Some s) by exact Hs.
  assert (Hw0 : written (trace w0) = written (trace w)).
  { unfold w0. cbn [trace]. rewrite !written_app. cbn [written flat_map app].
    rewrite !app_nil_r. reflexivity. }
  destruct (encode_frame_some OTA_CMD_START p) as (c & rest & _ & He & _).
  { unfold OTA_CMD_START. lia. }
  { rewrite (pack_I_length _ _ Hp). cbn. lia. }
  destruct (send_frame_written _ _ _ _ _ Hs0 He) as (w' & E1 & Hs' & _ & Hw').
  destruct (receive_ack_quiet 10000 true w' s Hs')
    as (st & msg & w2 & s2 & E2 & Hs2 & Hq).
  rewrite bind_split, E1, E2. intros H. injection H as _ <-.
  exists p, s2. split; [reflexivity|]. split; [exact Hs2|].
  rewrite (quiet_written _ _ Hq), Hw', Hw0. reflexivity.
Qed.

(** The END step always returns a pair, having written the END frame and
    nothing else. *)
Lemma end_round_written w s :
  ser w = Some s ->
  exists status msg w',
    end_round w = (Ok (status, msg), w') /\
    written (trace w') = written (trace w) ++ [frame_of OTA_CMD_END []].
Proof.
  intros Hs. unfold end_round.
  rewrite bind_split, print_world, bind_split, print_world.
  set (w0 := mkWorld _ _ _).
  assert (Hs0 : ser w0 = Some s) by exact Hs.
  assert (Hw0 : written (trace w0) = written (trace w)).
  { unfold w0. cbn [trace]. rewrite !written_app. cbn [written flat_map app].
    rewrite !app_nil_r. reflexivity. }
  destruct (encode_frame_some OTA_CMD_END []) as (c & rest & _ & He & _).
  { unfold OTA_CMD_END. lia. }
  { cbn. lia. }
  destruct (send_frame_written _ _ _ _ _ Hs0 He) as (w' & E1 & Hs' & _ & Hw').
  destruct (receive_ack_quiet 5000 true w' s Hs')
    as (st & msg & w2 & s2 & E2 & Hs2 & Hq).
  rewrite bind_split, E1, E2. exists st, msg, w2. split; [reflexivity|].
  rewrite (quiet_written _ _ Hq), Hw', Hw0. reflexivity.
Qed.

(** [upload_file] on an existing file, by its three steps. *)
Lemma upload_file_steps data w :
  upload_file (Some data) w =
  match start_round data w with
  | (Ok (status, msg), w1) =>
    if negb (status =? 0) then (print (StartFailed msg);; ret false) w1
    else
      match transfer_loop (List.length data) data (List.length data) 0 0
              (transfer_start msg w1) with
      | (Ok sent, w2) =>
        if negb sent then (Ok false, w2)
        else
          match end_round w2 with
          | (Ok (status, msg), w3) =>
            if negb (status =? 0) then (print (EndFailed msg);; ret false) w3
            else (print (UpgradeOk msg);; ret true) w3
          | (StructError, w3) => (StructError, w3)
          | (OutOfFuel, w3) => (OutOfFuel, w3)
          end
      | (StructError, w2) => (StructError, w2)
      | (OutOfFuel, w2) => (OutOfFuel, w2)
      end
  | (StructError, w1) => (StructError, w1)
  | (OutOfFuel, w1) => (OutOfFuel, w1)
  end.
Proof.
  cbn [upload_file]. cbv zeta. unfold start_round.
  rewrite !(bind_split (print (FirmwareSize (List.length data))) _ w), !print_world.
  set (wa := mkWorld _ _ _).
  rewrite !(bind_split (print SendingStart) _ wa), !print_world.
  set (wb := mkWorld _ _ _).
  rewrite !(bind_split (struct_pack (pack_I (Z.of_nat (List.length data)))) _ wb).
  destruct (struct_pack (pack_I (Z.of_nat (List.length data))) wb)
    as [[p| |] wc]; try reflexivity.
  rewrite !(bind_split (send_frame OTA_CMD_START p) _ wc).
  destruct (send_frame OTA_CMD_START p wc) as [[[]| |] wd]; try reflexivity.
  rewrite bind_split.
  destruct (receive_ack 10000 true wd) as [[[status msg]| |] w1]; try reflexivity.
  destruct (negb (status =? 0)); [reflexivity|].
  unfold transfer_start.
  rewrite !(bind_split (print (StartOk msg)) _ w1), !print_world.
  set (we := mkWorld _ _ _).
  rewrite !(bind_split (print SendingData) _ we), !print_world.
  cbn [snd]. set (wf := mkWorld _ _ _).
  rewrite bind_split.
  destruct (transfer_loop _ data _ 0%nat 0%nat wf) as [[sent| |] w2]; try reflexivity.
  destruct (negb sent); [reflexivity|].
  unfold end_round.
  rewrite !(bind_split (print DataDone) _ w2), !print_world.
  set (wg := mkWorld _ _ _).
  rewrite !(bind_split (print SendingEnd) _ wg), !print_world.
  set (wh := mkWorld _ _ _).
  rewrite !(bind_split (send_frame OTA_CMD_END []) _ wh).
  destruct (send_frame OTA_CMD_END [] wh) as [[[]| |] wi]; try reflexivity.
  rewrite bind_split.
  destruct (receive_ack 5000 true wi) as [[[st2 msg2]| |] w3]; try reflexivity.
  destruct (negb (st2 =? 0)); reflexivity.
Qed.

Lemma transfer_start_world msg w :
  ser (transfer_start msg w) = ser w /\
  written (trace (transfer_start msg w)) = written (trace w).
Proof.
  unfold transfer_start, bind, print, emit. cbn [snd ser trace].
  rewrite !written_app. cbn [written flat_map app]. rewrite !app_nil_r. auto.
Qed.

(** C2.  On an open port, after a START step acknowledged with status 0
    and with every DATA acknowledgment of status 0, the upload returns,
    and between the START frame and the END frame it has written exactly
    the DATA frames of the chunks [data[i*4096 : (i+1)*4096]], for [i]
    from 0 to [ceil(S/4096) - 1] in this order.  These chunks make up the
    file: they are [ceil(S/4096)] many, their concatenation is the file,
    their lengths add up to [S], each but the last has 4096 bytes, and the
    last has [S mod 4096] bytes, or 4096 when that is 0. *)
Theorem upload_sends_chunks :
  forall (data : list byte) (w : World) (s : Serial) (msg : text) (w1 : World),
    ser w = Some s ->
    start_round data w = (Ok (0, msg), w1) ->
    (forall j, (j < chunk_count (List.length data))%nat ->
               acked (chunk_round data j
                        (after_chunks data j (transfer_start msg w1)))) ->
    let n := List.length data in
    let chunks := map (chunk_at data) (seq 0 (chunk_count n)) in
    (exists sent w',
        upload_file (Some data) w = (Ok sent, w') /\
        written (trace w') =
          written (trace w1) ++ map (frame_of OTA_CMD_DATA) chunks ++
          [frame_of OTA_CMD_END []]) /\
    List.length chunks = chunk_count n /\
    List.concat chunks = data /\
    list_sum (map (@List.length byte) chunks) = n /\
    (forall j, (j + 1 < chunk_count n)%nat ->
               List.length (chunk_at data j) = CHUNK_SIZE) /\
    ((0 < n)%nat ->
     List.length (chunk_at data (chunk_count n - 1)) =
     if (n mod CHUNK_SIZE =? 0)%nat then CHUNK_SIZE else (n mod CHUNK_SIZE)%nat).
Proof.
  intros data w s msg w1 Hs Hstart Hack n chunks.
  split; [|exact (chunks_partition data)].
  subst chunks n.
  destruct (start_round_written _ _ _ _ _ Hs Hstart) as (p & s1 & _ & Hs1 & _).
  set (w2 := transfer_start msg w1) in *.
  destruct (transfer_start_world msg w1) as [Hs2 Hw2]. fold w2 in Hs2, Hw2.
  rewrite Hs1 in Hs2.
  destruct (after_chunks_written data w2 s1 (chunk_count (List.length data)) Hs2)
    as [[s3 Hs3] Hw3].
  destruct (end_round_written _ s3 Hs3) as (st & m & w4 & Hend & Hw4).
  rewrite upload_file_steps, Hstart. cbn [Z.eqb negb].
  fold w2.
  rewrite (transfer_loop_completes data w2 (List.length data) (chunk_count_le _) Hack).
  cbn [negb]. rewrite Hend.
  assert (Hw : written (trace w4) =
               written (trace w1) ++
               map (frame_of OTA_CMD_DATA)
                 (map (chunk_at data) (seq 0 (chunk_count (List.length data)))) ++
               [frame_of OTA_CMD_END []]).
  { rewrite Hw4, Hw3, Hw2, map_map, <- app_assoc. reflexivity. }
  destruct (negb (st =? 0)); do 2 eexists; (split; [reflexivity|]);
    cbn [trace]; rewrite written_app, Hw; cbn [written flat_map app];
    rewrite app_nil_r; reflexivity.
Qed.

Lemma data_frames_no_end data k :
  ~ In (frame_of OTA_CMD_END [])
       (map (fun j => frame_of OTA_CMD_DATA (chunk_at data j)) (seq 0 k)).
Proof.
  intros H. apply in_map_iff in H as (j & E & _).
  destruct (encode_frame_some OTA_CMD_END []) as (c & rest & Hc & _ & Hf);
    [unfold OTA_CMD_END; lia | cbn; lia|].
  destruct (encode_frame_some OTA_CMD_DATA (chunk_at data j))
    as (c' & rest' & Hc' & _ & Hf').
  { unfold OTA_CMD_DATA. lia. }
  { rewrite chunk_at_length. pose proof CHUNK_SIZE_val. lia. }
  rewrite Hf, Hf' in E. injection E as -> _.
  rewrite Hc in Hc'. discriminate Hc'.
Qed.

(** C7.  On an open port, after a START step acknowledged with status 0,
    let chunk [i] be the first whose acknowledgment has a status other
    than 0, the local timeout -1 included.  Then the upload returns false
    in the world that wait left, with only the failure line printed after
    it: the frames written after START are the DATA frames of chunks 0 to
    [i] and nothing else, and the END frame is not among them. *)
Theorem upload_aborts_on_refused_chunk :
  forall (data : list byte) (w : World) (s : Serial) (msg : text) (w1 : World)
         (i : nat),
    ser w = Some s ->
    start_round data w = (Ok (0, msg), w1) ->
    (i < chunk_count (List.length data))%nat ->
    (forall j, (j < i)%nat ->
               acked (chunk_round data j
                        (after_chunks data j (transfer_start msg w1)))) ->
    refused (chunk_round data i (after_chunks data i (transfer_start msg w1))) ->
    let failed := snd (chunk_round data i (after_chunks data i (transfer_start msg w1))) in
    let sent := map (fun j => frame_of OTA_CMD_DATA (chunk_at data j)) (seq 0 (S i)) in
    exists msg',
      upload_file (Some data) w =
        (Ok false,
         mkWorld (ser failed) (env failed)
           (trace failed ++ [Print (ChunkFailed i msg')])) /\
      written (trace (snd (upload_file (Some data) w))) = written (trace w1) ++ sent /\
      ~ In (frame_of OTA_CMD_END []) sent.
Proof.
  intros data w s msg w1 i Hs Hstart Hi Hack Href failed sent.
  destruct (start_round_written _ _ _ _ _ Hs Hstart) as (p & s1 & _ & Hs1 & _).
  set (w2 := transfer_start msg w1) in *.
  destruct (transfer_start_world msg w1) as [Hs2 Hw2]. fold w2 in Hs2, Hw2.
  rewrite Hs1 in Hs2.
  destruct (after_chunks_written data w2 s1 i Hs2) as [[s3 Hs3] Hw3].
  destruct (chunk_round_written data i _ s3 Hs3) as (st & m & w' & s' & E & _ & Hw').
  destruct (transfer_loop_aborts data w2 (List.length data) i
              (chunk_count_le _) Hi Hack Href) as [msg' Hloop].
  exists msg'. rewrite upload_file_steps, Hstart. cbn [Z.eqb negb].
  fold w2. rewrite Hloop. cbn [negb snd].
  split; [reflexivity|]. split; [|apply data_frames_no_end].
  unfold print, emit. cbn [snd trace]. rewrite written_app.
  cbn [written flat_map app]. rewrite app_nil_r.
  unfold failed. rewrite E in *. cbn [snd]. rewrite Hw', Hw3, Hw2.
  unfold sent. rewrite seq_S, map_app, <- app_assoc. reflexivity.
Qed.

(** A concrete run that meets the hypotheses of [upload_sends_chunks]. *)
Lemma upload_sends_chunks_witness :
  let data := repeat x07 4097 in
  let ok := [xaa; x55; x00; x02; x4f; x4b; xdb; x72] in
  let s := mkSerial false false [] in
  let w := mkWorld (Some s) (polls [ok; ok; ok; ok]) [] in
  let msg := Utf8Replace [x4f; x4b] in
  let w1 := snd (start_round data w) in
  let n := List.length data in
  let chunks := map (chunk_at data) (seq 0 (chunk_count n)) in
  (ser w = Some s /\
   start_round data w = (Ok (0, msg), w1) /\
   (forall j, (j < chunk_count (List.length data))%nat ->
              acked (chunk_round data j
                       (after_chunks data j (transfer_start msg w1))))) /\
  (exists sent w',
      upload_file (Some data) w = (Ok sent, w') /\
      written (trace w') =
        written (trace w1) ++ map (frame_of OTA_CMD_DATA) chunks ++
        [frame_of OTA_CMD_END []]) /\
  List.length chunks = chunk_count n /\
  List.concat chunks = data /\
  list_sum (map (@List.length byte) chunks) = n /\
  (forall j, (j + 1 < chunk_count n)%nat ->
             List.length (chunk_at data j) = CHUNK_SIZE) /\
  ((0 < n)%nat ->
   List.length (chunk_at data (chunk_count n - 1)) =
   if (n mod CHUNK_SIZE =? 0)%nat then CHUNK_SIZE else (n mod CHUNK_SIZE)%nat).
Proof.
  intros data ok s w msg w1.
  assert (H1 : ser w = Some s) by reflexivity.
  assert (H2 : start_round data w = (Ok (0, msg), w1)) by (vm_compute; reflexivity).
  assert (Hc : chunk_count (List.length data) = 2%nat) by (vm_compute; reflexivity).
  assert (H3 : forall j, (j < chunk_count (List.length data))%nat ->
                         acked (chunk_round data j
                                  (after_chunks data j (transfer_start msg w1)))).
  { intros j Hj. rewrite Hc in Hj.
    destruct j as [|[|j]]; [| |lia]; exists msg; vm_compute; reflexivity. }
  split; [split; [exact H1 | split; [exact H2 | exact H3]]|].
  exact (upload_sends_chunks data w s msg w1 H1 H2 H3).
Defined.

(** A concrete run that meets the hypotheses of [upload_aborts_on_refused_chunk]. *)
Lemma upload_aborts_on_refused_chunk_witness :
  let data := repeat x07 4097 in
  let ok := [xaa; x55; x00; x02; x4f; x4b; xdb; x72] in
  let s := mkSerial false false [] in
  let w := mkWorld (Some s) (polls [ok; ok]) [] in
  let msg := Utf8Replace [x4f; x4b] in
  let w1 := snd (start_round data w) in
  let failed := snd (chunk_round data 1 (after_chunks data 1 (transfer_start msg w1))) in
  let sent := map (fun j => frame_of OTA_CMD_DATA (chunk_at data j)) (seq 0 2) in
  (ser w = Some s /\
   start_round data w = (Ok (0, msg), w1) /\
   (1 < chunk_count (List.length data))%nat /\
   (forall j, (j < 1)%nat ->
              acked (chunk_round data j
                       (after_chunks data j (transfer_start msg w1)))) /\
   refused (chunk_round data 1 (after_chunks data 1 (transfer_start msg w1)))) /\
  exists msg',
    upload_file (Some data) w =
      (Ok false,
       mkWorld (ser failed) (env failed)
         (trace failed ++ [Print (ChunkFailed 1 msg')])) /\
    written (trace (snd (upload_file (Some data) w))) = written (trace w1) ++ sent /\
    ~ In (frame_of OTA_CMD_END []) sent.
Proof.
  intros data ok s w msg w1.
  assert (H1 : ser w = Some s) by reflexivity.
  assert (H2 : start_round data w = (Ok (0, msg), w1)) by (vm_compute; reflexivity).
  assert (Hc : chunk_count (List.length data) = 2%nat) by (vm_compute; reflexivity).
  assert (H3 : (1 < chunk_count (List.length data))%nat) by (rewrite Hc; lia).
  assert (H4 : forall j, (j < 1)%nat ->
                         acked (chunk_round data j
                                  (after_chunks data j (transfer_start msg w1)))).
  { intros j Hj. destruct j as [|j]; [|lia]. exists msg. vm_compute. reflexivity. }
  assert (H5 : refused (chunk_round data 1
                          (after_chunks data 1 (transfer_start msg w1)))).
  { exists (-1), (Lit "Timeout"). split; [vm_compute; reflexivity | lia]. }
  split; [repeat split; assumption|].
  exact (upload_aborts_on_refused_chunk data w s msg w1 1 H1 H2 H3 H4 H5).
Defined.

(** * Further properties *)

(** ** What a wait does to its surroundings *)

Lemma wait_events_snoc verbose added e :
  Forall (wait_event verbose) added -> wait_event verbose e ->
  Forall (wait_event verbose) (added ++ [e]).
Proof. intros Ha He. apply Forall_app. split; [exact Ha | constructor; [exact He | constructor]]. Qed.

Lemma wait_events_written verbose added :
  Forall (wait_event verbose) added -> written added = [].
Proof.
  induction 1 as [|e l He _ IH]; [reflexivity|].
  destruct e as [| | | | | |line]; try contradiction; exact IH.
Qed.

Lemma wait_events_progress verbose added :
  Forall (wait_event verbose) added -> progress_lines added = [].
Proof.
  induction 1 as [|e l He _ IH]; [reflexivity|].
  destruct e as [| | | | | |line]; try contradiction; [exact IH|].
  destruct line; try contradiction; exact IH.
Qed.

(** The loop adds only wait events, keeps the control lines and uses up
    a front part of the ticks. *)
Lemma ack_loop_events verbose ticks :
  forall s tr buffer ended w',
    ack_loop verbose ticks s tr buffer = (ended, w') ->
    exists s' added used,
      ser w' = Some s' /\ dtr s' = dtr s /\ rts s' = rts s /\
      (forall status msg, ended = Found status msg -> rx s' = []) /\
      trace w' = tr ++ added /\ Forall (wait_event verbose) added /\
      ticks = used ++ env w'.
Proof.
  induction ticks as [|t ticks' IH]; intros s tr buffer ended w' E.
  - injection E as <- <-. exists s, [], []. cbn [ser trace env app].
    rewrite app_nil_r. repeat split; try constructor. discriminate.
  - rewrite ack_loop_cons in E. cbv zeta in E.
    destruct (negb (in_time t)).
    { injection E as <- <-. eexists _, [], [t]. cbn [ser trace env app dtr rts].
      rewrite app_nil_r. repeat split; try constructor. discriminate. }
    assert (Hrec : forall tr1 pre b,
               tr1 = tr ++ pre -> Forall (wait_event verbose) pre ->
               ack_loop verbose ticks' (mkSerial (dtr s) (rts s) []) tr1 b = (ended, w') ->
               exists s' added used,
                 ser w' = Some s' /\ dtr s' = dtr s /\ rts s' = rts s /\
                 (forall status msg, ended = Found status msg -> rx s' = []) /\
                 trace w' = tr ++ added /\ Forall (wait_event verbose) added /\
                 t :: ticks' = used ++ env w').
    { intros tr1 pre b -> Hpre E'.
      destruct (IH _ _ _ _ _ E') as (s' & added & used & Hs & Hd & Hr & Hx & Ht & Ha & Hu).
      exists s', (pre ++ added), (t :: used). cbn [dtr rts] in Hd, Hr.
      repeat split; try assumption.
      - rewrite Ht. symmetry. apply app_assoc.
      - apply Forall_app. auto.
      - cbn [app]. f_equal. exact Hu. }
    destruct (_ =? -1).
    { refine (Hrec _ [Sleep 1] _ eq_refl _ E). repeat constructor. }
    match type of E with
    | context [if ?c then tr ++ [?e] else tr] =>
      assert (Hg : exists pre, (if c then tr ++ [e] else tr) = tr ++ pre /\
                               Forall (wait_event verbose) pre);
        [destruct c eqn:Hc|
         destruct Hg as (pre & Hg & Hpre);
         set (tr1 := if c then tr ++ [e] else tr) in *]
    end.
    { apply andb_true_iff in Hc as [_ Hv]. eexists. split; [reflexivity|].
      constructor; [exact Hv | constructor]. }
    { exists []. split; [symmetry; apply app_nil_r | constructor]. }
    destruct (4 <=? _)%nat.
    2:{ refine (Hrec _ (pre ++ [Sleep 1]) _ _ _ E);
          [rewrite Hg; symmetry; apply app_assoc|].
        apply wait_events_snoc; [exact Hpre | reflexivity]. }
    destruct (_ <=? _)%nat.
    2:{ refine (Hrec _ (pre ++ [Sleep 1]) _ _ _ E);
          [rewrite Hg; symmetry; apply app_assoc|].
        apply wait_events_snoc; [exact Hpre | reflexivity]. }
    destruct (_ =? _).
    + injection E as <- <-. eexists _, pre, [t]. cbn [ser trace env app dtr rts rx].
      repeat split; assumption.
    + refine (Hrec _ (pre ++ [_]) _ _ _ E);
        [rewrite Hg; symmetry; apply app_assoc|].
      apply wait_events_snoc; [exact Hpre | exact I].
Qed.

Lemma receive_ack_events timeout verbose w s :
  ser w = Some s ->
  exists status msg w' s' added used,
    receive_ack timeout verbose w = (Ok (status, msg), w') /\
    ser w' = Some s' /\ dtr s' = dtr s /\ rts s' = rts s /\
    (0 <= status -> rx s' = []) /\
    trace w' = trace w ++ added /\ Forall (wait_event verbose) added /\
    env w = used ++ env w'.
Proof.
  intros Hs. unfold receive_ack. rewrite Hs.
  destruct (ack_loop verbose (env w) s (trace w) []) as [[status msg|buffer] w1] eqn:E;
    destruct (ack_loop_events _ _ _ _ _ _ _ E)
      as (s' & added & used & Hs' & Hd & Hr & Hx & Ht & Ha & Hu);
    cbn [ack_outcome].
  - exists status, msg, w1, s', added, used. repeat split; try assumption.
    intros _. exact (Hx _ _ eq_refl).
  - destruct (negb (is_empty buffer) && verbose && (500 <? timeout)) eqn:Hc.
    + apply andb_true_iff in Hc as [Hc _]. apply andb_true_iff in Hc as [_ Hv].
      exists (-1), (Lit "Timeout"),
        (mkWorld (ser w1) (env w1)
           (trace w1 ++ [Print (DeviceOutput (Utf8Ignore buffer))])),
        s', (added ++ [Print (DeviceOutput (Utf8Ignore buffer))]), used.
      cbn [ser env trace]. repeat split; try assumption; try lia.
      * rewrite Ht. symmetry. apply app_assoc.
      * apply wait_events_snoc; assumption.
    + exists (-1), (Lit "Timeout"), w1, s', added, used.
      repeat split; try assumption; lia.
Qed.

(** X1.  On an open port, [receive_ack] always returns a pair and leaves
    the port open with both control lines as they were.  All it adds to
    the trace are 1 ms pauses and diagnostic lines, of which a quiet wait
    prints CRC errors only: it never writes to the port, never sets a
    control line, never clears the input buffer.  It uses up a front part
    of the ticks, and when it returns a status of zero or more, nothing
    read so far is left in the driver. *)
Theorem receive_ack_effects :
  forall (timeout : Z) (verbose : bool) (w : World) (s : Serial),
    ser w = Some s ->
    exists status msg w' s' added used,
      receive_ack timeout verbose w = (Ok (status, msg), w') /\
      ser w' = Some s' /\ dtr s' = dtr s /\ rts s' = rts s /\
      (0 <= status -> rx s' = []) /\
      trace w' = trace w ++ added /\ Forall (wait_event verbose) added /\
      written (trace w') = written (trace w) /\
      env w = used ++ env w'.
Proof.
  intros timeout verbose w s Hs.
  destruct (receive_ack_events timeout verbose w s Hs)
    as (status & msg & w' & s' & added & used & E & Hs' & Hd & Hr & Hx & Ht & Ha & Hu).
  exists status, msg, w', s', added, used. repeat split; try assumption.
  rewrite Ht, written_app, (wait_events_written _ _ Ha). apply app_nil_r.
Qed.

(** A run that meets the hypothesis of [receive_ack_effects]. *)
Lemma receive_ack_effects_witness :
  let s := mkSerial true false [x01] in
  let w := mkWorld (Some s) [mkTick true [xaa]; mkTick false [x02]] [] in
  ser w = Some s /\
  exists status msg w' s' added used,
    receive_ack 1000 true w = (Ok (status, msg), w') /\
    ser w' = Some s' /\ dtr s' = dtr s /\ rts s' = rts s /\
    (0 <= status -> rx s' = []) /\
    trace w' = trace w ++ added /\ Forall (wait_event true) added /\
    written (trace w') = written (trace w) /\
    env w = used ++ env w'.
Proof.
  cbv zeta. split; [reflexivity|].
  exact (receive_ack_effects 1000 true
           (mkWorld (Some (mkSerial true false [x01]))
              [mkTick true [xaa]; mkTick false [x02]] [])
           (mkSerial true false [x01]) eq_refl).
Defined.

(** ** Bytes behind a frame, and frames cut short *)

Lemma ack_loop_silent verbose ticks :
  forall s tr,
    rx s = [] ->
    Forall (fun t => arrived t = []) ticks ->
    exists w', ack_loop verbose ticks s tr [] = (Expired [], w').
Proof.
  induction ticks as [|t ticks' IH]; intros s tr Hrx Hq.
  - eexists. reflexivity.
  - inversion Hq as [|? ? Ht Hq']; subst.
    rewrite ack_loop_cons. cbv zeta. rewrite Hrx, Ht. cbn [app].
    destruct (negb (in_time t)); [eexists; reflexivity|].
    rewrite find_none_nil. change (-1 =? -1) with true. cbv iota.
    apply IH; [reflexivity | exact Hq'].
Qed.

(** X2.  Let one read deliver marker-free garbage, a valid acknowledgment
    frame and then any bytes [R], to a wait that starts with nothing in
    the driver.  The wait returns the frame; the bytes [R] were read with
    it and are dropped with the wait's buffer.  If nothing more arrives,
    the next wait times out, even when [R] holds a complete valid frame. *)
Theorem receive_ack_drops_bytes_behind_frame :
  forall (timeout1 timeout2 : Z) (verbose1 verbose2 : bool) (w : World)
         (s : Serial) (status : byte) (msg F G R : list byte) (rest : list tick),
    ser w = Some s ->
    rx s = [] ->
    env w = mkTick true (G ++ F ++ R) :: rest ->
    ack_frame status msg = Some F ->
    bytes_find G OTA_ACK_HEADER_SEQ = -1 ->
    Forall (fun t => arrived t = []) rest ->
    exists w1,
      receive_ack timeout1 verbose1 w =
        (Ok (byte_val status, Utf8Replace msg), w1) /\
      ser w1 = Some (mkSerial (dtr s) (rts s) []) /\
      env w1 = rest /\
      fst (receive_ack timeout2 verbose2 w1) = Ok (-1, Lit "Timeout").
Proof.
  intros timeout1 timeout2 verbose1 verbose2 w s status msg F G R rest
         Hs Hrx He HF HG Hq.
  destruct (ack_frame_shape _ _ _ HF) as (lb & c1 & c0 & -> & Hlb & Hcrc).
  assert (Hstream : ([] ++ rx s ++ arrived (mkTick true
                       (G ++ (xaa :: x55 :: status :: lb :: msg ++ [c1; c0]) ++ R))) ++ [] =
                    G ++ (xaa :: x55 :: status :: lb :: msg ++ [c1; c0]) ++ R)
    by (rewrite Hrx; cbn [arrived app]; apply app_nil_r).
  assert (Hfull : (List.length G +
                   List.length (xaa :: x55 :: status :: lb :: msg ++ [c1; c0]) <=
                   List.length ([] ++ rx s ++ arrived (mkTick true
                       (G ++ (xaa :: x55 :: status :: lb :: msg ++ [c1; c0]) ++ R))))%nat).
  { pose proof (f_equal (@List.length byte) Hstream) as HL.
    rewrite !length_app in HL. rewrite !length_app.
    cbn [List.length] in *. lia. }
  pose proof (step_frame_complete verbose1
                (mkTick true (G ++ (xaa :: x55 :: status :: lb :: msg ++ [c1; c0]) ++ R))
                rest s (trace w) [] G status lb msg
                c1 c0 [] R eq_refl HG Hlb Hstream Hfull) as Hstep.
  cbv zeta in Hstep. rewrite Hcrc, Z.eqb_refl in Hstep.
  eexists. split.
  - unfold receive_ack. rewrite Hs, He, Hstep. reflexivity.
  - cbn [ser env]. split; [reflexivity|]. split; [reflexivity|].
    unfold receive_ack. cbn [ser env trace].
    destruct (ack_loop_silent verbose2 rest (mkSerial (dtr s) (rts s) [])
                (trace w ++ garbage_note verbose1 G) eq_refl Hq) as [w2 ->].
    reflexivity.
Qed.

(** A run that meets the hypotheses of
    [receive_ack_drops_bytes_behind_frame]: two valid frames in one read. *)
Lemma receive_ack_drops_bytes_behind_frame_witness :
  let s := mkSerial false false [] in
  let F := [xaa; x55; x00; x02; x4f; x4b; xdb; x72] in
  let rest := [mkTick true []; mkTick false []] in
  let w := mkWorld (Some s) (mkTick true ([x0a] ++ F ++ F) :: rest) [] in
  (ser w = Some s /\ rx s = [] /\
   env w = mkTick true ([x0a] ++ F ++ F) :: rest /\
   ack_frame x00 [x4f; x4b] = Some F /\
   bytes_find [x0a] OTA_ACK_HEADER_SEQ = -1 /\
   Forall (fun t => arrived t = []) rest) /\
  exists w1,
    receive_ack 1000 false w = (Ok (byte_val x00, Utf8Replace [x4f; x4b]), w1) /\
    ser w1 = Some (mkSerial (dtr s) (rts s) []) /\
    env w1 = rest /\
    fst (receive_ack 1000 false w1) = Ok (-1, Lit "Timeout").
Proof.
  cbv zeta.
  assert (HF : ack_frame x00 [x4f; x4b] =
               Some [xaa; x55; x00; x02; x4f; x4b; xdb; x72])
    by (vm_compute; reflexivity).
  assert (Hq : Forall (fun t => arrived t = []) [mkTick true []; mkTick false []])
    by (repeat constructor).
  split; [repeat split; try reflexivity; assumption|].
  exact (receive_ack_drops_bytes_behind_frame 1000 1000 false false
           (mkWorld (Some (mkSerial false false []))
              (mkTick true ([x0a] ++ [xaa; x55; x00; x02; x4f; x4b; xdb; x72] ++
                            [xaa; x55; x00; x02; x4f; x4b; xdb; x72]) ::
               [mkTick true []; mkTick false []]) [])
           (mkSerial false false []) x00 [x4f; x4b]
           [xaa; x55; x00; x02; x4f; x4b; xdb; x72] [x0a]
           [xaa; x55; x00; x02; x4f; x4b; xdb; x72]
           [mkTick true []; mkTick false []]
           eq_refl eq_refl eq_refl HF eq_refl Hq).
Defined.

Section CutShort.
Variables (verbose : bool) (rest : list tick).
Variables (st lb : byte) (msg : list byte) (c1 c0 : byte).
Hypothesis Hlb : byte_nat lb = List.length msg.
Hypothesis Hlate : deadline_next rest = true.

Let X := xaa :: x55 :: st :: lb :: msg ++ [c1; c0].

(** While part of a frame-shaped string is missing, the loop only waits. *)
Lemma ack_loop_cut_short :
  forall reads G s tr buffer missing,
    bytes_find G OTA_ACK_HEADER_SEQ = -1 ->
    (buffer ++ rx s ++ List.concat reads) ++ missing = G ++ X ->
    missing <> [] ->
    exists left_over w',
      ack_loop verbose (polls reads ++ rest) s tr buffer = (Expired left_over, w').
Proof.
  induction reads as [|r reads IH]; intros G s tr buffer missing HG Hs Hm.
  - cbn [polls map app]. destruct rest as [|t rest'].
    + do 2 eexists. reflexivity.
    + cbn [deadline_next] in Hlate. rewrite ack_loop_cons. cbv zeta.
      rewrite Hlate. do 2 eexists. reflexivity.
  - rewrite polls_cons.
    assert (Hstream : (buffer ++ rx s ++ arrived (mkTick true r)) ++
                      (List.concat reads ++ missing) = G ++ X ++ [])
      by (cbn [arrived]; rewrite app_nil_r, <- Hs; cbn [List.concat];
          rewrite <- !app_assoc; reflexivity).
    set (buffer' := buffer ++ rx s ++ arrived (mkTick true r)) in *.
    assert (Hpart : (List.length buffer' < List.length G + List.length X)%nat).
    { apply (f_equal (@List.length byte)) in Hstream.
      rewrite app_nil_r, !length_app in Hstream.
      destruct missing; [congruence|]. cbn [List.length] in Hstream. lia. }
    destruct (le_lt_dec (List.length G + 2) (List.length buffer')) as [Hmark|Hnone].
    + destruct (step_frame_partial verbose (mkTick true r) (polls reads ++ rest)
                  s tr buffer G st lb msg c1 c0 (List.concat reads ++ missing) []
                  eq_refl HG Hlb Hstream Hmark Hpart) as [Hstep Hrest].
      rewrite Hstep.
      apply (IH [] (mkSerial (dtr s) (rts s) []) _ _ missing find_none_nil);
        [|exact Hm].
      cbn [rx app]. rewrite <- app_assoc, Hrest. apply app_nil_r.
    + rewrite (step_no_marker verbose (mkTick true r) (polls reads ++ rest)
                 s tr buffer G st lb msg c1 c0 (List.concat reads ++ missing) []
                 eq_refl HG Hlb Hstream Hnone).
      apply (IH G (mkSerial (dtr s) (rts s) []) _ _ missing HG); [|exact Hm].
      cbn [rx app]. fold buffer'. rewrite <- app_assoc, Hstream, app_nil_r.
      reflexivity.
Qed.
End CutShort.

(** X3.  If all the bytes a wait reads before its deadline are marker-free
    garbage followed by a frame-shaped string (marker, status, length [L],
    [L] message bytes, two CRC bytes) of which at least one byte is
    missing, the wait returns (-1, "Timeout"): a frame cut short is never
    returned, whatever its bytes are. *)
Theorem receive_ack_truncated_frame :
  forall (timeout : Z) (verbose : bool) (w : World) (s : Serial)
         (reads : list (list byte)) (rest : list tick)
         (st lb c1 c0 : byte) (msg G missing : list byte),
    ser w = Some s ->
    env w = polls reads ++ rest ->
    deadline_next rest = true ->
    byte_nat lb = List.length msg ->
    bytes_find G OTA_ACK_HEADER_SEQ = -1 ->
    (rx s ++ List.concat reads) ++ missing =
      G ++ xaa :: x55 :: st :: lb :: msg ++ [c1; c0] ->
    missing <> [] ->
    fst (receive_ack timeout verbose w) = Ok (-1, Lit "Timeout").
Proof.
  intros timeout verbose w s reads rest st lb c1 c0 msg G missing
         Hs He Hlate Hlb HG Hst Hm.
  destruct (ack_loop_cut_short verbose rest st lb msg c1 c0 Hlb Hlate
              reads G s (trace w) [] missing HG Hst Hm) as (left_over & w' & E).
  unfold receive_ack. rewrite Hs, He, E. cbn [ack_outcome].
  destruct (negb (is_empty left_over) && verbose && (500 <? timeout)); reflexivity.
Qed.

(** A run that meets the hypotheses of [receive_ack_truncated_frame]: the
    last CRC byte of a valid frame never arrives. *)
Lemma receive_ack_truncated_frame_witness :
  let s := mkSerial false false [x0a] in
  let reads := [[xaa]; [x55; x00; x02; x4f]; [x4b; xdb]] in
  let w := mkWorld (Some s) (polls reads ++ [mkTick false [x72]]) [] in
  (ser w = Some s /\ env w = polls reads ++ [mkTick false [x72]] /\
   deadline_next [mkTick false [x72]] = true /\
   byte_nat x02 = List.length [x4f; x4b] /\
   bytes_find [x0a] OTA_ACK_HEADER_SEQ = -1 /\
   (rx s ++ List.concat reads) ++ [x72] =
     [x0a] ++ xaa :: x55 :: x00 :: x02 :: [x4f; x4b] ++ [xdb; x72] /\
   [x72] <> []) /\
  fst (receive_ack 1000 true w) = Ok (-1, Lit "Timeout").
Proof.
  cbv zeta.
  assert (Hm : [x72] <> []) by discriminate.
  split; [repeat split; try reflexivity; assumption|].
  exact (receive_ack_truncated_frame 1000 true
           (mkWorld (Some (mkSerial false false [x0a]))
              (polls [[xaa]; [x55; x00; x02; x4f]; [x4b; xdb]] ++
               [mkTick false [x72]]) [])
           (mkSerial false false [x0a])
           [[xaa]; [x55; x00; x02; x4f]; [x4b; xdb]] [mkTick false [x72]]
           x00 x02 xdb x72 [x4f; x4b] [x0a] [x72]
           eq_refl eq_refl eq_refl eq_refl eq_refl eq_refl Hm).
Defined.

(** X4.  A wait that skipped a frame for its CRC still finds a valid frame
    behind it.  Let a frame with one CRC bit flipped be completed by the
    last of some reads, behind marker-free bytes [G]; let the guard hold
    for at least one more read, and let what follows the two dropped
    marker bytes, with the later reads, be marker-free bytes [G2] and then
    a valid frame.  Then the wait returns that frame, having printed the
    CRC error between the two garbage lines, if any. *)
Theorem receive_ack_recovers_after_bad_crc :
  forall (timeout : Z) (verbose : bool) (w : World) (s : Serial)
         (reads : list (list byte)) (last : list byte)
         (more : list (list byte)) (rest : list tick)
         (st1 : byte) (msg1 F1 G R1 : list byte) (k : nat)
         (st2 : byte) (msg2 F2 G2 R2 : list byte),
    ser w = Some s ->
    env w = polls (reads ++ [last]) ++ polls more ++ rest ->
    more <> [] ->
    ack_frame st1 msg1 = Some F1 ->
    (k < 16)%nat ->
    bytes_find G OTA_ACK_HEADER_SEQ = -1 ->
    rx s ++ List.concat (reads ++ [last]) = G ++ flip_crc_bit k F1 ++ R1 ->
    (List.length (rx s ++ List.concat reads) < List.length G + List.length F1)%nat ->
    ack_frame st2 msg2 = Some F2 ->
    bytes_find G2 OTA_ACK_HEADER_SEQ = -1 ->
    skipn 2 (flip_crc_bit k F1 ++ R1) ++ List.concat more = G2 ++ F2 ++ R2 ->
    exists w' crc_recv crc_calc,
      receive_ack timeout verbose w =
        (Ok (byte_val st2, Utf8Replace msg2), w') /\
      crc_recv <> crc_calc /\
      printed (trace w') =
        printed (trace w) ++ printed (garbage_note verbose G) ++
        [CrcError crc_recv crc_calc] ++ printed (garbage_note verbose G2).
Proof.
  intros timeout verbose w s reads last more rest st1 msg1 F1 G R1 k
         st2 msg2 F2 G2 R2 Hs He Hmore HF1 Hk HG Hst Hpart HF2 HG2 Hst2.
  destruct (flip_crc_bit_shape _ _ _ _ HF1 Hk)
    as (lb & d1 & d0 & Hshape & Hlb & Hcrc & Hlen).
  rewrite Hshape in *.
  destruct (ack_loop_skips_frame verbose (polls more ++ rest) st1 lb msg1 d1 d0 R1
              Hlb Hcrc reads last G s (trace w) [] HG Hst) as (tr' & Hw & Hp).
  { cbn [app]. rewrite Hlen. exact Hpart. }
  destruct (ack_frame_shape _ _ _ HF2) as (lb2 & c1 & c0 & -> & Hlb2 & Hcrc2).
  destruct (ack_loop_finds_frame verbose rest st2 lb2 msg2 c1 c0 R2 Hlb2 Hcrc2
              more G2 (mkSerial (dtr s) (rts s) []) tr'
              (skipn 2 ((xaa :: x55 :: st1 :: lb :: msg1 ++ [d1; d0]) ++ R1))
              HG2 Hmore Hst2) as (w' & Hw' & Hp').
  exists w', (unpack_H [d1; d0]), (crc16_xmodem (xaa :: x55 :: st1 :: lb :: msg1)).
  split; [|split; [exact Hcrc|]].
  - unfold receive_ack. rewrite Hs, He, Hw, Hw'. reflexivity.
  - rewrite Hp', Hp, <- !app_assoc. reflexivity.
Qed.

(** A run that meets the hypotheses of
    [receive_ack_recovers_after_bad_crc]. *)
Lemma receive_ack_recovers_after_bad_crc_witness :
  let s := mkSerial false false [] in
  let F := [xaa; x55; x00; x02; x4f; x4b; xdb; x72] in
  let last := [x01; xaa; x55; x00; x02; x4f; x4b; xdb; x73; x0a] in
  let w := mkWorld (Some s) (polls ([] ++ [last]) ++ polls [F] ++ []) [] in
  (ser w = Some s /\
   [F] <> [] /\
   ack_frame x00 [x4f; x4b] = Some F /\
   (0 < 16)%nat /\
   bytes_find [x01] OTA_ACK_HEADER_SEQ = -1 /\
   rx s ++ List.concat ([] ++ [last]) = [x01] ++ flip_crc_bit 0 F ++ [x0a] /\
   (List.length (rx s ++ List.concat []) < List.length [x01] + List.length F)%nat /\
   bytes_find [x00; x02; x4f; x4b; xdb; x73; x0a] OTA_ACK_HEADER_SEQ = -1 /\
   skipn 2 (flip_crc_bit 0 F ++ [x0a]) ++ List.concat [F] =
     [x00; x02; x4f; x4b; xdb; x73; x0a] ++ F ++ []) /\
  exists w' crc_recv crc_calc,
    receive_ack 1000 true w = (Ok (byte_val x00, Utf8Replace [x4f; x4b]), w') /\
    crc_recv <> crc_calc /\
    printed (trace w') =
      printed (trace w) ++ printed (garbage_note true [x01]) ++
      [CrcError crc_recv crc_calc] ++
      printed (garbage_note true [x00; x02; x4f; x4b; xdb; x73; x0a]).
Proof.
  cbv zeta.
  assert (Hm : [[xaa; x55; x00; x02; x4f; x4b; xdb; x72]] <> []) by discriminate.
  assert (HF : ack_frame x00 [x4f; x4b] =
               Some [xaa; x55; x00; x02; x4f; x4b; xdb; x72])
    by (vm_compute; reflexivity).
  assert (Hk : (0 < 16)%nat) by lia.
  assert (Hst : rx (mkSerial false false []) ++
                List.concat ([] ++ [[x01; xaa; x55; x00; x02; x4f; x4b; xdb; x73; x0a]]) =
                [x01] ++ flip_crc_bit 0 [xaa; x55; x00; x02; x4f; x4b; xdb; x72] ++ [x0a])
    by (vm_compute; reflexivity).
  assert (Hpart : (List.length (rx (mkSerial false false []) ++ List.concat []) <
                   List.length [x01] +
                   List.length [xaa; x55; x00; x02; x4f; x4b; xdb; x72])%nat)
    by (cbn; lia).
  assert (Hst2 : skipn 2 (flip_crc_bit 0 [xaa; x55; x00; x02; x4f; x4b; xdb; x72] ++ [x0a]) ++
                 List.concat [[xaa; x55; x00; x02; x4f; x4b; xdb; x72]] =
                 [x00; x02; x4f; x4b; xdb; x73; x0a] ++
                 [xaa; x55; x00; x02; x4f; x4b; xdb; x72] ++ [])
    by (vm_compute; reflexivity).
  split; [repeat split; try reflexivity; assumption|].
  exact (receive_ack_recovers_after_bad_crc 1000 true
           (mkWorld (Some (mkSerial false false []))
              (polls ([] ++ [[x01; xaa; x55; x00; x02; x4f; x4b; xdb; x73; x0a]]) ++
               polls [[xaa; x55; x00; x02; x4f; x4b; xdb; x72]] ++ []) [])
           (mkSerial false false []) []
           [x01; xaa; x55; x00; x02; x4f; x4b; xdb; x73; x0a]
           [[xaa; x55; x00; x02; x4f; x4b; xdb; x72]] []
           x00 [x4f; x4b] [xaa; x55; x00; x02; x4f; x4b; xdb; x72] [x01] [x0a] 0
           x00 [x4f; x4b] [xaa; x55; x00; x02; x4f; x4b; xdb; x72]
           [x00; x02; x4f; x4b; xdb; x73; x0a] []
           eq_refl eq_refl Hm HF Hk eq_refl Hst Hpart HF eq_refl Hst2).
Defined.

(** ** The CRC of a frame with its own CRC *)

Lemma xmodem_shift_byte (b : byte) :
  Nat.iter 8 xmodem_round (byte_val b) = byte_val b * 256.
Proof. destruct b; vm_compute; reflexivity. Qed.

Lemma low_byte_bits l n : 0 <= l < 256 -> 8 <= n -> Z.testbit l n = false.
Proof.
  intros Hl Hn. destruct (Z.eq_dec l 0) as [->|Hne]; [apply Z.bits_0|].
  apply Z.bits_above_log2; [lia|].
  assert (Z.log2 l < 8) by (apply Z.log2_lt_pow2; lia). lia.
Qed.

Lemma lxor_high_byte h l :
  0 <= h < 256 -> 0 <= l < 256 -> Z.lxor (h * 256 + l) (Z.shiftl h 8) = l.
Proof.
  intros Hh Hl. rewrite Z.shiftl_mul_pow2 by lia. change (2 ^ 8) with 256.
  assert (Hland : Z.land (h * 256) l = 0).
  { apply Z.bits_inj'. intros n Hn. rewrite Z.land_spec, Z.bits_0.
    destruct (Z_lt_dec n 8).
    - change 256 with (2 ^ 8). rewrite Z.mul_pow2_bits_low by lia. reflexivity.
    - rewrite (low_byte_bits l n) by lia. apply andb_false_r. }
  rewrite (Z.add_nocarry_lxor _ _ Hland).
  rewrite (Z.lxor_comm (h * 256) l), Z.lxor_assoc, Z.lxor_nilpotent.
  apply Z.lxor_0_r.
Qed.

(** Running the CRC on over its own two bytes, high byte first, gives 0. *)
Lemma crc_append_own data c :
  pack_H (crc16_xmodem data) = Some c -> crc16_xmodem (data ++ c) = 0.
Proof.
  intros Hc. destruct (pack_H_inv _ _ Hc) as (hi & lo & -> & Hv & _).
  rewrite crc16_xmodem_reference in Hv. rewrite crc16_xmodem_reference.
  unfold xmodem_reference in *. rewrite fold_left_app. cbn [fold_left].
  rewrite <- Hv. unfold xmodem_byte at 2.
  rewrite lxor_high_byte by apply byte_val_range.
  rewrite xmodem_shift_byte. unfold xmodem_byte.
  rewrite Z.shiftl_mul_pow2 by lia. change (2 ^ 8) with 256.
  rewrite Z.lxor_nilpotent. reflexivity.
Qed.

Lemma encode_frame_crc_residue cmd payload f :
  encode_frame cmd payload = Some f -> crc16_xmodem f = 0.
Proof.
  unfold encode_frame.
  destruct (pack_B cmd) as [c|]; [|discriminate].
  destruct (pack_H (Z.of_nat (List.length payload))) as [l|]; [|discriminate].
  cbv zeta.
  destruct (pack_H (crc16_xmodem ([xab; xcd] ++ c ++ l ++ repeat x00 9 ++ payload)))
    as [crc|] eqn:Hc; [|discriminate].
  intros H. injection H as <-. exact (crc_append_own _ _ Hc).
Qed.

(** X5.  Every frame [send_frame] writes has CRC residue 0: the CRC-16 of
    the whole frame, trailing CRC bytes included, is 0.  So the receiver
    may check a frame by running the same routine over all of it. *)
Theorem send_frame_crc_residue :
  forall (w : World) (s : Serial) (cmd : Z) (payload : list byte),
    ser w = Some s ->
    fst (send_frame cmd payload w) = Ok tt ->
    exists f,
      trace (snd (send_frame cmd payload w)) = trace w ++ [Write f; Flush] /\
      crc16_xmodem f = 0.
Proof.
  intros w s cmd payload Hs. rewrite (send_frame_encode cmd payload w s Hs).
  destruct (encode_frame cmd payload) as [f|] eqn:E; [|discriminate].
  intros _. exists f. split; [reflexivity|].
  exact (encode_frame_crc_residue _ _ _ E).
Qed.

(** A run that meets the hypotheses of [send_frame_crc_residue]. *)
Lemma send_frame_crc_residue_witness :
  let s := mkSerial false false [] in
  let w := mkWorld (Some s) [] [] in
  (ser w = Some s /\
   fst (send_frame OTA_CMD_DATA [x61; x62; x63] w) = Ok tt) /\
  exists f,
    trace (snd (send_frame OTA_CMD_DATA [x61; x62; x63] w)) =
      trace w ++ [Write f; Flush] /\
    crc16_xmodem f = 0.
Proof.
  cbv zeta.
  assert (H : fst (send_frame OTA_CMD_DATA [x61; x62; x63]
                     (mkWorld (Some (mkSerial false false [])) [] [])) = Ok tt)
    by (vm_compute; reflexivity).
  split; [split; [reflexivity | exact H]|].
  exact (send_frame_crc_residue (mkWorld (Some (mkSerial false false [])) [] [])
           (mkSerial false false []) OTA_CMD_DATA [x61; x62; x63] eq_refl H).
Defined.

(** ** The handshake, whatever the device does *)

Lemma verify_attempt_no_port w :
  ser w = None ->
  verify_attempt w = (Ok (-1, Lit "Serial not connected"), w).
Proof.
  intros Hs. unfold verify_attempt. rewrite bind_split.
  unfold send_frame. rewrite Hs. cbv beta iota.
  unfold receive_ack. rewrite Hs. reflexivity.
Qed.

(** X6.  Called with no port ([self.ser] is [None], as before [connect] or
    after it failed), sync writes nothing and reads nothing: each of its
    three attempts fails at once, is reported as a timeout and is followed
    by the 500 ms pause, and sync returns false. *)
Theorem sync_without_port :
  forall w : World,
    ser w = None ->
    sync w =
      (Ok false,
       mkWorld None (env w)
         (trace w ++
          [Print SyncStart;
           Print (SyncAttemptTimeout 1); Sleep 500;
           Print (SyncAttemptTimeout 2); Sleep 500;
           Print (SyncAttemptTimeout 3); Sleep 500])).
Proof.
  intros w Hs. rewrite sync_start.
  set (w0 := snd (print SyncStart w)).
  assert (H0 : ser w0 = None) by exact Hs.
  rewrite sync_attempts_cons, (verify_attempt_no_port w0 H0).
  change (-1 =? 0) with false. change (0 <? -1) with false. cbv iota.
  set (w1 := sync_pause (0 + 1) w0).
  assert (H1 : ser w1 = None) by exact Hs.
  rewrite sync_attempts_cons, (verify_attempt_no_port w1 H1).
  change (-1 =? 0) with false. change (0 <? -1) with false. cbv iota.
  set (w2 := sync_pause (1 + 1) w1).
  assert (H2 : ser w2 = None) by exact Hs.
  rewrite sync_attempts_cons, (verify_attempt_no_port w2 H2).
  change (-1 =? 0) with false. change (0 <? -1) with false. cbv iota.
  cbn [sync_attempts]. unfold ret.
  unfold w2, w1, w0, sync_pause, bind, print, sleep, emit.
  cbn [snd fst ser env trace Nat.add]. rewrite Hs, <- !app_assoc. reflexivity.
Qed.

(** A world that meets the hypothesis of [sync_without_port]. *)
Lemma sync_without_port_witness :
  let w := mkWorld None [mkTick true [xaa]] [] in
  ser w = None /\
  sync w =
    (Ok false,
     mkWorld None (env w)
       (trace w ++
        [Print SyncStart;
         Print (SyncAttemptTimeout 1); Sleep 500;
         Print (SyncAttemptTimeout 2); Sleep 500;
         Print (SyncAttemptTimeout 3); Sleep 500])).
Proof.
  cbv zeta. split; [reflexivity|].
  exact (sync_without_port (mkWorld None [mkTick true [xaa]] []) eq_refl).
Defined.

Lemma sync_attempts_bounded f : forall attempts w s,
  ser w = Some s ->
  encode_frame OTA_CMD_VERIFY [] = Some f ->
  exists found w' k,
    sync_attempts attempts w = (Ok found, w') /\
    (k <= List.length attempts)%nat /\
    written (trace w') = written (trace w) ++ repeat f k /\
    (found = false -> k = List.length attempts) /\
    (found = true -> (1 <= k)%nat).
Proof.
  induction attempts as [|i rest IH]; intros w s Hs Hf.
  - exists false, w, 0%nat. cbn [sync_attempts repeat List.length].
    rewrite app_nil_r. repeat split; try reflexivity; try lia; try discriminate.
  - destruct (verify_attempt_written w s f Hs Hf)
      as (status & msg & w1 & s1 & E & Hs1 & Hw1).
    rewrite sync_attempts_cons, E.
    destruct (status =? 0); [|destruct (0 <? status)].
    + exists true, (mkWorld (ser w1) (env w1) (trace w1 ++ [Print (SyncOk msg)])),
        1%nat.
      cbn [trace List.length repeat]. rewrite written_app, Hw1.
      cbn [written flat_map app]. rewrite app_nil_r.
      repeat split; try reflexivity; try lia; try discriminate.
    + exists true,
        (mkWorld (ser w1) (env w1) (trace w1 ++ [Print (SyncDeviceError msg)])),
        1%nat.
      cbn [trace List.length repeat]. rewrite written_app, Hw1.
      cbn [written flat_map app]. rewrite app_nil_r.
      repeat split; try reflexivity; try lia; try discriminate.
    + destruct (sync_pause_world (i + 1) w1) as (Hp & _ & _).
      rewrite Hs1 in Hp.
      destruct (IH _ s1 Hp Hf) as (found & w' & k & E' & Hk & Hw' & Hfalse & Htrue).
      exists found, w', (S k). rewrite sync_pause_written, Hw1 in Hw'.
      cbn [List.length repeat]. rewrite Hw', <- app_assoc.
      repeat split; try assumption; try reflexivity; try lia.
      intros Hfound. rewrite (Hfalse Hfound). reflexivity.
Qed.

(** X7.  On an open port sync always returns, whatever arrives and
    whenever: it writes at least one and at most three VERIFY frames and
    nothing else, and it returns false only after the third. *)
Theorem sync_bounded :
  forall (w : World) (s : Serial) (f : list byte),
    ser w = Some s ->
    encode_frame OTA_CMD_VERIFY [] = Some f ->
    exists found w' k,
      sync w = (Ok found, w') /\
      (1 <= k <= 3)%nat /\
      written (trace w') = written (trace w) ++ repeat f k /\
      (found = false -> k = 3%nat).
Proof.
  intros w s f Hs Hf. rewrite sync_start.
  destruct (sync_attempts_bounded f [0; 1; 2]%nat (snd (print SyncStart w)) s Hs Hf)
    as (found & w' & k & E & Hk & Hw & Hfalse & Htrue).
  exists found, w', k. cbn [List.length] in *.
  split; [exact E|]. split; [|split; [|exact Hfalse]].
  - destruct found; [specialize (Htrue eq_refl) | specialize (Hfalse eq_refl)]; lia.
  - rewrite Hw. unfold print, emit. cbn [snd trace]. rewrite written_app.
    cbn [written flat_map app]. rewrite app_nil_r. reflexivity.
Qed.

(** A run that meets the hypotheses of [sync_bounded]. *)
Lemma sync_bounded_witness :
  let s := mkSerial false false [] in
  let w := mkWorld (Some s) [mkTick true [xaa; x55; x07; x00; xae; x74]] [] in
  let f := [xab; xcd; x04; x00; x00; x00; x00; x00; x00; x00; x00; x00; x00; x00;
            x05; x49] in
  (ser w = Some s /\ encode_frame OTA_CMD_VERIFY [] = Some f) /\
  exists found w' k,
    sync w = (Ok found, w') /\
    (1 <= k <= 3)%nat /\
    written (trace w') = written (trace w) ++ repeat f k /\
    (found = false -> k = 3%nat).
Proof.
  cbv zeta.
  assert (Hf : encode_frame OTA_CMD_VERIFY [] =
               Some [xab; xcd; x04; x00; x00; x00; x00; x00; x00; x00; x00; x00;
                     x00; x00; x05; x49]) by (vm_compute; reflexivity).
  split; [split; [reflexivity | exact Hf]|].
  exact (sync_bounded
           (mkWorld (Some (mkSerial false false []))
              [mkTick true [xaa; x55; x07; x00; xae; x74]] [])
           (mkSerial false false []) _ eq_refl Hf).
Defined.

(** ** The upload, whatever the device does *)

Lemma byte_of_Z_inv z b : byte_of_Z z = Some b -> byte_val b = z.
Proof.
  intros H. destruct (Z_le_dec 0 z); [destruct (Z_lt_dec z 256)|].
  - destruct (byte_of_Z_some z) as (b' & E & Hb); [lia|]. congruence.
  - rewrite byte_of_Z_none in H by lia. discriminate.
  - rewrite byte_of_Z_none in H by lia. discriminate.
Qed.

Lemma pack_I_inv v p :
  pack_I v = Some p ->
  exists b3 b2 b1 b0,
    p = [b3; b2; b1; b0] /\
    ((byte_val b3 * 256 + byte_val b2) * 256 + byte_val b1) * 256 + byte_val b0 = v /\
    0 <= v < 4294967296.
Proof.
  unfold pack_I.
  destruct (Z.leb_spec 0 v); [|discriminate].
  destruct (Z.ltb_spec v 4294967296); [|discriminate]. cbn [andb].
  destruct (byte_of_Z (v / 16777216)) as [b3|] eqn:E3; [|discriminate].
  destruct (byte_of_Z (v / 65536 mod 256)) as [b2|] eqn:E2; [|discriminate].
  destruct (byte_of_Z (v / 256 mod 256)) as [b1|] eqn:E1; [|discriminate].
  destruct (byte_of_Z (v mod 256)) as [b0|] eqn:E0; [|discriminate].
  intros Hp. injection Hp as <-. exists b3, b2, b1, b0.
  apply byte_of_Z_inv in E3, E2, E1, E0. rewrite E3, E2, E1, E0.
  split; [reflexivity|]. split; [|lia].
  Z.to_euclidean_division_equations. lia.
Qed.

Lemma pack_I_some v :
  0 <= v < 4294967296 -> exists p, pack_I v = Some p.
Proof.
  intros Hv. unfold pack_I.
  destruct (Z.leb_spec 0 v); [|lia].
  destruct (Z.ltb_spec v 4294967296); [|lia]. cbn [andb].
  destruct (byte_of_Z_some (v / 16777216)) as (b3 & -> & _).
  { split; [apply Z.div_pos; lia | apply Z.div_lt_upper_bound; lia]. }
  destruct (byte_of_Z_some (v / 65536 mod 256)) as (b2 & -> & _);
    [apply Z.mod_pos_bound; lia|].
  destruct (byte_of_Z_some (v / 256 mod 256)) as (b1 & -> & _);
    [apply Z.mod_pos_bound; lia|].
  destruct (byte_of_Z_some (v mod 256)) as (b0 & -> & _);
    [apply Z.mod_pos_bound; lia|].
  eauto.
Qed.

Lemma pack_I_none v : ~ (0 <= v < 4294967296) -> pack_I v = None.
Proof.
  intros Hv. unfold pack_I.
  destruct (Z.leb_spec 0 v); destruct (Z.ltb_spec v 4294967296); cbn [andb];
    try reflexivity. lia.
Qed.

(** On an open port the START step returns a pair whenever the file size
    fits four bytes. *)
Lemma start_round_returns data w s p :
  ser w = Some s ->
  pack_I (Z.of_nat (List.length data)) = Some p ->
  exists status msg w1, start_round data w = (Ok (status, msg), w1).
Proof.
  intros Hs Hp. unfold start_round.
  rewrite bind_split, print_world, bind_split, print_world, bind_split, Hp.
  cbn [struct_pack]. set (w0 := mkWorld _ _ _).
  assert (Hs0 : ser w0 = Some s) by exact Hs.
  destruct (encode_frame_some OTA_CMD_START p) as (c & rest & _ & He & _).
  { unfold OTA_CMD_START. lia. }
  { rewrite (pack_I_length _ _ Hp). cbn. lia. }
  destruct (send_frame_written _ _ _ _ _ Hs0 He) as (w' & E1 & Hs' & _ & _).
  destruct (receive_ack_quiet 10000 true w' s Hs')
    as (st & msg & w2 & s2 & E2 & _ & _).
  rewrite bind_split, E1, E2. eauto.
Qed.

(** Either every one of the first [k] chunks is acknowledged, or there is
    a first one that is refused. *)
Lemma first_refused data w s :
  ser w = Some s ->
  forall k,
    (forall j, (j < k)%nat -> acked (chunk_round data j (after_chunks data j w))) \/
    (exists i, (i < k)%nat /\
       (forall j, (j < i)%nat -> acked (chunk_round data j (after_chunks data j w))) /\
       refused (chunk_round data i (after_chunks data i w))).
Proof.
  intros Hs. induction k as [|k [IH|IH]].
  - left. intros j Hj. lia.
  - destruct (after_chunks_written data w s k Hs) as [[sk Hsk] _].
    destruct (chunk_round_written data k _ sk Hsk) as (st & msg & w' & s' & E & _ & _).
    destruct (Z.eq_dec st 0) as [->|Hne].
    + left. intros j Hj. destruct (Nat.eq_dec j k) as [->|].
      * exists msg. rewrite E. reflexivity.
      * apply IH. lia.
    + right. exists k. split; [lia|]. split; [exact IH|].
      exists st, msg. rewrite E. auto.
  - right. destruct IH as (i & Hi & Hack & Href). exists i. split; [lia | auto].
Qed.

(** X8.  If the START acknowledgment has a status other than 0, the local
    timeout included, the upload returns false at once: all it has written
    is the START frame, whose payload is the file size as four big-endian
    bytes, and the last line printed is the START failure. *)
Theorem upload_stops_on_refused_start :
  forall (data : list byte) (w : World) (s : Serial) (status : Z) (msg : text)
         (w1 : World),
    ser w = Some s ->
    start_round data w = (Ok (status, msg), w1) ->
    status <> 0 ->
    upload_file (Some data) w =
      (Ok false,
       mkWorld (ser w1) (env w1) (trace w1 ++ [Print (StartFailed msg)])) /\
    exists b3 b2 b1 b0,
      ((byte_val b3 * 256 + byte_val b2) * 256 + byte_val b1) * 256 + byte_val b0 =
        Z.of_nat (List.length data) /\
      written (trace (snd (upload_file (Some data) w))) =
        written (trace w) ++ [frame_of OTA_CMD_START [b3; b2; b1; b0]].
Proof.
  intros data w s status msg w1 Hs Hstart Hne.
  assert (E : upload_file (Some data) w =
              (Ok false,
               mkWorld (ser w1) (env w1) (trace w1 ++ [Print (StartFailed msg)]))).
  { rewrite upload_file_steps, Hstart.
    destruct (Z.eqb_spec status 0); [contradiction|]. reflexivity. }
  split; [exact E|].
  destruct (start_round_written _ _ _ _ _ Hs Hstart) as (p & s1 & Hp & _ & Hw).
  destruct (pack_I_inv _ _ Hp) as (b3 & b2 & b1 & b0 & -> & Hv & _).
  exists b3, b2, b1, b0. split; [exact Hv|].
  rewrite E. cbn [snd trace]. rewrite written_app, Hw.
  cbn [written flat_map app]. apply app_nil_r.
Qed.

(** A run that meets the hypotheses of [upload_stops_on_refused_start]:
    the device answers START with status 7. *)
Lemma upload_stops_on_refused_start_witness :
  let data := [x01; x02; x03] in
  let s := mkSerial false false [] in
  let w := mkWorld (Some s) [mkTick true [xaa; x55; x07; x00; xae; x74]] [] in
  let w1 := snd (start_round data w) in
  (ser w = Some s /\
   start_round data w = (Ok (7, Utf8Replace []), w1) /\
   7 <> 0) /\
  upload_file (Some data) w =
    (Ok false,
     mkWorld (ser w1) (env w1) (trace w1 ++ [Print (StartFailed (Utf8Replace []))])) /\
  exists b3 b2 b1 b0,
    ((byte_val b3 * 256 + byte_val b2) * 256 + byte_val b1) * 256 + byte_val b0 =
      Z.of_nat (List.length data) /\
    written (trace (snd (upload_file (Some data) w))) =
      written (trace w) ++ [frame_of OTA_CMD_START [b3; b2; b1; b0]].
Proof.
  intros data s w w1.
  assert (H2 : start_round data w = (Ok (7, Utf8Replace []), w1))
    by (vm_compute; reflexivity).
  assert (H3 : 7 <> 0) by lia.
  split; [split; [reflexivity | split; assumption]|].
  exact (upload_stops_on_refused_start data w s 7 (Utf8Replace []) w1
           eq_refl H2 H3).
Defined.

(** X9.  On an open port, with a START step that returned, the upload
    returns true exactly when START, every DATA frame and END are each
    acknowledged with status 0; a positive status or a timeout at any of
    them makes it false. *)
Theorem upload_succeeds_iff :
  forall (data : list byte) (w : World) (s : Serial) (status : Z) (msg : text)
         (w1 : World),
    ser w = Some s ->
    start_round data w = (Ok (status, msg), w1) ->
    let w2 := transfer_start msg w1 in
    let q := chunk_count (List.length data) in
    fst (upload_file (Some data) w) = Ok true <->
    status = 0 /\
    (forall j, (j < q)%nat -> acked (chunk_round data j (after_chunks data j w2))) /\
    acked (end_round (after_chunks data q w2)).
Proof.
  intros data w s status msg w1 Hs Hstart w2 q.
  destruct (start_round_written _ _ _ _ _ Hs Hstart) as (p & s1 & _ & Hs1 & _).
  destruct (transfer_start_world msg w1) as [Hs2 _]. fold w2 in Hs2.
  rewrite Hs1 in Hs2.
  rewrite upload_file_steps, Hstart. fold w2.
  destruct (Z.eqb_spec status 0) as [->|Hne]; cbn [negb].
  2:{ split; [discriminate | intros [H _]; contradiction]. }
  destruct (first_refused data w2 s1 Hs2 q) as [Hall | (i & Hi & Hack & Href)].
  - rewrite (transfer_loop_completes data w2 (List.length data)
               (chunk_count_le _) Hall). cbn [negb]. fold q.
    destruct (after_chunks_written data w2 s1 q Hs2) as [[s3 Hs3] _].
    destruct (end_round_written _ s3 Hs3) as (st & m & w4 & Hend & _).
    rewrite Hend. unfold acked. cbn [fst].
    destruct (Z.eqb_spec st 0) as [->|Hst]; cbn [negb fst].
    + split; [intros _ | reflexivity]. split; [reflexivity|]. split; [exact Hall | eauto].
    + split; [discriminate|]. intros (_ & _ & m' & Hm). congruence.
  - destruct (transfer_loop_aborts data w2 (List.length data) i
                (chunk_count_le _) Hi Hack Href) as [msg' ->]. cbn [negb fst].
    split; [discriminate|]. intros (_ & Hall & _).
    destruct (Hall i Hi) as [m Hm]. destruct Href as (st & m' & Hr & Hst).
    congruence.
Qed.

(** A run that meets the hypotheses of [upload_succeeds_iff]. *)
Lemma upload_succeeds_iff_witness :
  let data := [x01; x02; x03] in
  let ok := [xaa; x55; x00; x02; x4f; x4b; xdb; x72] in
  let s := mkSerial false false [] in
  let w := mkWorld (Some s) (polls [ok; ok; ok]) [] in
  let msg := Utf8Replace [x4f; x4b] in
  let w1 := snd (start_round data w) in
  let w2 := transfer_start msg w1 in
  let q := chunk_count (List.length data) in
  (ser w = Some s /\ start_round data w = (Ok (0, msg), w1)) /\
  (fst (upload_file (Some data) w) = Ok true <->
   0 = 0 /\
   (forall j, (j < q)%nat -> acked (chunk_round data j (after_chunks data j w2))) /\
   acked (end_round (after_chunks data q w2))).
Proof.
  intros data ok s w msg w1.
  assert (H2 : start_round data w = (Ok (0, msg), w1)) by (vm_compute; reflexivity).
  split; [split; [reflexivity | exact H2]|].
  exact (upload_succeeds_iff data w s 0 msg w1 eq_refl H2).
Defined.

(** X10.  On an open port [upload_file] always comes to an end.  Without a
    file it returns false and touches nothing but the console.  With a
    file of less than 2^32 bytes it returns a boolean: the data loop never
    needs more turns than the file has bytes.  With a larger file the
    packing of the size raises [struct.error] after the first two lines
    are printed and before anything is written. *)
Theorem upload_file_returns :
  forall (w : World) (s : Serial),
    ser w = Some s ->
    upload_file None w =
      (Ok false, mkWorld (ser w) (env w) (trace w ++ [Print FileMissing])) /\
    forall data : list byte,
      (Z.of_nat (List.length data) < 4294967296 ->
       exists sent w', upload_file (Some data) w = (Ok sent, w')) /\
      (4294967296 <= Z.of_nat (List.length data) ->
       upload_file (Some data) w =
         (StructError,
          mkWorld (ser w) (env w)
            (trace w ++ [Print (FirmwareSize (List.length data));
                         Print SendingStart]))).
Proof.
  intros w s Hs. split; [reflexivity|]. intros data. split; intros Hn.
  - destruct (pack_I_some (Z.of_nat (List.length data))) as [p Hp]; [lia|].
    destruct (start_round_returns data w s p Hs Hp) as (status & msg & w1 & Hstart).
    destruct (start_round_written _ _ _ _ _ Hs Hstart) as (_ & s1 & _ & Hs1 & _).
    destruct (transfer_start_world msg w1) as [Hs2 _]. rewrite Hs1 in Hs2.
    rewrite upload_file_steps, Hstart.
    destruct (negb (status =? 0)); [do 2 eexists; reflexivity|].
    destruct (first_refused data _ s1 Hs2 (chunk_count (List.length data)))
      as [Hall | (i & Hi & Hack & Href)].
    + rewrite (transfer_loop_completes data _ (List.length data)
                 (chunk_count_le _) Hall). cbn [negb].
      destruct (after_chunks_written data _ s1 (chunk_count (List.length data)) Hs2)
        as [[s3 Hs3] _].
      destruct (end_round_written _ s3 Hs3) as (st & m & w4 & -> & _).
      destruct (negb (st =? 0)); do 2 eexists; reflexivity.
    + destruct (transfer_loop_aborts data _ (List.length data) i
                  (chunk_count_le _) Hi Hack Href) as [msg' ->].
      do 2 eexists. reflexivity.
  - cbn [upload_file]. cbv zeta.
    rewrite bind_split, print_world, bind_split, print_world, bind_split.
    rewrite pack_I_none by lia. cbn [struct_pack ser env trace].
    rewrite <- app_assoc. reflexivity.
Qed.

(** A world that meets the hypothesis of [upload_file_returns]. *)
Lemma upload_file_returns_witness :
  let s := mkSerial false false [] in
  let w := mkWorld (Some s) [] [] in
  ser w = Some s /\
  upload_file None w =
    (Ok false, mkWorld (ser w) (env w) (trace w ++ [Print FileMissing])) /\
  forall data : list byte,
    (Z.of_nat (List.length data) < 4294967296 ->
     exists sent w', upload_file (Some data) w = (Ok sent, w')) /\
    (4294967296 <= Z.of_nat (List.length data) ->
     upload_file (Some data) w =
       (StructError,
        mkWorld (ser w) (env w)
          (trace w ++ [Print (FirmwareSize (List.length data));
                       Print SendingStart]))).
Proof.
  cbv zeta. split; [reflexivity|].
  exact (upload_file_returns (mkWorld (Some (mkSerial false false [])) [] [])
           (mkSerial false false []) eq_refl).
Defined.

(** X11.  For an empty file whose START is acknowledged with status 0, the
    data loop does not run: the upload writes the START frame for size 0,
    then the END frame, and no DATA frame, and it returns true exactly when
    END is acknowledged with status 0. *)
Theorem upload_empty_file :
  forall (w : World) (s : Serial) (msg : text) (w1 : World),
    ser w = Some s ->
    start_round [] w = (Ok (0, msg), w1) ->
    written (trace (snd (upload_file (Some []) w))) =
      written (trace w) ++
      [frame_of OTA_CMD_START [x00; x00; x00; x00]; frame_of OTA_CMD_END []] /\
    (fst (upload_file (Some []) w) = Ok true <->
     acked (end_round (transfer_start msg w1))).
Proof.
  intros w s msg w1 Hs Hstart.
  destruct (start_round_written _ _ _ _ _ Hs Hstart) as (p & s1 & Hp & Hs1 & Hw1).
  cbn [List.length Z.of_nat] in Hp. injection Hp as <-.
  destruct (transfer_start_world msg w1) as [Hs2 Hw2]. rewrite Hs1 in Hs2.
  rewrite upload_file_steps, Hstart. cbn [Z.eqb negb List.length].
  rewrite transfer_loop_done by lia. cbn [negb].
  destruct (end_round_written _ s1 Hs2) as (st & m & w4 & Hend & Hw4).
  rewrite Hend. unfold acked. cbn [fst].
  assert (Hw : written (trace w4) =
               written (trace w) ++
               [frame_of OTA_CMD_START [x00; x00; x00; x00]; frame_of OTA_CMD_END []])
    by (rewrite Hw4, Hw2, Hw1, <- app_assoc; reflexivity).
  destruct (Z.eqb_spec st 0) as [->|Hst]; cbn [negb]; unfold bind, print, emit, ret;
    cbn [snd fst trace]; rewrite written_app, Hw; cbn [written flat_map app];
    rewrite app_nil_r; (split; [reflexivity|]).
  - split; [eauto | reflexivity].
  - split; [discriminate | intros [m' Hm]; congruence].
Qed.

(** A run that meets the hypotheses of [upload_empty_file]. *)
Lemma upload_empty_file_witness :
  let ok := [xaa; x55; x00; x02; x4f; x4b; xdb; x72] in
  let s := mkSerial false false [] in
  let w := mkWorld (Some s) (polls [ok; ok]) [] in
  let msg := Utf8Replace [x4f; x4b] in
  let w1 := snd (start_round [] w) in
  (ser w = Some s /\ start_round [] w = (Ok (0, msg), w1)) /\
  written (trace (snd (upload_file (Some []) w))) =
    written (trace w) ++
    [frame_of OTA_CMD_START [x00; x00; x00; x00]; frame_of OTA_CMD_END []] /\
  (fst (upload_file (Some []) w) = Ok true <->
   acked (end_round (transfer_start msg w1))).
Proof.
  intros ok s w msg w1.
  assert (H2 : start_round [] w = (Ok (0, msg), w1)) by (vm_compute; reflexivity).
  split; [split; [reflexivity | exact H2]|].
  exact (upload_empty_file w s msg w1 eq_refl H2).
Defined.

(** ** Progress of the data loop *)

Lemma progress_lines_app tr1 tr2 :
  progress_lines (tr1 ++ tr2) = progress_lines tr1 ++ progress_lines tr2.
Proof. apply flat_map_app. Qed.

Lemma chunk_round_progress data j w s :
  ser w = Some s ->
  progress_lines (trace (snd (chunk_round data j w))) = progress_lines (trace w).
Proof.
  intros Hs. unfold chunk_round. rewrite bind_split.
  rewrite (send_frame_encode _ _ _ _ Hs), (encode_chunk data j).
  set (w1 := mkWorld _ _ _).
  destruct (receive_ack_events 1000 false w1 s Hs)
    as (st & msg & w' & s' & added & used & E & _ & _ & _ & _ & Ht & Ha & _).
  rewrite E. cbn [snd]. rewrite Ht, progress_lines_app.
  rewrite (wait_events_progress _ _ Ha), app_nil_r.
  unfold w1. cbn [trace]. rewrite progress_lines_app. apply app_nil_r.
Qed.

Lemma after_chunks_progress data w s : forall i,
  ser w = Some s ->
  progress_lines (trace (after_chunks data i w)) =
  progress_lines (trace w) ++
  map (fun j =>
         let offset := (j * CHUNK_SIZE + List.length (chunk_at data j))%nat in
         ((offset * 100) / List.length data, offset, List.length data)%nat)
      (seq 0 i).
Proof.
  intros i Hs. induction i as [|i IH]; [symmetry; apply app_nil_r|].
  destruct (after_chunks_written data w s i Hs) as [[si Hsi] _].
  cbn [after_chunks]. unfold chunk_progress at 1. cbv zeta.
  rewrite print_world. cbn [snd trace].
  rewrite progress_lines_app, (chunk_round_progress data i _ si Hsi), IH.
  rewrite seq_S, map_app, <- app_assoc. reflexivity.
Qed.

Lemma offset_after_bounds data j :
  (j < chunk_count (List.length data))%nat ->
  (offset_after data j <= List.length data)%nat /\
  ((offset_after data j * 100) / List.length data <= 100)%nat.
Proof.
  intros Hj. apply chunk_index_lt in Hj.
  assert (Hle : (offset_after data j <= List.length data)%nat)
    by (unfold offset_after; lia).
  split; [exact Hle|]. apply Nat.Div0.div_le_upper_bound. lia.
Qed.

(** X12.  When every DATA frame is acknowledged with status 0, the data
    loop prints one progress line per chunk and no other: after chunk [j]
    the offset shown is [min((j+1)*4096, S)] and the percentage is
    [offset*100 // S].  The offsets grow strictly and never pass the file
    size, no percentage passes 100, and the last line shows the whole file
    and 100 percent. *)
Theorem transfer_progress :
  forall (data : list byte) (w : World) (s : Serial),
    ser w = Some s ->
    let n := List.length data in
    let q := chunk_count n in
    (forall j, (j < q)%nat -> acked (chunk_round data j (after_chunks data j w))) ->
    progress_lines (trace (snd (transfer_loop n data n 0 0 w))) =
      progress_lines (trace w) ++
      map (fun j => ((offset_after data j * 100) / n, offset_after data j, n)%nat)
          (seq 0 q) /\
    (forall j, (j < q)%nat ->
               (offset_after data j <= n)%nat /\
               ((offset_after data j * 100) / n <= 100)%nat) /\
    (forall j, (j + 1 < q)%nat ->
               (offset_after data j < offset_after data (j + 1))%nat) /\
    ((0 < q)%nat ->
     offset_after data (q - 1) = n /\ ((n * 100) / n = 100)%nat).
Proof.
  intros data w s Hs n q Hack. subst q n. split; [|split; [|split]].
  - rewrite (transfer_loop_completes data w (List.length data)
               (chunk_count_le _) Hack). cbn [snd].
    rewrite (after_chunks_progress data w s _ Hs). f_equal.
    apply map_ext_in. intros j Hj. apply in_seq in Hj. cbv zeta.
    rewrite next_offset by lia. reflexivity.
  - intros j Hj. apply offset_after_bounds. exact Hj.
  - intros j Hj. apply chunk_index_lt in Hj. unfold offset_after.
    pose proof CHUNK_SIZE_pos. lia.
  - intros Hq. destruct (chunk_count_spec (List.length data)) as [H1 H2].
    pose proof CHUNK_SIZE_pos as Hc.
    assert (Hn : (0 < List.length data)%nat).
    { apply (chunk_index_lt (List.length data) 0) in Hq. lia. }
    split.
    + unfold offset_after.
      replace (chunk_count (List.length data) - 1 + 1)%nat
        with (chunk_count (List.length data)) by lia.
      lia.
    + rewrite Nat.mul_comm. apply Nat.div_mul. lia.
Qed.

(** A run that meets the hypotheses of [transfer_progress]: two chunks. *)
Lemma transfer_progress_witness :
  let data := repeat x07 4097 in
  let ok := [xaa; x55; x00; x02; x4f; x4b; xdb; x72] in
  let s := mkSerial false false [] in
  let w := mkWorld (Some s) (polls [ok; ok]) [] in
  let n := List.length data in
  let q := chunk_count n in
  (ser w = Some s /\
   (forall j, (j < q)%nat -> acked (chunk_round data j (after_chunks data j w)))) /\
  progress_lines (trace (snd (transfer_loop n data n 0 0 w))) =
    progress_lines (trace w) ++
    map (fun j => ((offset_after data j * 100) / n, offset_after data j, n)%nat)
        (seq 0 q) /\
  (forall j, (j < q)%nat ->
             (offset_after data j <= n)%nat /\
             ((offset_after data j * 100) / n <= 100)%nat) /\
  (forall j, (j + 1 < q)%nat ->
             (offset_after data j < offset_after data (j + 1))%nat) /\
  ((0 < q)%nat ->
   offset_after data (q - 1) = n /\ ((n * 100) / n = 100)%nat).
Proof.
  intros data ok s w n q.
  assert (Hc : chunk_count (List.length data) = 2%nat) by (vm_compute; reflexivity).
  assert (H2 : forall j, (j < q)%nat ->
                         acked (chunk_round data j (after_chunks data j w))).
  { intros j Hj. unfold q, n in Hj. rewrite Hc in Hj.
    destruct j as [|[|j]]; [| |lia]; exists (Utf8Replace [x4f; x4b]);
      vm_compute; reflexivity. }
  split; [split; [reflexivity | exact H2]|].
  exact (transfer_progress data w s eq_refl H2).
Defined.

(** ** What the CRC detects, and when a frame cannot be sent *)

Lemma high_bits16 a n : 0 <= a < 65536 -> 16 <= n -> Z.testbit a n = false.
Proof.
  intros Ha Hn. rewrite <- (low16_small a Ha), low16_bits by lia.
  replace (n <? 16) with false by (symmetry; apply Z.ltb_ge; lia).
  apply andb_false_r.
Qed.

Lemma lxor_range16 a b :
  0 <= a < 65536 -> 0 <= b < 65536 -> 0 <= Z.lxor a b < 65536.
Proof.
  intros Ha Hb.
  assert (E : low16 (Z.lxor a b) = Z.lxor a b)
    by (rewrite low16_lxor, (low16_small a Ha), (low16_small b Hb); reflexivity).
  rewrite <- E. apply low16_range.
Qed.

Lemma xmodem_round_range r : 0 <= xmodem_round r < 65536.
Proof. unfold xmodem_round. destruct (Z.testbit r 15); apply low16_range. Qed.

Lemma xmodem_round_bit0 r : Z.testbit (xmodem_round r) 0 = Z.testbit r 15.
Proof.
  unfold xmodem_round. destruct (Z.testbit r 15).
  - fold (low16 (Z.lxor (Z.shiftl r 1) 0x1021)).
    rewrite low16_bits, Z.lxor_spec, Z.shiftl_spec_low by lia. reflexivity.
  - fold (low16 (Z.shiftl r 1)).
    rewrite low16_bits, Z.shiftl_spec_low by lia. reflexivity.
Qed.

Lemma xmodem_round_bits r n :
  1 <= n < 16 ->
  Z.testbit (xmodem_round r) n =
  xorb (Z.testbit r (n - 1)) (Z.testbit r 15 && Z.testbit 0x1021 n).
Proof.
  intros Hn. unfold xmodem_round.
  replace true with (n <? 16) at 1 by (apply Z.ltb_lt; lia).
  destruct (Z.testbit r 15).
  - fold (low16 (Z.lxor (Z.shiftl r 1) 0x1021)).
    rewrite low16_bits, Z.lxor_spec, Z.shiftl_spec by lia.
    replace (n <? 16) with true by (symmetry; apply Z.ltb_lt; lia).
    rewrite andb_true_r. reflexivity.
  - fold (low16 (Z.shiftl r 1)).
    rewrite low16_bits, Z.shiftl_spec by lia.
    replace (n <? 16) with true by (symmetry; apply Z.ltb_lt; lia).
    rewrite andb_true_r, xorb_false_r. reflexivity.
Qed.

(** One round of the register loses nothing: it is one-to-one on the
    16-bit values. *)
Lemma xmodem_round_inj a b :
  0 <= a < 65536 -> 0 <= b < 65536 ->
  xmodem_round a = xmodem_round b -> a = b.
Proof.
  intros Ha Hb E.
  assert (H15 : Z.testbit a 15 = Z.testbit b 15)
    by (rewrite <- !xmodem_round_bit0, E; reflexivity).
  apply Z.bits_inj'. intros n Hn.
  destruct (Z_lt_dec n 15) as [Hlt|Hge].
  - pose proof (xmodem_round_bits a (n + 1) ltac:(lia)) as Ea.
    pose proof (xmodem_round_bits b (n + 1) ltac:(lia)) as Eb.
    rewrite E, Eb, H15 in Ea. replace (n + 1 - 1) with n in Ea by lia.
    destruct (Z.testbit a n), (Z.testbit b n),
      (Z.testbit b 15 && Z.testbit 4129 (n + 1)); try reflexivity; discriminate.
  - destruct (Z.eq_dec n 15) as [->|]; [exact H15|].
    rewrite (high_bits16 a n Ha), (high_bits16 b n Hb) by lia. reflexivity.
Qed.

Lemma xmodem_rounds_inj k : forall a b,
  0 <= a < 65536 -> 0 <= b < 65536 ->
  Nat.iter k xmodem_round a = Nat.iter k xmodem_round b -> a = b.
Proof.
  induction k as [|k IH]; intros a b Ha Hb E; [exact E|].
  cbn [Nat.iter nat_rect] in E. fold (Nat.iter k xmodem_round a) in E.
  fold (Nat.iter k xmodem_round b) in E.
  apply IH; [exact Ha | exact Hb|].
  apply xmodem_round_inj; [| |exact E];
    (destruct k; [assumption | cbn [Nat.iter nat_rect]; apply xmodem_round_range]).
Qed.

Lemma byte_shift_range b : 0 <= Z.shiftl (byte_val b) 8 < 65536.
Proof.
  rewrite Z.shiftl_mul_pow2 by lia. pose proof (byte_val_range b). lia.
Qed.

Lemma xmodem_byte_range r b : 0 <= xmodem_byte r b < 65536.
Proof. unfold xmodem_byte. cbn [Nat.iter nat_rect]. apply xmodem_round_range. Qed.

Lemma xmodem_byte_inj_state r r' b :
  0 <= r < 65536 -> 0 <= r' < 65536 ->
  xmodem_byte r b = xmodem_byte r' b -> r = r'.
Proof.
  intros Hr Hr' E. unfold xmodem_byte in E.
  apply xmodem_rounds_inj in E;
    [|apply lxor_range16; [assumption | apply byte_shift_range]..].
  apply (f_equal (fun z => Z.lxor z (Z.shiftl (byte_val b) 8))) in E.
  rewrite !Z.lxor_assoc, Z.lxor_nilpotent, !Z.lxor_0_r in E. exact E.
Qed.

Lemma byte_val_inj b b' : byte_val b = byte_val b' -> b = b'.
Proof.
  intros E. pose proof (byte_of_Z_val b) as H. rewrite E, byte_of_Z_val in H.
  congruence.
Qed.

Lemma xmodem_byte_inj_byte r b b' :
  0 <= r < 65536 -> xmodem_byte r b = xmodem_byte r b' -> b = b'.
Proof.
  intros Hr E. unfold xmodem_byte in E.
  apply xmodem_rounds_inj in E;
    [|apply lxor_range16; [assumption | apply byte_shift_range]..].
  apply (f_equal (Z.lxor r)) in E.
  rewrite <- !Z.lxor_assoc, Z.lxor_nilpotent, !Z.lxor_0_l in E.
  rewrite !Z.shiftl_mul_pow2 in E by lia. apply byte_val_inj. lia.
Qed.

Lemma xmodem_fold_range data : forall r,
  0 <= r < 65536 -> 0 <= fold_left xmodem_byte data r < 65536.
Proof.
  induction data as [|b data IH]; intros r Hr; [exact Hr|].
  cbn [fold_left]. apply IH, xmodem_byte_range.
Qed.

Lemma xmodem_fold_inj data : forall r r',
  0 <= r < 65536 -> 0 <= r' < 65536 ->
  fold_left xmodem_byte data r = fold_left xmodem_byte data r' -> r = r'.
Proof.
  induction data as [|b data IH]; intros r r' Hr Hr' E; [exact E|].
  cbn [fold_left] in E. apply IH in E; try apply xmodem_byte_range.
  exact (xmodem_byte_inj_state _ _ _ Hr Hr' E).
Qed.

(** X13.  [crc16_xmodem] detects every change that is confined to one
    byte: two inputs that differ in exactly one position never have the
    same CRC. *)
Theorem crc16_detects_byte_change :
  forall (before after : list byte) (b b' : byte),
    b <> b' ->
    crc16_xmodem (before ++ b :: after) <> crc16_xmodem (before ++ b' :: after).
Proof.
  intros before after b b' Hne E. apply Hne.
  rewrite !crc16_xmodem_reference in E. unfold xmodem_reference in E.
  rewrite !fold_left_app in E. cbn [fold_left] in E.
  assert (Hr : 0 <= fold_left xmodem_byte before 0 < 65536)
    by (apply xmodem_fold_range; lia).
  apply xmodem_fold_inj in E; try apply xmodem_byte_range.
  exact (xmodem_byte_inj_byte _ _ _ Hr E).
Qed.

(** Two inputs that meet the hypothesis of [crc16_detects_byte_change]. *)
Lemma crc16_detects_byte_change_witness :
  x4f <> x4e /\
  crc16_xmodem ([xaa; x55; x00; x02] ++ x4f :: [x4b]) <>
  crc16_xmodem ([xaa; x55; x00; x02] ++ x4e :: [x4b]).
Proof.
  assert (H : x4f <> x4e) by discriminate.
  split; [exact H|].
  exact (crc16_detects_byte_change [xaa; x55; x00; x02] [x4b] x4f x4e H).
Defined.

Lemma send_frame_shape cmd payload :
  0 <= cmd < 256 ->
  Z.of_nat (List.length payload) <= 65535 ->
  exists f,
    encode_frame cmd payload = Some f /\
    List.length f = (List.length payload + 16)%nat.
Proof.
  intros Hc Hl. unfold encode_frame.
  destruct (pack_B_some cmd Hc) as (c & -> & _).
  destruct (pack_H_some (Z.of_nat (List.length payload))) as (l1 & l0 & -> & _);
    [lia|].
  cbv zeta.
  destruct (pack_H_some (crc16_xmodem
              ([xab; xcd] ++ [c] ++ [l1; l0] ++ repeat x00 9 ++ payload)))
    as (c1 & c0 & -> & _); [apply crc16_xmodem_range|].
  eexists. split; [reflexivity|].
  cbn [app repeat List.length]. rewrite length_app. cbn [List.length]. lia.
Qed.

(** X14.  On an open port [send_frame] raises [struct.error] exactly when
    the command does not fit one unsigned byte or the payload is longer
    than 65535 bytes, and then it writes nothing; otherwise it writes one
    frame of 16 bytes more than the payload. *)
Theorem send_frame_raises_iff :
  forall (w : World) (s : Serial) (cmd : Z) (payload : list byte),
    ser w = Some s ->
    (fst (send_frame cmd payload w) = StructError <->
     ~ (0 <= cmd < 256) \/ 65535 < Z.of_nat (List.length payload)) /\
    (fst (send_frame cmd payload w) = StructError ->
     snd (send_frame cmd payload w) = w) /\
    (fst (send_frame cmd payload w) = Ok tt ->
     exists f,
       trace (snd (send_frame cmd payload w)) = trace w ++ [Write f; Flush] /\
       List.length f = (List.length payload + 16)%nat).
Proof.
  intros w s cmd payload Hs.
  rewrite (send_frame_encode cmd payload w s Hs).
  destruct (Z_le_dec 0 cmd) as [H0|H0]; [destruct (Z_lt_dec cmd 256) as [H1|H1]|].
  - destruct (Z_le_dec (Z.of_nat (List.length payload)) 65535) as [Hl|Hl].
    + destruct (send_frame_shape cmd payload) as (f & -> & Hlen); [lia | lia|].
      cbn [fst snd trace]. split; [split; [discriminate | lia]|].
      split; [discriminate|]. intros _. exists f. auto.
    + unfold encode_frame. destruct (pack_B_some cmd) as (c & -> & _); [lia|].
      rewrite pack_H_none by lia. cbn [fst snd].
      split; [split; [lia | reflexivity]|]. split; [reflexivity | discriminate].
  - unfold encode_frame, pack_B. rewrite byte_of_Z_none by lia. cbn [fst snd].
    split; [split; [lia | reflexivity]|]. split; [reflexivity | discriminate].
  - unfold encode_frame, pack_B. rewrite byte_of_Z_none by lia. cbn [fst snd].
    split; [split; [lia | reflexivity]|]. split; [reflexivity | discriminate].
Qed.

(** A world that meets the hypothesis of [send_frame_raises_iff]. *)
Lemma send_frame_raises_iff_witness :
  let s := mkSerial false false [] in
  let w := mkWorld (Some s) [] [] in
  ser w = Some s /\
  (fst (send_frame 256 [x01] w) = StructError <->
   ~ (0 <= 256 < 256) \/ 65535 < Z.of_nat (List.length [x01])) /\
  (fst (send_frame 256 [x01] w) = StructError ->
   snd (send_frame 256 [x01] w) = w) /\
  (fst (send_frame 256 [x01] w) = Ok tt ->
   exists f,
     trace (snd (send_frame 256 [x01] w)) = trace w ++ [Write f; Flush] /\
     List.length f = (List.length [x01] + 16)%nat).
Proof.
  cbv zeta. split; [reflexivity|].
  exact (send_frame_raises_iff (mkWorld (Some (mkSerial false false [])) [] [])
           (mkSerial false false []) 256 [x01] eq_refl).
Defined.
